(** * IntegrityAI: the resume scoring core

    A shallow embedding of the scoring functions of [src/lib/ats-engine.ts],
    of the text analysis of [src/lib/ai-analysis.ts] and of the parser of
    pasted text of [src/lib/resume-parser.ts], with the properties the
    specification states about them and further properties of the code.

    Conventions of the embedding.
    - A JavaScript string is the list of its UTF-16 code units.
    - A JavaScript number is a binary64 value: a rational with a
      significand of 53 bits, or one of the special values NaN, +Infinity,
      -Infinity.  Every arithmetic operation returns the binary64 value
      nearest to the exact result, ties to the even significand, as IEEE 754
      has it.  Two things are left out: the range of the exponent (there is
      no overflow to an infinity and there are no subnormal numbers; the
      numbers of this program are far from both) and the sign of zero.
    - Letter case ([toLowerCase], and the case folding of patterns with the
      flag [i]) is that of the Basic Latin and Latin-1 Supplement blocks;
      the case table of the other blocks is not embedded, and code units
      above U+00FF are left as they are.
    - The regular expressions of the sources are interpreted by a
      backtracking matcher with the priorities of ECMAScript (greedy and
      lazy repetition, ordered alternation, lookahead, line and word
      assertions).
    - Two things are taken as parameters: the TF-IDF model of the [natural]
      package, and the RegExp constructor on keywords that contain pattern
      syntax characters, where it may throw. *)

From Stdlib Require Import Ascii String DecimalString.
From Stdlib Require Import List Bool Arith NArith ZArith QArith Qround Qpower.
From Stdlib Require Import Lia Lqa.
From Stdlib Require Import Permutation.
Import ListNotations.

Close Scope Q_scope.

(* ================================================================== *)
(** ** JavaScript strings *)
(* ================================================================== *)

Module JS.

Definition char := N.
Definition jsstring := list char.

(** [lit "text"] is the JavaScript string with the given (Latin-1) text. *)
Definition lit (s : string) : jsstring :=
  map N_of_ascii (list_ascii_of_string s).

Definition bullet : char := 8226%N.      (* U+2022 *)
Definition newline : char := 10%N.

Definition in_range (lo hi c : char) : bool := ((lo <=? c) && (c <=? hi))%N.

Definition memc (c : char) (cs : list char) : bool := existsb (N.eqb c) cs.

(** WhiteSpace and LineTerminator of ECMAScript: what [trim] strips and
    what the class [\s] matches. *)
Definition isWhiteSpace (c : char) : bool :=
  memc c [9; 10; 11; 12; 13; 32; 160; 5760; 8232; 8233; 8239; 8287; 12288; 65279]%N
  || in_range 8192%N 8202%N c.

Definition isLineTerminator (c : char) : bool :=
  memc c [10; 13; 8232; 8233]%N.

Definition isUpperAZ (c : char) : bool := in_range 65%N 90%N c.
Definition isLowerAZ (c : char) : bool := in_range 97%N 122%N c.
Definition isLetter (c : char) : bool := isUpperAZ c || isLowerAZ c.
Definition isDigit (c : char) : bool := in_range 48%N 57%N c.

(** The class [\w]. *)
Definition isWordChar (c : char) : bool :=
  isLetter c || isDigit c || (c =? 95)%N.

(** Case mapping of the Basic Latin and Latin-1 Supplement blocks; code
    units outside these blocks are left as they are (the rest of the Unicode
    case table is not embedded). *)
Definition lowerChar (c : char) : char :=
  if isUpperAZ c then (c + 32)%N
  else if in_range 192%N 222%N c && negb (c =? 215)%N then (c + 32)%N
  else c.

Definition toLowerCase (s : jsstring) : jsstring := map lowerChar s.

(** Canonicalize of a case-insensitive regular expression without the
    unicode flag: the upper-case form, unless that takes a code unit above
    127 to one below 128 or is not a single code unit. *)
Definition canon (c : char) : char :=
  if isLowerAZ c then (c - 32)%N
  else if in_range 224%N 254%N c && negb (c =? 247)%N then (c - 32)%N
  else if (c =? 255)%N then 376%N
  else if (c =? 181)%N then 924%N
  else c.

Fixpoint str_eqb (a b : jsstring) : bool :=
  match a, b with
  | [], [] => true
  | x :: a', y :: b' => (x =? y)%N && str_eqb a' b'
  | _, _ => false
  end.

Fixpoint startsWith (s p : jsstring) {struct p} : bool :=
  match p, s with
  | [], _ => true
  | x :: p', y :: s' => (x =? y)%N && startsWith s' p'
  | _ :: _, [] => false
  end.

(** [s.includes(sub)] *)
Fixpoint includes (s sub : jsstring) : bool :=
  startsWith s sub ||
  match s with
  | [] => false
  | _ :: s' => includes s' sub
  end.

Fixpoint trimStart (s : jsstring) : jsstring :=
  match s with
  | c :: s' => if isWhiteSpace c then trimStart s' else s
  | [] => []
  end.

Definition trimEnd (s : jsstring) : jsstring := rev (trimStart (rev s)).

Definition trim (s : jsstring) : jsstring := trimEnd (trimStart s).

(** [s.split(sep)] for a separator that is one code unit, more generally
    for a separator matched by a one-character class. *)
Fixpoint splitOn (p : char -> bool) (s : jsstring) : list jsstring :=
  match s with
  | [] => [[]]
  | c :: s' =>
      match splitOn p s' with
      | [] => [[c]]
      | w :: ws => if p c then [] :: w :: ws else (c :: w) :: ws
      end
  end.

Definition splitLines (s : jsstring) : list jsstring :=
  splitOn (N.eqb newline) s.

(** [parts.join(sep)] *)
Fixpoint join (sep : jsstring) (parts : list jsstring) : jsstring :=
  match parts with
  | [] => []
  | [p] => p
  | p :: ps => p ++ sep ++ join sep ps
  end.

(** [arr.includes(x)] on an array of strings. *)
Definition arrIncludes (arr : list jsstring) (x : jsstring) : bool :=
  existsb (str_eqb x) arr.

(** A [Set<string>] keeps its elements in insertion order. *)
Definition setAdd (set : list jsstring) (x : jsstring) : list jsstring :=
  if arrIncludes set x then set else set ++ [x].

(** [String(n)] for a length or a count: the decimal digits. *)
Definition decimal (n : nat) : jsstring :=
  lit (NilZero.string_of_uint (Nat.to_uint n)).

(** A text between double quotes. *)
Definition quoted (s : jsstring) : jsstring := [34%N] ++ s ++ [34%N].

End JS.

(* ================================================================== *)
(** ** JavaScript numbers *)
(* ================================================================== *)

Module Num.

Local Open Scope Q_scope.

Inductive number :=
| Fin (q : Q)
| PosInf
| NegInf
| NaN.

(** *** Rounding to binary64 *)

(** The integer nearest to [s], the even one of two that are equally
    near. *)
Definition nearestEven (s : Q) : Z :=
  let f := Qfloor s in
  match Qcompare (s - inject_Z f) (1 # 2) with
  | Lt => f
  | Gt => (f + 1)%Z
  | Eq => if Z.even f then f else (f + 1)%Z
  end.

(** For a positive [q], the exponent [e] of its last significant bit:
    [2 ^ 52 <= q / 2 ^ e < 2 ^ 53]. *)
Definition exponent (q : Q) : Z :=
  let e := (Z.log2 (Qnum q) - Z.log2 (Zpos (Qden q)) - 53)%Z in
  if Qle_bool (2 ^ 53) (q * 2 ^ (- e)) then (e + 1)%Z else e.

(** The nearest value with a significand of 53 bits, for a positive [q]. *)
Definition nearest (q : Q) : Q :=
  let e := exponent q in inject_Z (nearestEven (q * 2 ^ (- e))) * 2 ^ e.

Definition nearestDouble (q : Q) : Q :=
  match Qcompare q 0 with
  | Gt => nearest q
  | Lt => - nearest (- q)
  | Eq => 0
  end.

(** The binary64 value that a decimal literal denotes and that an
    operation with the exact result [q] returns, as a fraction in lowest
    terms. *)
Definition double (q : Q) : Q := Qred (nearestDouble (Qred q)).

Definition fin (q : Q) : number := Fin (double q).
(** An integer below 2 ^ 53 in absolute value, as every length and count
    is, is a binary64 value as it stands. *)
Definition ofZ (z : Z) : number := Fin (inject_Z z).
Definition ofNat (n : nat) : number := ofZ (Z.of_nat n).

Definition isZero (q : Q) : bool := Qeq_bool q 0.
Definition isNeg (q : Q) : bool := negb (Qle_bool 0 q).

Definition neg (a : number) : number :=
  match a with
  | Fin q => fin (- q)
  | PosInf => NegInf
  | NegInf => PosInf
  | NaN => NaN
  end.

Definition add (a b : number) : number :=
  match a, b with
  | NaN, _ | _, NaN => NaN
  | Fin x, Fin y => fin (x + y)
  | PosInf, NegInf | NegInf, PosInf => NaN
  | PosInf, _ | _, PosInf => PosInf
  | NegInf, _ | _, NegInf => NegInf
  end.

Definition sub (a b : number) : number := add a (neg b).

(** The sign of an infinity times a finite value. *)
Definition scaleInf (positive : bool) (q : Q) : number :=
  if isZero q then NaN
  else if Bool.eqb positive (isNeg q) then NegInf else PosInf.

Definition mul (a b : number) : number :=
  match a, b with
  | NaN, _ | _, NaN => NaN
  | Fin x, Fin y => fin (x * y)
  | PosInf, Fin q | Fin q, PosInf => scaleInf true q
  | NegInf, Fin q | Fin q, NegInf => scaleInf false q
  | PosInf, PosInf | NegInf, NegInf => PosInf
  | PosInf, NegInf | NegInf, PosInf => NegInf
  end.

(** Division: 0/0 is NaN, x/0 an infinity (the sign of a zero is not
    tracked: a zero divisor counts as +0). *)
Definition div (a b : number) : number :=
  match a, b with
  | NaN, _ | _, NaN => NaN
  | Fin x, Fin y =>
      if isZero y then
        if isZero x then NaN else if isNeg x then NegInf else PosInf
      else fin (x / y)
  | Fin _, (PosInf | NegInf) => Fin 0
  | PosInf, Fin q => if isNeg q then NegInf else PosInf
  | NegInf, Fin q => if isNeg q then PosInf else NegInf
  | (PosInf | NegInf), (PosInf | NegInf) => NaN
  end.

(** [a < b]; every comparison with NaN is false. *)
Definition lt (a b : number) : bool :=
  match a, b with
  | NaN, _ | _, NaN => false
  | Fin x, Fin y => negb (Qle_bool y x)
  | NegInf, (Fin _ | PosInf) => true
  | Fin _, PosInf => true
  | _, _ => false
  end.

Definition gt (a b : number) : bool := lt b a.

(** [a >= b] *)
Definition ge (a b : number) : bool :=
  match a, b with
  | NaN, _ | _, NaN => false
  | Fin x, Fin y => Qle_bool y x
  | PosInf, _ => true
  | _, NegInf => true
  | _, _ => false
  end.

(** [Math.min(a, b)] and [Math.max(a, b)]: NaN if either argument is. *)
Definition min (a b : number) : number :=
  match a, b with
  | NaN, _ | _, NaN => NaN
  | _, _ => if lt b a then b else a
  end.

Definition max (a b : number) : number :=
  match a, b with
  | NaN, _ | _, NaN => NaN
  | _, _ => if lt a b then b else a
  end.

(** [Math.round]: the nearest integer, halves towards +Infinity. *)
Definition round (a : number) : number :=
  match a with
  | Fin q => ofZ (Qfloor (q + (1 # 2)))
  | _ => a
  end.

(** A real number in the closed interval from 0 to 100. *)
Definition in_0_100 (a : number) : Prop :=
  match a with
  | Fin q => 0 <= q /\ q <= 100
  | _ => False
  end.

(** A real number that is not negative. *)
Definition nonneg (a : number) : Prop :=
  match a with
  | Fin q => 0 <= q
  | _ => False
  end.

End Num.

(* ================================================================== *)
(** ** Regular expressions *)
(* ================================================================== *)

Module Regex.
Import JS.

(** The fragment of the pattern language that the sources use.  Flags are
    resolved when a pattern is built: a case-insensitive character is a
    [Chr] whose predicate compares canonical forms. *)
Inductive re :=
| Eps
| Chr (p : char -> bool)
| Seq (r1 r2 : re)
| Alt (r1 r2 : re)
| Star (greedy : bool) (r : re)
| Look (r : re)                 (* (?=r) *)
| Bol (multiline : bool)        (* ^ *)
| WordB.                        (* \b *)

Definition atLineStart (multiline : bool) (prev : option char) : bool :=
  match prev with
  | None => true
  | Some c => multiline && isLineTerminator c
  end.

Definition isWordAt (c : option char) : bool :=
  match c with
  | Some c => isWordChar c
  | None => false
  end.

(** A position in the subject is the code unit before it, if any, and the
    input from it on.  [run r prev s k] matches [r] at the position
    [(prev, s)] and hands the position it reaches to the continuation [k];
    the alternatives are tried in the order of priority, and the answer is
    the input left over after the first complete match.  One turn of a
    repetition has to consume input, so the repetition takes at most
    [length s] turns. *)
Fixpoint run (r : re) (prev : option char) (s : jsstring)
    (k : option char -> jsstring -> option jsstring) {struct r}
    : option jsstring :=
  match r with
  | Eps => k prev s
  | Chr p =>
      match s with
      | c :: s' => if p c then k (Some c) s' else None
      | [] => None
      end
  | Seq r1 r2 => run r1 prev s (fun prev' s' => run r2 prev' s' k)
  | Alt r1 r2 =>
      match run r1 prev s k with
      | Some out => Some out
      | None => run r2 prev s k
      end
  | Star greedy r1 =>
      (fix turns (n : nat) (prev : option char) (s : jsstring) {struct n}
           : option jsstring :=
         match n with
         | O => k prev s
         | S n' =>
             let again (_ : unit) :=
               run r1 prev s (fun prev' s' =>
                 if length s' <? length s then turns n' prev' s' else None) in
             if greedy then
               match again tt with
               | Some out => Some out
               | None => k prev s
               end
             else
               match k prev s with
               | Some out => Some out
               | None => again tt
               end
         end) (length s) prev s
  | Look r1 =>
      match run r1 prev s (fun _ s' => Some s') with
      | Some _ => k prev s
      | None => None
      end
  | Bol multiline => if atLineStart multiline prev then k prev s else None
  | WordB =>
      if xorb (isWordAt prev) (isWordAt (hd_error s)) then k prev s else None
  end.

(** The length of the match of [r] that starts at the position, if any. *)
Definition execAt (r : re) (prev : option char) (s : jsstring) : option nat :=
  match run r prev s (fun _ s' => Some s') with
  | Some s' => Some (length s - length s')
  | None => None
  end.

(** [regex.test(s)] from index 0: is there a match at some position? *)
Fixpoint testFrom (r : re) (prev : option char) (s : jsstring) : bool :=
  match execAt r prev s with
  | Some _ => true
  | None =>
      match s with
      | [] => false
      | c :: s' => testFrom r (Some c) s'
      end
  end.

Definition test (r : re) (s : jsstring) : bool := testFrom r None s.

(** [s.match(regex)] with the global flag: the successive matches, each
    search resuming where the previous match ended (one further on after an
    empty match).  [skip] counts the code units of the current match that
    are still to be passed.  The empty list stands for [null]. *)
Fixpoint scan (r : re) (skip : nat) (prev : option char) (s : jsstring)
    : list jsstring :=
  match skip, s with
  | S n, c :: s' => scan r n (Some c) s'
  | S _, [] => []
  | O, _ =>
      match execAt r prev s with
      | Some len =>
          firstn len s ::
          match s with
          | [] => []
          | c :: s' => scan r (len - 1) (Some c) s'
          end
      | None =>
          match s with
          | [] => []
          | c :: s' => scan r 0 (Some c) s'
          end
      end
  end.

Definition matchAll (r : re) (s : jsstring) : list jsstring := scan r 0 None s.

(** [s.replace(regex, repl)] with the global flag. *)
Fixpoint replaceFrom (r : re) (repl : jsstring) (skip : nat)
    (prev : option char) (s : jsstring) : jsstring :=
  match skip, s with
  | S n, c :: s' => replaceFrom r repl n (Some c) s'
  | S _, [] => []
  | O, _ =>
      match execAt r prev s with
      | Some len =>
          repl ++
          match s with
          | [] => []
          | c :: s' =>
              (if (len =? 0)%nat then [c] else []) ++
              replaceFrom r repl (len - 1) (Some c) s'
          end
      | None =>
          match s with
          | [] => []
          | c :: s' => c :: replaceFrom r repl 0 (Some c) s'
          end
      end
  end.

Definition replaceAll (r : re) (repl s : jsstring) : jsstring :=
  replaceFrom r repl 0 None s.

(** [s.replace(regex, repl)] without the global flag: the first match. *)
Fixpoint replaceFirstFrom (r : re) (repl : jsstring)
    (prev : option char) (s : jsstring) : jsstring :=
  match execAt r prev s with
  | Some len => repl ++ skipn len s
  | None =>
      match s with
      | [] => []
      | c :: s' => c :: replaceFirstFrom r repl (Some c) s'
      end
  end.

Definition replaceFirst (r : re) (repl s : jsstring) : jsstring :=
  replaceFirstFrom r repl None s.

(** *** Building patterns *)

Definition chr (c : char) : re := Chr (N.eqb c).
Definition chr_i (c : char) : re := Chr (fun d => (canon d =? canon c)%N).
Definition any : re := Chr (fun _ => true).          (* [\s\S] *)
Definition ws : re := Chr isWhiteSpace.               (* \s *)
Definition letter_i : re := Chr isLetter.             (* [A-Z] or [a-z], flag i *)

Fixpoint seqs (rs : list re) : re :=
  match rs with
  | [] => Eps
  | [r] => r
  | r :: rs' => Seq r (seqs rs')
  end.

Fixpoint alts (rs : list re) : re :=
  match rs with
  | [] => Chr (fun _ => false)
  | [r] => r
  | r :: rs' => Alt r (alts rs')
  end.

Definition opt (r : re) : re := Alt r Eps.            (* r? *)
Definition star (r : re) : re := Star true r.         (* r* *)
Definition lazy (r : re) : re := Star false r.        (* r*? *)
Definition plus (r : re) : re := Seq r (Star true r). (* r+ *)

(** A literal text, case-sensitive and case-insensitive. *)
Definition word (s : jsstring) : re := seqs (map chr s).
Definition word_i (s : jsstring) : re := seqs (map chr_i s).
Definition text (s : string) : re := word (lit s).
Definition text_i (s : string) : re := word_i (lit s).

(** The characters with a meaning of their own in a pattern:
    ^ $ \ . * + ? ( ) [ ] { } | *)
Definition isSyntaxChar (c : char) : bool :=
  memc c [94; 36; 92; 46; 42; 43; 63; 40; 41; 91; 93; 123; 125; 124]%N.

(** A compiled global pattern, as the function [text => text.match(regex)];
    the empty list stands for [null]. *)
Definition Matcher : Type := jsstring -> list jsstring.

(** The RegExp constructor on the source of a pattern: a matcher, or [None]
    for a SyntaxError. *)
Definition Compiler : Type := jsstring -> option Matcher.

(** [s.match(regex)[0]]: the first match, leftmost in the subject; [None]
    stands for [null]. *)
Fixpoint firstFrom (r : re) (prev : option char) (s : jsstring)
    : option jsstring :=
  match execAt r prev s with
  | Some len => Some (firstn len s)
  | None =>
      match s with
      | [] => None
      | c :: s' => firstFrom r (Some c) s'
      end
  end.

Definition firstMatch (r : re) (s : jsstring) : option jsstring :=
  firstFrom r None s.

(** [s.split(regex)] for a pattern without capture groups.  The separator
    is looked for at every position [q] from the start [p] of the current
    piece on; a match that ends at [p] is passed over, any other match
    closes the piece and opens the next one where the match ends.  [piece]
    holds the code units of the current piece, last first; [skip] counts the
    code units of the separator that are still to be passed. *)
Fixpoint splitFrom (r : re) (skip : nat) (piece : jsstring)
    (prev : option char) (s : jsstring) : list jsstring :=
  match skip, s with
  | S n, c :: s' => splitFrom r n piece (Some c) s'
  | _, [] => [rev piece]
  | O, c :: s' =>
      match execAt r prev s with
      | Some O =>
          match piece with
          | [] => splitFrom r 0 [c] (Some c) s'
          | _ :: _ => rev piece :: splitFrom r 0 [c] (Some c) s'
          end
      | Some (S len) => rev piece :: splitFrom r len [] (Some c) s'
      | None => splitFrom r 0 (c :: piece) (Some c) s'
      end
  end.

Definition split (r : re) (s : jsstring) : list jsstring :=
  match s with
  | [] =>
      match execAt r None [] with
      | Some _ => []
      | None => [[]]
      end
  | _ :: _ => splitFrom r 0 [] None s
  end.

(** The pattern [body(?=ahead|$)] without the flag m: [body], then either
    [ahead] or the end of the subject in sight.  The assertion is the
    continuation handed to [body], so that [body] is backtracked into as
    long as the assertion fails. *)
Definition execAtUntil (body ahead : re) (prev : option char) (s : jsstring)
    : option nat :=
  match run body prev s
          (fun prev' s' =>
             match s' with
             | [] => Some s'
             | _ :: _ =>
                 match run ahead prev' s' (fun _ s'' => Some s'') with
                 | Some _ => Some s'
                 | None => None
                 end
             end) with
  | Some s' => Some (length s - length s')
  | None => None
  end.

(** The first match of [body(?=ahead|$)]. *)
Fixpoint firstUntilFrom (body ahead : re) (prev : option char) (s : jsstring)
    : option jsstring :=
  match execAtUntil body ahead prev s with
  | Some len => Some (firstn len s)
  | None =>
      match s with
      | [] => None
      | c :: s' => firstUntilFrom body ahead (Some c) s'
      end
  end.

Definition firstMatchUntil (body ahead : re) (s : jsstring) : option jsstring :=
  firstUntilFrom body ahead None s.

(** Further character classes. *)
Definition digit : re := Chr isDigit.                 (* \d *)
Definition wordChar : re := Chr isWordChar.           (* \w *)
Definition oneOf (s : string) : re := Chr (fun c => memc c (lit s)).
Definition noneOf (s : string) : re := Chr (fun c => negb (memc c (lit s))).
Definition dot : re := Chr (fun c => negb (isLineTerminator c)).   (* . *)

(** [r{n}] *)
Fixpoint times (n : nat) (r : re) : re :=
  match n with
  | O => Eps
  | S O => r
  | S n' => Seq r (times n' r)
  end.

End Regex.

(* ================================================================== *)
(** ** The [natural] package *)
(* ================================================================== *)

Module Natural.
Import JS.

(** The recurrence of the edit distance with unit costs: one for an
    insertion, a deletion and a substitution. *)
Fixpoint editDistance (source : jsstring) : jsstring -> nat :=
  fix against (target : jsstring) : nat :=
    match source with
    | [] => length target
    | a :: source' =>
        match target with
        | [] => length source
        | b :: target' =>
            Nat.min
              (Nat.min (editDistance source' target + 1)
                       (against target' + 1))
              (editDistance source' target'
               + (if (a =? b)%N then 0 else 1))
        end
    end.

(** The suffixes of a string, longest first. *)
Fixpoint suffixes (s : jsstring) : list jsstring :=
  s :: match s with
       | [] => []
       | _ :: s' => suffixes s'
       end.

(** One row of the distance matrix from the row before it.  A row holds a
    distance for every suffix of the target; [prev] is the row of the rest
    of the source, [whole] the length of the source, which is its distance
    to the empty suffix. *)
Fixpoint nextRow (a : char) (whole : nat) (target : jsstring)
    (prev : list nat) : list nat :=
  match target, prev with
  | [], _ => [whole]
  | b :: target', d :: prev' =>
      let rest := nextRow a whole target' prev' in
      match rest, prev' with
      | r :: _, d' :: _ =>
          Nat.min (Nat.min (d + 1) (r + 1))
                  (d' + (if (a =? b)%N then 0 else 1)) :: rest
      | _, _ => rest
      end
  | _ :: _, [] => []
  end.

Fixpoint distanceRow (source target : jsstring) : list nat :=
  match source with
  | [] => map (@length char) (suffixes target)
  | a :: source' =>
      nextRow a (length source) target (distanceRow source' target)
  end.

(** [natural.LevenshteinDistance(source, target)] with the default costs,
    computed row by row. *)
Definition LevenshteinDistance (source target : jsstring) : nat :=
  hd 0 (distanceRow source target).

(** An entry of [tfidf.listTerms(d)]. *)
Record TermItem := { term : jsstring; tfidf : Num.number }.

(** The type of [listTerms]: the documents added to a [TfIdf] object and
    the index of a document to its weighted terms. *)
Definition ListTerms : Type := list jsstring -> nat -> list TermItem.

End Natural.

(* ================================================================== *)
(** ** src/lib/ats-engine.ts *)
(* ================================================================== *)

Module AtsEngine.
Import JS Num Regex Natural.

Record ResumeData := {
  content : jsstring;
  skills : list jsstring;
  experience : list jsstring;
  education : list jsstring;
  projects : list jsstring
}.

Record JobDescriptionData := {
  description : jsstring;
  requiredSkills : list jsstring;
  preferredSkills : list jsstring;
  keywords : list jsstring;
  jobExperience : option jsstring      (* experience?: string *)
}.

Record ATSScoreResult := {
  overallScore : number;
  skillsScore : number;
  experienceScore : number;
  keywordScore : number;
  formattingScore : number;
  matchedSkills : list jsstring;
  missingSkills : list jsstring;
  matchedKeywords : list jsstring;
  missingKeywords : list jsstring;
  suggestions : list jsstring
}.

(** The shape [{ score, matched, missing }] of the skills and of the keyword
    analysis. *)
Record MatchAnalysis := {
  score : number;
  matched : list jsstring;
  missing : list jsstring
}.

Record ExperienceAnalysis := {
  expScore : number;
  relevantTerms : list jsstring;
  expMatched : list jsstring
}.

Record FormattingAnalysis := {
  fmtScore : Z;
  issues : list jsstring
}.

(** Weights for scoring components *)
Module WEIGHTS.
Definition skills : Q := double 0.40.
Definition experience : Q := double 0.30.
Definition keywords : Q := double 0.20.
Definition formatting : Q := double 0.10.
End WEIGHTS.

(** *** normalizeSkills *)

(** The class [[^a-z0-9\s+#.]] under the flag i. *)
Definition notSkillChar (c : char) : bool :=
  negb (isLetter c || isDigit c || isWhiteSpace c || memc c [43; 35; 46]%N).

Definition normalizeSkill (skill : jsstring) : jsstring :=
  replaceAll (Chr notSkillChar) [] (trim (toLowerCase skill)).

Definition normalizeSkills (skills : list jsstring) : list jsstring :=
  map normalizeSkill skills.

(** *** skillsMatch *)

Definition variations : list (jsstring * list jsstring) :=
  map (fun '(key, variants) => (lit key, map lit variants))
  [ ("javascript", ["js"; "javascript"; "ecmascript"]);
    ("typescript", ["ts"; "typescript"]);
    ("python", ["py"; "python"]);
    ("react", ["reactjs"; "react.js"; "react"]);
    ("node", ["nodejs"; "node.js"; "node"]);
    ("mongodb", ["mongo"; "mongodb"]);
    ("postgresql", ["postgres"; "postgresql"; "psql"]);
    ("aws", ["amazon web services"; "aws"]);
    ("gcp", ["google cloud platform"; "gcp"; "google cloud"]);
    ("ci/cd", ["cicd"; "ci/cd"; "continuous integration"]) ]%string.

Definition skillsMatch (skill1 skill2 : jsstring) : bool :=
  let s1 := trim (toLowerCase skill1) in
  let s2 := trim (toLowerCase skill2) in
  (* Exact match *)
  if str_eqb s1 s2 then true
  (* Contains match *)
  else if includes s1 s2 || includes s2 s1 then true
  (* Common abbreviations and variations *)
  else if existsb (fun '(_, variants) =>
                     arrIncludes variants s1 && arrIncludes variants s2)
                  variations then true
  else
    (* Levenshtein distance for typos *)
    let distance := LevenshteinDistance s1 s2 in
    let maxLength := Nat.max (length s1) (length s2) in
    let similarity := sub (Fin 1) (div (ofNat distance) (ofNat maxLength)) in
    gt similarity (fin 0.85).

(** *** calculateSkillsScore *)

Definition someMatch (resumeSkills : list jsstring) (jobSkill : jsstring)
    : bool :=
  existsb (fun resumeSkill => skillsMatch resumeSkill jobSkill) resumeSkills.

Definition unmatched (resumeSkills : list jsstring) (jobSkill : jsstring)
    : bool :=
  negb (someMatch resumeSkills jobSkill).

(** The loop over the required skills; the state is [(matched, missing)]. *)
Definition requiredLoop (resumeSkills requiredSkills : list jsstring)
    : list jsstring * list jsstring :=
  fold_left
    (fun '(matched, missing) jobSkill =>
       if someMatch resumeSkills jobSkill
       then (matched ++ [jobSkill], missing)
       else (matched, missing ++ [jobSkill]))
    requiredSkills ([], []).

(** The loop over the preferred skills; the state is
    [(preferredMatched, matched)]. *)
Definition preferredLoop (resumeSkills preferredSkills matched : list jsstring)
    : nat * list jsstring :=
  fold_left
    (fun '(preferredMatched, matched) prefSkill =>
       if someMatch resumeSkills prefSkill
       then (S preferredMatched,
             if negb (arrIncludes matched prefSkill)
             then matched ++ [prefSkill] else matched)
       else (preferredMatched, matched))
    preferredSkills (0, matched).

Definition calculateSkillsScore (resume : ResumeData)
    (jobDescription : JobDescriptionData) : MatchAnalysis :=
  let resumeSkills := normalizeSkills (skills resume) in
  let requiredSkills := normalizeSkills (requiredSkills jobDescription) in
  let preferredSkills := normalizeSkills (preferredSkills jobDescription) in
  let '(matched, missing) := requiredLoop resumeSkills requiredSkills in
  let '(preferredMatched, matched) :=
    preferredLoop resumeSkills preferredSkills matched in
  let requiredMatchRatio :=
    if 0 <? length requiredSkills
    then div (ofNat (length (filter (arrIncludes requiredSkills) matched)))
             (ofNat (length requiredSkills))
    else Fin 0 in
  let preferredBonus :=
    if 0 <? length preferredSkills
    then mul (div (ofNat preferredMatched) (ofNat (length preferredSkills)))
             (Fin 20)
    else Fin 0 in
  let score :=
    min (Fin 100) (add (mul requiredMatchRatio (Fin 80)) preferredBonus) in
  {| score := score; matched := matched; missing := missing |}.

(** *** calculateFormattingScore *)

Definition actionWords : list jsstring :=
  map lit
  [ "achieved"; "managed"; "led"; "developed"; "created";
    "improved"; "increased"; "decreased"; "implemented";
    "designed"; "built"; "established"; "launched" ]%string.

(** One [if (cond) { score -= penalty; issues.push(issue); }]. *)
Definition penalize (cond : bool) (penalty : Z) (issue : string)
    (st : Z * list jsstring) : Z * list jsstring :=
  if cond then (fst st - penalty, snd st ++ [lit issue])%Z else st.

Definition calculateFormattingScore (resume : ResumeData)
    : FormattingAnalysis :=
  let st := (100%Z, []) in
  (* Check for minimum content length *)
  let st := penalize (length (content resume) <? 500) 20
                     "Resume content is too short" st in
  (* Check for sections *)
  let hasSkills := 0 <? length (skills resume) in
  let hasExperience := 0 <? length (experience resume) in
  let hasEducation := 0 <? length (education resume) in
  let st := penalize (negb hasSkills) 30 "Missing skills section" st in
  let st := penalize (negb hasExperience) 30 "Missing experience section" st in
  let st := penalize (negb hasEducation) 20 "Missing education section" st in
  (* Check for bullet points (action words) *)
  let hasActionWords :=
    existsb (fun word => includes (toLowerCase (content resume)) word)
            actionWords in
  let st := penalize (negb hasActionWords) 10 "Lacks strong action verbs" st in
  {| fmtScore := Z.max 0 (fst st); issues := snd st |}.

(** *** calculateKeywordScore *)

Section External.

(** A keyword without pattern syntax characters denotes itself in
    [new RegExp(`\\b${keyword}\\b`, 'gi')]. *)
Definition plainKeyword (keyword : jsstring) : bool :=
  negb (existsb isSyntaxChar keyword).

Definition keywordPattern (keyword : jsstring) : re :=
  seqs [WordB; word_i keyword; WordB].

(** A keyword with pattern syntax characters is compiled by the RegExp
    constructor as a pattern in its own right, which this development does
    not interpret.  [patternMatches keyword] is [None] when the constructor
    throws a SyntaxError on [\bkeyword\b]; otherwise it is the function that
    takes a text to what [text.match(regex)] finds, the empty list standing
    for [null]. *)
Variable patternMatches : Compiler.

(** [new RegExp(`\\b${keyword}\\b`, 'gi')], as the function
    [text => text.match(regex)]. *)
Definition keywordRegExp (keyword : jsstring) : option Matcher :=
  if plainKeyword keyword
  then Some (matchAll (keywordPattern keyword))
  else patternMatches keyword.

(** The job descriptions on whose keywords the constructor does not
    throw. *)
Definition compilable (jobDescription : JobDescriptionData) : Prop :=
  forall keyword, In keyword (keywords jobDescription) ->
    keywordRegExp (toLowerCase keyword) <> None.

(** The job descriptions all of whose keywords denote themselves. *)
Definition plainKeywords (jobDescription : JobDescriptionData) : Prop :=
  forallb plainKeyword (keywords jobDescription) = true.

(** The number of matches of a keyword in a text. *)
Definition occurrences (text keyword : jsstring) : nat :=
  match keywordRegExp keyword with
  | Some matchesIn => length (matchesIn text)
  | None => 0
  end.

(** [Math.min(matches.length * 5, 15)] *)
Definition density (occurrences : nat) : nat := Nat.min (occurrences * 5) 15.

(** Closed forms of what the keyword loop accumulates. *)
Definition found (text keyword : jsstring) : bool :=
  0 <? occurrences text keyword.

Definition totalDensity (text : jsstring) (keywords : list jsstring) : nat :=
  list_sum (map (fun keyword => density (occurrences text keyword)) keywords).

Record KeywordLoop := {
  kwMatched : list jsstring;
  kwMissing : list jsstring;
  densityScore : nat
}.

Definition keywordStep (resumeText : jsstring) (st : option KeywordLoop)
    (keyword : jsstring) : option KeywordLoop :=
  match st, keywordRegExp keyword with
  | Some st, Some matchesIn =>
      let matches := matchesIn resumeText in
      if 0 <? length matches then
        Some {| kwMatched := kwMatched st ++ [keyword];
                kwMissing := kwMissing st;
                (* Reward multiple mentions but with diminishing returns *)
                densityScore := densityScore st + density (length matches) |}
      else
        Some {| kwMatched := kwMatched st;
                kwMissing := kwMissing st ++ [keyword];
                densityScore := densityScore st |}
  | _, _ => None
  end.

Definition calculateKeywordScore (resume : ResumeData)
    (jobDescription : JobDescriptionData) : option MatchAnalysis :=
  let resumeText := toLowerCase (content resume) in
  let keywords := map toLowerCase (keywords jobDescription) in
  match fold_left (keywordStep resumeText) keywords
          (Some {| kwMatched := []; kwMissing := []; densityScore := 0 |}) with
  | None => None
  | Some st =>
      (* Calculate match ratio *)
      let matchRatio :=
        if 0 <? length keywords
        then div (ofNat (length (kwMatched st))) (ofNat (length keywords))
        else Fin 0 in
      (* Combine match ratio (70%) and density (30%) *)
      let score :=
        min (Fin 100)
            (add (mul matchRatio (Fin 70))
                 (mul (div (ofNat (densityScore st)) (ofNat (length keywords)))
                      (Fin 30))) in
      Some {| score := score; matched := kwMatched st; missing := kwMissing st |}
  end.

(** *** generateSuggestions *)

Definition skillsSuggestion (missing : list jsstring) : jsstring :=
  lit "Add these critical skills: " ++ join (lit ", ") (firstn 5 missing).

Definition experienceSuggestion : jsstring :=
  lit "Expand your experience descriptions to include more relevant keywords and achievements".

Definition keywordSuggestion (missing : list jsstring) : jsstring :=
  lit "Include these important keywords: " ++ join (lit ", ") (firstn 5 missing).

Definition formattingSuggestion (issue : jsstring) : jsstring :=
  lit "Formatting: " ++ issue.

Definition generalSuggestion : jsstring :=
  lit "Excellent keyword optimization! Consider quantifying your achievements with metrics.".

(** One [if (cond) { suggestions.push(...items); }]. *)
Definition pushIf (cond : bool) (items suggestions : list jsstring)
    : list jsstring :=
  if cond then suggestions ++ items else suggestions.

Definition generateSuggestions (skillsAnalysis : MatchAnalysis)
    (experienceAnalysis : ExperienceAnalysis)
    (keywordAnalysis : MatchAnalysis)
    (formattingAnalysis : FormattingAnalysis) : list jsstring :=
  let suggestions := [] in
  (* Skills suggestions *)
  let suggestions :=
    pushIf (lt (score skillsAnalysis) (Fin 70)
            && (0 <? length (missing skillsAnalysis)))
           [skillsSuggestion (missing skillsAnalysis)] suggestions in
  (* Experience suggestions *)
  let suggestions :=
    pushIf (lt (expScore experienceAnalysis) (Fin 60))
           [experienceSuggestion] suggestions in
  (* Keyword suggestions *)
  let suggestions :=
    pushIf (lt (score keywordAnalysis) (Fin 70)
            && (0 <? length (missing keywordAnalysis)))
           [keywordSuggestion (missing keywordAnalysis)] suggestions in
  (* Formatting suggestions *)
  let suggestions :=
    pushIf (0 <? length (issues formattingAnalysis))
           (map formattingSuggestion (issues formattingAnalysis))
           suggestions in
  (* General suggestions *)
  let suggestions :=
    pushIf (ge (score skillsAnalysis) (Fin 80)
            && ge (score keywordAnalysis) (Fin 80))
           [generalSuggestion] suggestions in
  suggestions.

(** *** calculateExperienceScore and calculateATSScore *)

(** [natural.TfIdf]: [listTerms documents d] is what [tfidf.listTerms(d)]
    returns once [documents] have been added, in this order, to a fresh
    [TfIdf] object: the terms of document [d] with their weights, heaviest
    first. *)
Variable listTerms : ListTerms.

Definition termInText (resumeText : jsstring) (item : TermItem) : bool :=
  includes resumeText (toLowerCase (term item)).

Definition calculateExperienceScore (resume : ResumeData)
    (jobDescription : JobDescriptionData) : ExperienceAnalysis :=
  (* Add documents *)
  let documents :=
    [join (lit " ") (experience resume); description jobDescription] in
  (* Extract top terms from job description; filter short words *)
  let jobTerms :=
    filter (fun item => 3 <? length (term item)) (listTerms documents 1) in
  (* Calculate how many job terms appear in resume *)
  let resumeText := toLowerCase (content resume) in
  let '(matchCount, totalWeight) :=
    fold_left
      (fun '(matchCount, totalWeight) item =>
         (if termInText resumeText item
          then add matchCount (tfidf item) else matchCount,
          add totalWeight (tfidf item)))
      (firstn 20 jobTerms) (Fin 0, Fin 0) in
  let score :=
    if gt totalWeight (Fin 0)
    then mul (div matchCount totalWeight) (Fin 100)
    else Fin 0 in
  {| expScore := score;
     relevantTerms := map term (firstn 10 jobTerms);
     expMatched := map term (filter (termInText resumeText) jobTerms) |}.

(** The weighted sum of the four component scores. *)
Definition weighted (skills experience keywords formatting : number)
    : number :=
  add (add (add (mul skills (Fin WEIGHTS.skills))
                (mul experience (Fin WEIGHTS.experience)))
           (mul keywords (Fin WEIGHTS.keywords)))
      (mul formatting (Fin WEIGHTS.formatting)).

Definition calculateATSScore (resume : ResumeData)
    (jobDescription : JobDescriptionData) : option ATSScoreResult :=
  (* Calculate individual component scores *)
  let skillsAnalysis := calculateSkillsScore resume jobDescription in
  let experienceAnalysis := calculateExperienceScore resume jobDescription in
  match calculateKeywordScore resume jobDescription with
  | None => None
  | Some keywordAnalysis =>
      let formattingAnalysis := calculateFormattingScore resume in
      (* Calculate weighted overall score *)
      let overallScore :=
        round (weighted (score skillsAnalysis)
                        (expScore experienceAnalysis)
                        (score keywordAnalysis)
                        (ofZ (fmtScore formattingAnalysis))) in
      (* Generate actionable suggestions *)
      let suggestions :=
        generateSuggestions skillsAnalysis experienceAnalysis
                            keywordAnalysis formattingAnalysis in
      Some {| overallScore := overallScore;
              skillsScore := round (score skillsAnalysis);
              experienceScore := round (expScore experienceAnalysis);
              keywordScore := round (score keywordAnalysis);
              formattingScore := round (ofZ (fmtScore formattingAnalysis));
              matchedSkills := matched skillsAnalysis;
              missingSkills := missing skillsAnalysis;
              matchedKeywords := matched keywordAnalysis;
              missingKeywords := missing keywordAnalysis;
              suggestions := suggestions |}
  end.

(** *** extractKeywords *)

(** Extract keywords from job description *)
Definition extractKeywords (text : jsstring) : list jsstring :=
  let documents := [toLowerCase text] in
  let keywords :=
    map term
      (filter (fun item => (3 <? length (term item))
                           && gt (tfidf item) (Fin 1))
              (listTerms documents 0)) in
  firstn 30 keywords.                                   (* Top 30 keywords *)

End External.

End AtsEngine.

(* ================================================================== *)
(** ** src/lib/resume-parser.ts *)
(* ================================================================== *)

Module ResumeParser.
Import JS Regex.

Record ContactInfo := {
  email : option jsstring;
  phone : option jsstring;
  linkedin : option jsstring;
  github : option jsstring
}.

Record ParsedResume := {
  content : jsstring;
  skills : list jsstring;
  experience : list jsstring;
  education : list jsstring;
  projects : list jsstring;
  contactInfo : option ContactInfo
}.

(** The lookahead [\n[A-Z][a-z]+\s*:] under the flag i. *)
Definition nextHeader : re :=
  seqs [chr newline; letter_i; plus letter_i; star ws; chr 58%N].

(** Common section headers for skills:
    - [/skills?\s*:?\s*([\s\S]*?)(?=\n\n|\n[A-Z][a-z]+\s*:|\n(?:experience|education|projects|certifications))/gi]
    - [/technical\s+skills?\s*:?\s*([\s\S]*?)(?=\n\n|\n[A-Z][a-z]+\s*:)/gi]
    - [/core\s+competencies\s*:?\s*([\s\S]*?)(?=\n\n|\n[A-Z][a-z]+\s*:)/gi] *)
Definition skillsSections : list re :=
  [ seqs [text_i "skill"; opt (text_i "s"); star ws; opt (chr 58%N); star ws;
          lazy any;
          Look (alts [word [newline; newline];
                      nextHeader;
                      Seq (chr newline)
                          (alts [text_i "experience"; text_i "education";
                                 text_i "projects"; text_i "certifications"])])];
    seqs [text_i "technical"; plus ws; text_i "skill"; opt (text_i "s");
          star ws; opt (chr 58%N); star ws;
          lazy any;
          Look (alts [word [newline; newline]; nextHeader])];
    seqs [text_i "core"; plus ws; text_i "competencies";
          star ws; opt (chr 58%N); star ws;
          lazy any;
          Look (alts [word [newline; newline]; nextHeader])] ].

(** The delimiters [/[,;•\n|]/g]. *)
Definition isDelimiter (c : char) : bool :=
  memc c [44; 59; bullet; newline; 124]%N.

(** The class [[-•*]]. *)
Definition isBulletMark (c : char) : bool := memc c [45; bullet; 42]%N.

(** Extract individual skills from a text block. *)
Definition extractSkillsFromText (text : jsstring) : list jsstring :=
  (* Split by common delimiters *)
  let parts := splitOn isDelimiter text in
  fold_left
    (fun skills part =>
       let cleaned :=
         replaceAll (plus ws) (lit " ")                 (* normalize whitespace *)
           (replaceFirst (seqs [Bol false; Chr isBulletMark; star ws]) []
                                                       (* remove bullet points *)
              (trim part)) in
       if (1 <? length cleaned) && (length cleaned <? 50)
       then skills ++ [cleaned] else skills)
    parts [].

Definition commonSkills : list jsstring :=
  map lit
  [ (* Programming Languages *)
    "JavaScript"; "TypeScript"; "Python"; "Java"; "C++"; "C#"; "Ruby"; "PHP";
    "Go"; "Rust"; "Swift"; "Kotlin";
    (* Web Technologies *)
    "React"; "Angular"; "Vue"; "Next.js"; "Node.js"; "Express"; "Django";
    "Flask"; "Spring Boot";
    "HTML"; "CSS"; "SASS"; "LESS"; "Tailwind CSS"; "Bootstrap";
    (* Databases *)
    "PostgreSQL"; "MySQL"; "MongoDB"; "Redis"; "Elasticsearch"; "DynamoDB";
    "Oracle"; "SQL Server";
    (* Cloud & DevOps *)
    "AWS"; "Azure"; "GCP"; "Docker"; "Kubernetes"; "Jenkins"; "GitLab CI";
    "GitHub Actions";
    "Terraform"; "Ansible"; "CI/CD";
    (* Tools & Others *)
    "Git"; "REST API"; "GraphQL"; "Microservices"; "Agile"; "Scrum"; "JIRA";
    "Linux";
    "Machine Learning"; "TensorFlow"; "PyTorch"; "AI"; "NLP"; "Data Science"
  ]%string.

(** The skills found under the dedicated section headers, in the order in
    which they enter the set. *)
Definition sectionSkills (content : jsstring) : list jsstring :=
  fold_left
    (fun skills regex =>
       fold_left
         (fun skills found =>
            fold_left setAdd (extractSkillsFromText found) skills)
         (matchAll regex content) skills)
    skillsSections [].

(** Extract skills from resume content. *)
Definition extractSkills (content : jsstring) : list jsstring :=
  let skills := sectionSkills content in
  (* Also scan entire content for common tech skills *)
  let lowerContent := toLowerCase content in
  fold_left
    (fun skills skill =>
       let skillLower := toLowerCase skill in
       if includes lowerContent skillLower then setAdd skills skill else skills)
    commonSkills skills.

(** *** extractExperience, extractEducation and extractProjects *)

(** A section pattern [header\s*:?\s*([\s\S]*?)(?=stop|$)] with the flags
    gi, as its part before the assertion and the alternatives of the
    assertion other than [$]. *)
Record SectionRegex := { body : re; stop : re }.

Definition section (header : re) (stops : list re) : SectionRegex :=
  {| body := seqs [header; star ws; opt (chr 58%N); star ws; lazy any];
     stop := alts stops |}.

(** [content.match(regex)] followed by the test [matches && matches[0]]:
    the first match, if there is one and it is not empty. *)
Definition firstSection (regex : SectionRegex) (content : jsstring)
    : option jsstring :=
  match firstMatchUntil (body regex) (stop regex) content with
  | Some (c :: found) => Some (c :: found)
  | _ => None
  end.

(** The assertion alternative [\n\n[A-Z]] under the flag i. *)
Definition blankLineThenLetter : re :=
  seqs [chr newline; chr newline; letter_i].

(** - [/(?:work\s+)?experience\s*:?\s*([\s\S]*?)(?=\n\n[A-Z]|education|projects|skills|$)/gi]
    - [/professional\s+experience\s*:?\s*([\s\S]*?)(?=\n\n[A-Z]|education|$)/gi]
    - [/employment\s+history\s*:?\s*([\s\S]*?)(?=\n\n[A-Z]|education|$)/gi] *)
Definition experienceRegex : list SectionRegex :=
  [ section (Seq (opt (Seq (text_i "work") (plus ws))) (text_i "experience"))
            [blankLineThenLetter; text_i "education"; text_i "projects";
             text_i "skills"];
    section (seqs [text_i "professional"; plus ws; text_i "experience"])
            [blankLineThenLetter; text_i "education"];
    section (seqs [text_i "employment"; plus ws; text_i "history"])
            [blankLineThenLetter; text_i "education"] ].

(** [/\n(?=[A-Z][a-z]+.*(?:20\d{2}|19\d{2}))/]: a line break before a
    capitalised word with a year later on the line. *)
Definition jobEntryBreak : re :=
  Seq (chr newline)
      (Look (seqs [ Chr isUpperAZ; plus (Chr isLowerAZ); star dot;
                    alts [ Seq (text "20") (times 2 digit);
                           Seq (text "19") (times 2 digit) ] ])).

(** The trimmed pieces that are longer than [minimum]. *)
Definition longPieces (minimum : nat) (pieces : list jsstring)
    : list jsstring :=
  filter (fun cleaned => minimum <? length cleaned) (map trim pieces).

(** Extract experience section *)
Definition extractExperience (content : jsstring) : list jsstring :=
  fold_left
    (fun experience regex =>
       match firstSection regex content with
       | Some found =>
           (* Split into individual job entries *)
           experience ++ longPieces 20 (split jobEntryBreak found)
       | None => experience
       end)
    experienceRegex [].

(** - [/education\s*:?\s*([\s\S]*?)(?=\n\n[A-Z]|experience|projects|skills|$)/gi]
    - [/academic\s+background\s*:?\s*([\s\S]*?)(?=\n\n[A-Z]|$)/gi] *)
Definition educationRegex : list SectionRegex :=
  [ section (text_i "education")
            [blankLineThenLetter; text_i "experience"; text_i "projects";
             text_i "skills"];
    section (seqs [text_i "academic"; plus ws; text_i "background"])
            [blankLineThenLetter] ].

(** Extract education section *)
Definition extractEducation (content : jsstring) : list jsstring :=
  fold_left
    (fun education regex =>
       match firstSection regex content with
       | Some found =>
           let lines :=
             filter (fun line => 10 <? length (trim line))
                    (splitLines found) in
           education ++ map trim lines
       | None => education
       end)
    educationRegex [].

(** - [/projects?\s*:?\s*([\s\S]*?)(?=\n\n[A-Z]|experience|education|skills|$)/gi]
    - [/key\s+projects?\s*:?\s*([\s\S]*?)(?=\n\n[A-Z]|$)/gi] *)
Definition projectsRegex : list SectionRegex :=
  [ section (Seq (text_i "project") (opt (text_i "s")))
            [blankLineThenLetter; text_i "experience"; text_i "education";
             text_i "skills"];
    section (seqs [text_i "key"; plus ws; text_i "project"; opt (text_i "s")])
            [blankLineThenLetter] ].

(** [/\n(?=[A-Z•\-*])/]: a line break before a capital or a bullet mark. *)
Definition projectBreak : re :=
  Seq (chr newline)
      (Look (Chr (fun c => isUpperAZ c || memc c [bullet; 45; 42]%N))).

(** Extract projects section *)
Definition extractProjects (content : jsstring) : list jsstring :=
  fold_left
    (fun projects regex =>
       match firstSection regex content with
       | Some found =>
           (* Split into individual projects *)
           projects ++ longPieces 20 (split projectBreak found)
       | None => projects
       end)
    projectsRegex [].

(** *** extractContactInfo *)

(** [/[a-zA-Z0-9._%+-]+@[a-zA-Z0-9.-]+\.[a-zA-Z]{2,}/] *)
Definition emailRegex : re :=
  seqs [ plus (Chr (fun c => isLetter c || isDigit c || memc c (lit "._%+-")));
         chr 64%N;
         plus (Chr (fun c => isLetter c || isDigit c || memc c (lit ".-")));
         chr 46%N;
         Chr isLetter; Chr isLetter; star (Chr isLetter) ].

(** The class [[-.\s]]. *)
Definition isPhoneSeparator (c : char) : bool :=
  memc c (lit "-.") || isWhiteSpace c.

(** [/(\+\d{1,3}[-.\s]?)?\(?\d{3}\)?[-.\s]?\d{3}[-.\s]?\d{4}/] *)
Definition phoneRegex : re :=
  seqs [ opt (seqs [chr 43%N;
                    Seq digit (opt (Seq digit (opt digit)));
                    opt (Chr isPhoneSeparator)]);
         opt (chr 40%N); times 3 digit; opt (chr 41%N);
         opt (Chr isPhoneSeparator); times 3 digit;
         opt (Chr isPhoneSeparator); times 4 digit ].

(** The class [[\w-]]. *)
Definition isHandleChar (c : char) : bool := isWordChar c || (c =? 45)%N.

(** [/linkedin\.com\/in\/[\w-]+/i] *)
Definition linkedinRegex : re :=
  Seq (text_i "linkedin.com/in/") (plus (Chr isHandleChar)).

(** [/github\.com\/[\w-]+/i] *)
Definition githubRegex : re :=
  Seq (text_i "github.com/") (plus (Chr isHandleChar)).

(** Extract contact information: every field is the first match of its
    pattern, or stays unset. *)
Definition extractContactInfo (content : jsstring) : ContactInfo :=
  {| email := firstMatch emailRegex content;
     phone := firstMatch phoneRegex content;
     linkedin := firstMatch linkedinRegex content;
     github := firstMatch githubRegex content |}.

(** *** parseTextResume *)

(** Parse plain text resume (for paste functionality) *)
Definition parseTextResume (text : jsstring) : ParsedResume :=
  {| content := text;
     skills := extractSkills text;
     experience := extractExperience text;
     education := extractEducation text;
     projects := extractProjects text;
     contactInfo := Some (extractContactInfo text) |}.

End ResumeParser.

(* ================================================================== *)
(** ** src/lib/ai-analysis.ts *)
(* ================================================================== *)

Module AiAnalysis.
Import JS Num Regex ResumeParser.

Record BulletPointQuality := {
  score : Z;
  feedback : list jsstring
}.

(** [/^[\s]*[•\-*]\s+/gm] *)
Definition bulletRegex : re :=
  seqs [Bol true; star ws; Chr (fun c => memc c [bullet; 45; 42]%N); plus ws].

(** [/(?:led|managed|coordinated|oversaw)/gi] *)
Definition contextRegex : re :=
  alts [text_i "led"; text_i "managed"; text_i "coordinated"; text_i "oversaw"].

(** [/(?:developed|created|implemented|designed|built)/gi] *)
Definition actionRegex : re :=
  alts [text_i "developed"; text_i "created"; text_i "implemented";
        text_i "designed"; text_i "built"].

(** [/(?:increased|decreased|improved|reduced|achieved)/gi] *)
Definition resultRegex : re :=
  alts [text_i "increased"; text_i "decreased"; text_i "improved";
        text_i "reduced"; text_i "achieved"].

(** One [if (cond) { score -= penalty; feedback.push(message); }]. *)
Definition penalize (cond : bool) (penalty : Z) (message : string)
    (st : Z * list jsstring) : Z * list jsstring :=
  if cond then (fst st - penalty, snd st ++ [lit message])%Z else st.

(** The lines that open with a dash or a bullet. *)
Definition bulletLines (content : jsstring) : list jsstring :=
  filter (fun l => startsWith (trim l) (lit "-") || startsWith (trim l) [bullet])
         (splitLines content).

Definition analyzeBulletPoints (resume : ParsedResume) : BulletPointQuality :=
  let st := (100%Z, []) in
  let content := join [newline] (experience resume) in
  (* Check for bullet points *)
  let bulletPoints := matchAll bulletRegex content in
  let st := penalize (length bulletPoints <? 3) 30
              "Add bullet points to structure your experience" st in
  (* Check for STAR format (Situation, Task, Action, Result) *)
  let hasContext := test contextRegex content in
  let hasAction := test actionRegex content in
  let hasResult := test resultRegex content in
  let st := penalize (negb hasAction) 25
              "Include strong action verbs at the start of each bullet point" st in
  let st := penalize (negb hasResult) 25
              "Add measurable results and outcomes to your accomplishments" st in
  let st := penalize (negb hasContext) 10
              "Provide context about your role and responsibilities" st in
  (* Check bullet length *)
  let lines := bulletLines content in
  let tooLong := filter (fun l => 150 <? length l) lines in
  let tooShort := filter (fun l => length l <? 30) lines in
  let st := penalize (0 <? length tooLong) 10
              "Some bullet points are too long - aim for 1-2 lines each" st in
  let st := penalize (gt (ofNat (length tooShort))
                         (div (ofNat (length lines)) (Fin 2))) 10
              "Many bullet points lack detail - expand with specific achievements" st in
  {| score := Z.max 0 (fst st); feedback := snd st |}.

(** *** countActionVerbs *)

Definition actionVerbs : list jsstring :=
  map lit
  [ "achieved"; "administered"; "analyzed"; "arranged"; "built"; "calculated";
    "collaborated"; "completed"; "conducted"; "coordinated"; "created";
    "delivered";
    "designed"; "developed"; "directed"; "established"; "evaluated";
    "executed";
    "facilitated"; "generated"; "implemented"; "improved"; "increased";
    "initiated";
    "launched"; "led"; "managed"; "optimized"; "organized"; "planned";
    "produced";
    "reduced"; "redesigned"; "resolved"; "streamlined"; "supervised";
    "trained" ]%string.

(** [new RegExp(`\\b${verb}\\b`, 'gi')] for a verb of the list above. *)
Definition verbRegExp (verb : jsstring) : re :=
  seqs [WordB; word_i verb; WordB].

(** Helper: Count action verbs in content *)
Definition countActionVerbs (content : jsstring) : nat :=
  let lowerContent := toLowerCase content in
  fold_left
    (fun count verb => count + length (matchAll (verbRegExp verb) lowerContent))
    actionVerbs 0.

(** *** extractMetrics *)

(** [\d+(?:,\d{3})*(?:\.\d+)?] *)
Definition amount : re :=
  seqs [ plus digit;
         star (Seq (chr 44%N) (times 3 digit));
         opt (Seq (chr 46%N) (plus digit)) ].

(** The class [[kmb]] under the flag i. *)
Definition magnitude : re :=
  Chr (fun c => memc (canon c) (lit "KMB")).

(** The class [[^.]]. *)
Definition notPeriod : re := Chr (fun c => negb (c =? 46)%N).

(** Pattern for numbers with context:
    - [/(?:increased|decreased|improved|reduced|grew|grew by|saved|generated|achieved)\s+[^.]*?(?:\d+(?:,\d{3})*(?:\.\d+)?%?|\$\d+[kmb]?)[^.]*/gi]
    - [/\d+(?:,\d{3})*(?:\.\d+)?%\s+(?:increase|decrease|improvement|growth|reduction)/gi]
    - [/\$\d+(?:,\d{3})*(?:\.\d+)?[kmb]?\s+(?:revenue|sales|savings|budget)/gi]
    - [/(?:team of|managed|led)\s+\d+\s+(?:people|developers|members|engineers)/gi] *)
Definition metricPatterns : list re :=
  [ seqs [ alts [text_i "increased"; text_i "decreased"; text_i "improved";
                 text_i "reduced"; text_i "grew"; text_i "grew by";
                 text_i "saved"; text_i "generated"; text_i "achieved"];
           plus ws;
           lazy notPeriod;
           alts [ Seq amount (opt (chr 37%N));
                  seqs [chr 36%N; plus digit; opt magnitude] ];
           star notPeriod ];
    seqs [ amount; chr 37%N; plus ws;
           alts [text_i "increase"; text_i "decrease"; text_i "improvement";
                 text_i "growth"; text_i "reduction"] ];
    seqs [ chr 36%N; amount; opt magnitude; plus ws;
           alts [text_i "revenue"; text_i "sales"; text_i "savings";
                 text_i "budget"] ];
    seqs [ alts [text_i "team of"; text_i "managed"; text_i "led"];
           plus ws; plus digit; plus ws;
           alts [text_i "people"; text_i "developers"; text_i "members";
                 text_i "engineers"] ] ].

(** Helper: Extract metrics and numbers from content *)
Definition extractMetrics (content : jsstring) : list jsstring :=
  let metrics :=
    fold_left
      (fun metrics pattern => metrics ++ map trim (matchAll pattern content))
      metricPatterns [] in
  fold_left setAdd metrics [].                          (* Remove duplicates *)

(** *** identifyStrengths and identifyWeaknesses *)

(** One [if (cond) { list.push(...items); }]. *)
Definition addIf (cond : bool) (items target : list jsstring)
    : list jsstring :=
  if cond then target ++ items else target.

(** Identify resume strengths *)
Definition identifyStrengths (resume : ParsedResume)
    (atsScore : AtsEngine.ATSScoreResult) : list jsstring :=
  let strengths := [] in
  (* Skills diversity *)
  let strengths :=
    addIf (10 <=? length (skills resume))
      [lit "Strong skill set with " ++ decimal (length (skills resume))
       ++ lit " identified skills"] strengths in
  (* High ATS scores *)
  let strengths :=
    addIf (ge (AtsEngine.overallScore atsScore) (Fin 80))
      [lit "Excellent ATS compatibility - highly likely to pass automated screening"]
      strengths in
  let strengths :=
    addIf (ge (AtsEngine.skillsScore atsScore) (Fin 85))
      [lit "Strong skills alignment with job requirements"] strengths in
  let strengths :=
    addIf (ge (AtsEngine.keywordScore atsScore) (Fin 80))
      [lit "Excellent keyword optimization"] strengths in
  (* Experience depth *)
  let strengths :=
    addIf (3 <=? length (experience resume))
      [lit "Comprehensive work experience documentation"] strengths in
  (* Projects *)
  let strengths :=
    addIf (2 <=? length (projects resume))
      [lit "Strong project portfolio demonstrates practical experience"]
      strengths in
  (* Action verbs *)
  let actionVerbs := countActionVerbs (content resume) in
  let strengths :=
    addIf (10 <=? actionVerbs)
      [lit "Effective use of " ++ decimal actionVerbs
       ++ lit " action verbs to demonstrate achievements"] strengths in
  (* Quantifiable results *)
  let metrics := extractMetrics (content resume) in
  let strengths :=
    addIf (3 <=? length metrics)
      [lit "Good use of quantifiable metrics and results"] strengths in
  strengths.

Definition lacksActionVerbs : jsstring :=
  lit "Lacks strong action verbs - use words like " ++ quoted (lit "achieved")
  ++ lit ", " ++ quoted (lit "led") ++ lit ", " ++ quoted (lit "developed").

(** Identify resume weaknesses *)
Definition identifyWeaknesses (resume : ParsedResume)
    (atsScore : AtsEngine.ATSScoreResult) : list jsstring :=
  let weaknesses := [] in
  (* Low scores *)
  let weaknesses :=
    addIf (lt (AtsEngine.overallScore atsScore) (Fin 60))
      [lit "Low ATS score may result in automatic rejection"] weaknesses in
  let weaknesses :=
    addIf (lt (AtsEngine.skillsScore atsScore) (Fin 60))
      [lit "Insufficient skills match with job requirements"] weaknesses in
  let weaknesses :=
    addIf (lt (AtsEngine.keywordScore atsScore) (Fin 50))
      [lit "Missing critical keywords from job description"] weaknesses in
  (* Missing sections *)
  let weaknesses :=
    addIf (length (skills resume) <? 5)
      [lit "Limited skills listed - add more relevant technical and soft skills"]
      weaknesses in
  let weaknesses :=
    addIf (length (experience resume) =? 0)
      [lit "No work experience section detected"] weaknesses in
  let weaknesses :=
    addIf (length (education resume) =? 0)
      [lit "Missing education information"] weaknesses in
  let weaknesses :=
    addIf (length (projects resume) =? 0)
      [lit "No projects section - consider adding relevant projects"]
      weaknesses in
  (* Content quality *)
  let actionVerbs := countActionVerbs (content resume) in
  let weaknesses :=
    addIf (actionVerbs <? 5) [lacksActionVerbs] weaknesses in
  let metrics := extractMetrics (content resume) in
  let weaknesses :=
    addIf (length metrics <? 2)
      [lit "Few quantifiable achievements - add specific numbers, percentages, or metrics"]
      weaknesses in
  (* Length issues *)
  let weaknesses :=
    addIf (length (content resume) <? 800)
      [lit "Resume appears too brief - add more detail to experience and achievements"]
      weaknesses in
  let weaknesses :=
    addIf (5000 <? length (content resume))
      [lit "Resume may be too lengthy - consider condensing to most relevant information"]
      weaknesses in
  weaknesses.

(** *** analyzeLanguageQuality *)

(** One [if (cond) { score -= penalty; feedback.push(message); }]. *)
Definition penalizeWith (cond : bool) (penalty : Z) (message : jsstring)
    (st : Z * list jsstring) : Z * list jsstring :=
  if cond then (fst st - penalty, snd st ++ [message])%Z else st.

(** [/(?:was|were|been|being)\s+\w+ed/gi] *)
Definition passiveIndicators : re :=
  seqs [ alts [text_i "was"; text_i "were"; text_i "been"; text_i "being"];
         plus ws; plus wordChar; text_i "ed" ].

(** [/\b(?:I|me|my|mine)\b/gi] *)
Definition firstPersonRegex : re :=
  seqs [ WordB;
         alts [text_i "I"; text_i "me"; text_i "my"; text_i "mine"];
         WordB ].

(** [/[.!?]+/] *)
Definition sentenceEnd : re := plus (oneOf ".!?").

(** [/\b\w{12,}\b/g] *)
Definition complexWordRegex : re :=
  seqs [WordB; times 12 wordChar; star wordChar; WordB].

Definition cliches : list jsstring :=
  map lit
  [ "team player"; "think outside the box"; "go-getter"; "hard worker";
    "detail-oriented"; "self-motivated"; "results-driven" ]%string.

Definition replaceCliches : jsstring :=
  lit "Replace clich" ++ [233%N]
  ++ lit "s with specific examples and achievements".

Section Sentiment.

(** [natural.WordTokenizer]: [tokenizer.tokenize(text)]. *)
Variable tokenize : jsstring -> list jsstring.

(** [natural.SentimentAnalyzer('English', PorterStemmer, 'afinn')]:
    [sentiment.getSentiment(tokens)]. *)
Variable getSentiment : list jsstring -> number.

(** Analyze language quality *)
Definition analyzeLanguageQuality (resume : ParsedResume)
    : BulletPointQuality :=
  let st := (100%Z, []) in
  let content := content resume in
  (* Check for passive voice *)
  let passiveMatches := matchAll passiveIndicators content in
  let st :=
    penalizeWith (5 <? length passiveMatches) 15
      (lit "Reduce passive voice - use active voice for stronger impact") st in
  (* Check for first person pronouns (should be minimal in resumes) *)
  let firstPerson := matchAll firstPersonRegex content in
  let st :=
    penalizeWith (3 <? length firstPerson) 10
      (lit "Minimize use of first-person pronouns (I, me, my)") st in
  (* Check for jargon overload *)
  let sentenceCount := length (split sentenceEnd content) in
  let complexWords := matchAll complexWordRegex content in
  let st :=
    penalizeWith
      (gt (ofNat (length complexWords)) (mul (ofNat sentenceCount) (fin 0.3)))
      10
      (lit "Simplify complex terminology where possible for better readability")
      st in
  (* Check for cliches *)
  let foundCliches :=
    filter (fun cliche => includes (toLowerCase content) cliche) cliches in
  let st := penalizeWith (2 <? length foundCliches) 15 replaceCliches st in
  (* Sentiment analysis *)
  let tokens := tokenize (toLowerCase content) in
  let sentimentScore := getSentiment tokens in
  let st :=
    penalizeWith (lt sentimentScore (fin (-0.5))) 10
      (lit "Overall tone appears negative - frame experiences more positively")
      st in
  {| score := Z.max 0 (fst st); feedback := snd st |}.

End Sentiment.

(** *** analyzeImpact *)

Record ImpactAnalysis := {
  hasQuantifiableResults : bool;
  examples : list jsstring;
  suggestions : list jsstring
}.

Definition noMetricsSuggestions : list jsstring :=
  [ lit "Add specific numbers: " ++ quoted (lit "Increased sales by 25%");
    lit "Include time frames: "
    ++ quoted (lit "Reduced processing time from 2 hours to 30 minutes");
    lit "Quantify team size: " ++ quoted (lit "Led a team of 5 developers");
    lit "Show scale: " ++ quoted (lit "Managed database with 1M+ records") ].

(** Analyze impact and quantifiable results *)
Definition analyzeImpact (resume : ParsedResume) : ImpactAnalysis :=
  let metrics := extractMetrics (content resume) in
  let suggestions :=
    if length metrics =? 0 then noMetricsSuggestions
    else if length metrics <? 3 then
      [lit "Add more quantifiable achievements throughout your experience"]
    else [] in
  {| hasQuantifiableResults := 2 <=? length metrics;
     examples := metrics;
     suggestions := suggestions |}.

(** *** generateImprovements *)

(** Generate comprehensive improvement suggestions *)
Definition generateImprovements (resume : ParsedResume)
    (atsScore : AtsEngine.ATSScoreResult)
    (bulletQuality languageQuality : BulletPointQuality)
    (impactAnalysis : ImpactAnalysis) : list jsstring :=
  let improvements := [] in
  (* Priority improvements based on ATS score *)
  let improvements :=
    addIf (0 <? length (AtsEngine.missingSkills atsScore))
      [lit "HIGH PRIORITY: Add these missing skills - "
       ++ join (lit ", ") (firstn 3 (AtsEngine.missingSkills atsScore))]
      improvements in
  let improvements :=
    addIf (0 <? length (AtsEngine.missingKeywords atsScore))
      [lit "Add critical keywords: "
       ++ join (lit ", ") (firstn 3 (AtsEngine.missingKeywords atsScore))]
      improvements in
  (* Bullet point improvements *)
  let improvements :=
    addIf (score bulletQuality <? 70)%Z
      (firstn 2 (feedback bulletQuality)) improvements in
  (* Language improvements *)
  let improvements :=
    addIf (score languageQuality <? 70)%Z
      (firstn 2 (feedback languageQuality)) improvements in
  (* Impact improvements *)
  let improvements :=
    addIf (negb (hasQuantifiableResults impactAnalysis))
      (firstn 2 (suggestions impactAnalysis)) improvements in
  (* Formatting improvements *)
  let improvements :=
    addIf (lt (AtsEngine.formattingScore atsScore) (Fin 80))
      [lit "Improve resume formatting for better ATS compatibility"]
      improvements in
  firstn 10 improvements.                               (* Top 10 improvements *)

(** *** analyzeResumeWithAI *)

Record AIAnalysisResult := {
  strengths : list jsstring;
  weaknesses : list jsstring;
  improvements : list jsstring;
  bulletPointQuality : BulletPointQuality;
  languageQuality : BulletPointQuality;
  impactAnalysis : ImpactAnalysis
}.

(** Perform comprehensive AI analysis on resume *)
Definition analyzeResumeWithAI
    (tokenize : jsstring -> list jsstring)
    (getSentiment : list jsstring -> number)
    (resume : ParsedResume) (atsScore : AtsEngine.ATSScoreResult)
    : AIAnalysisResult :=
  let strengths := identifyStrengths resume atsScore in
  let weaknesses := identifyWeaknesses resume atsScore in
  let bulletPointQuality := analyzeBulletPoints resume in
  let languageQuality := analyzeLanguageQuality tokenize getSentiment resume in
  let impactAnalysis := analyzeImpact resume in
  let improvements :=
    generateImprovements resume atsScore bulletPointQuality languageQuality
                         impactAnalysis in
  {| strengths := strengths;
     weaknesses := weaknesses;
     improvements := improvements;
     bulletPointQuality := bulletPointQuality;
     languageQuality := languageQuality;
     impactAnalysis := impactAnalysis |}.

End AiAnalysis.

(* ================================================================== *)
(** ** Scenarios *)
(* ================================================================== *)

(** Concrete inputs on which the functions are evaluated below. *)
Module Scenarios.
Import JS Num Natural AtsEngine.
Local Open Scope string_scope.

(** No pattern beyond the plain keywords is accepted.  The scenarios below
    have plain keywords only, so that this is never consulted. *)
Definition noPatterns : Regex.Compiler := fun keyword => None.

(** What [listTerms] returns for a document without terms. *)
Definition noTerms : ListTerms := fun documents d => [].

(** Two weighted terms, whatever the documents. *)
Definition twoTerms : ListTerms :=
  fun documents d =>
    [ {| term := lit "python"; tfidf := Fin 9 |};
      {| term := lit "kubernetes"; tfidf := Fin 91 |} ].

Definition job (required preferred keywords : list string)
    : JobDescriptionData :=
  {| description := [];
     requiredSkills := map lit required;
     preferredSkills := map lit preferred;
     keywords := map lit keywords;
     jobExperience := None |}.

Definition resume (text : jsstring) (skills : list string) : ResumeData :=
  {| content := text;
     skills := map lit skills;
     experience := [];
     education := [];
     projects := [] |}.

(** The scenario of the specification: skills React and Node.js against the
    required React and AWS and the preferred Docker. *)
Definition resumeReactNode : ResumeData := resume [] ["React"; "Node.js"].
Definition jobReactAws : JobDescriptionData :=
  job ["React"; "AWS"] ["Docker"] [].

(** A resume that has a preferred skill and lacks the required one. *)
Definition resumeDocker : ResumeData := resume [] ["docker"].
Definition jobAwsDocker : JobDescriptionData :=
  job ["aws"] ["docker"] ["python"].

(** One keyword three times and a hundred times. *)
Definition pythonTimes (n : nat) : ResumeData :=
  resume (join (lit " ") (repeat (lit "Python") n)) [].
Definition jobPython : JobDescriptionData := job [] [] ["python"].

(** One of three required skills, and a text with one of [twoTerms]. *)
Definition resumePython : ResumeData :=
  resume (lit "Python services") ["react"].
Definition jobThree : JobDescriptionData :=
  job ["react"; "aws"; "docker"] [] ["python"].

(** One of three preferred skills, none of the required ones, and one of
    five keywords, once; no words in the description. *)
Definition resumeDockerOnly : ResumeData :=
  resume (lit "Python services") ["docker"].
Definition jobFiveKeywords : JobDescriptionData :=
  job ["aws"] ["docker"; "terraform"; "ansible"]
      ["python"; "java"; "rust"; "kotlin"; "scala"].

(** A parsed resume with the given experience entries. *)
Definition parsed (experience : list jsstring) : ResumeParser.ParsedResume :=
  {| ResumeParser.content := join [newline] experience;
     ResumeParser.skills := [];
     ResumeParser.experience := experience;
     ResumeParser.education := [];
     ResumeParser.projects := [];
     ResumeParser.contactInfo := None |}.

(** A parsed resume with the given text and nothing else. *)
Definition parsedText (text : jsstring) : ResumeParser.ParsedResume :=
  {| ResumeParser.content := text;
     ResumeParser.skills := [];
     ResumeParser.experience := [];
     ResumeParser.education := [];
     ResumeParser.projects := [];
     ResumeParser.contactInfo := None |}.

(** Three bullets with action and context cues and without a result cue. *)
Definition threeBullets : ResumeParser.ParsedResume :=
  parsed [ lit "- led and developed the billing platform";
           lit "- managed and built the data pipeline";
           lit "- coordinated and designed the rollout plan" ].

(** Dashes without a following space, two short lines and one long line. *)
Definition crampedBullets : ResumeParser.ParsedResume :=
  parsed [ lit "-a"; lit "-b"; (lit "-" ++ repeat 120%N 200)%list ].

(** The constructor on [\bnode.js\b] with the flags [gi], where the dot
    stands for any character but a line terminator.  No other pattern is
    interpreted; the scenario below has no other keyword with pattern syntax
    characters, so that the last line is never consulted. *)
Definition nodePattern : Regex.Compiler :=
  fun keyword =>
    if str_eqb keyword (lit "node.js")
    then Some (Regex.matchAll
                 (Regex.seqs [Regex.WordB; Regex.text_i "node"; Regex.dot;
                              Regex.text_i "js"; Regex.WordB]))
    else None.

(** A plain keyword and a keyword that is a pattern, both found. *)
Definition resumePythonNode : ResumeData :=
  resume (lit "Python and Node-JS services") [].
Definition jobNodePython : JobDescriptionData :=
  job [] [] ["Node.js"; "Python"].

End Scenarios.

(* ================================================================== *)
(** ** Notions used in the statements *)
(* ================================================================== *)

Module Notions.
Import JS Num AtsEngine.

(** [isSubsequence l r]: the elements of [l] occur in [r] in this order. *)
Fixpoint isSubsequence (l r : list jsstring) {struct r} : bool :=
  match l, r with
  | [], _ => true
  | _ :: _, [] => false
  | x :: l', y :: r' =>
      if str_eqb x y then isSubsequence l' r' else isSubsequence l r'
  end.

(** The partition property as the specification words it: every required
    skill is in exactly one of the two lists, the lists hold nothing else,
    and both keep the order of the required skills. *)
Definition partitionsRequired (required matched missing : list jsstring)
    : Prop :=
  (forall x, In x required ->
     (In x matched /\ ~ In x missing) \/ (In x missing /\ ~ In x matched)) /\
  (forall x, In x matched \/ In x missing -> In x required) /\
  isSubsequence matched required = true /\
  isSubsequence missing required = true.

(** [mask keep l]: the elements of [l] whose flag in [keep] is set. *)
Fixpoint mask {A : Type} (keep : list bool) (l : list A) : list A :=
  match keep, l with
  | b :: keep', x :: l' => if b then x :: mask keep' l' else mask keep' l'
  | _, _ => []
  end.

(** Every suggestion that [generateSuggestions] can produce after
    [calculateFormattingScore], in the order of production. *)
Definition allSuggestions (missingSkills missingKeywords : list jsstring)
    : list jsstring :=
  [ skillsSuggestion missingSkills;
    experienceSuggestion;
    keywordSuggestion missingKeywords;
    formattingSuggestion (lit "Resume content is too short");
    formattingSuggestion (lit "Missing skills section");
    formattingSuggestion (lit "Missing experience section");
    formattingSuggestion (lit "Missing education section");
    formattingSuggestion (lit "Lacks strong action verbs");
    generalSuggestion ].

(** The penalty that applies when the condition holds. *)
Definition charge (cond : bool) (penalty : Z) : Z :=
  if cond then penalty else 0%Z.

(** The penalties on the bullet points of a resume, with the amounts for a
    missing result cue and for a missing context cue left open. *)
Definition bulletPenalties (noResult noContext : Z)
    (resume : ResumeParser.ParsedResume) : Z :=
  let content := join [newline] (ResumeParser.experience resume) in
  let lines := AiAnalysis.bulletLines content in
  let fewBullets :=
    length (Regex.matchAll AiAnalysis.bulletRegex content) <? 3 in
  let someTooLong :=
    0 <? length (filter (fun l => 150 <? length l) lines) in
  let manyTooShort :=
    gt (ofNat (length (filter (fun l => length l <? 30) lines)))
       (div (ofNat (length lines)) (Fin 2)) in
  (charge fewBullets 30
   + charge (negb (Regex.test AiAnalysis.actionRegex content)) 25
   + charge (negb (Regex.test AiAnalysis.resultRegex content)) noResult
   + charge (negb (Regex.test AiAnalysis.contextRegex content)) noContext
   + charge someTooLong 10
   + charge manyTooShort 10)%Z.

(** The bullet score as the specification words it: 10 for a missing
    result cue, 25 for a missing context cue. *)
Definition specBulletScore (resume : ResumeParser.ParsedResume) : Z :=
  Z.max 0 (100 - bulletPenalties 10 25 resume).

(** Every strength that [identifyStrengths] can report, in the order of
    production, for a resume with [skillCount] skills and [verbCount]
    action verbs. *)
Definition allStrengths (skillCount verbCount : nat) : list jsstring :=
  [ lit "Strong skill set with " ++ decimal skillCount
    ++ lit " identified skills";
    lit "Excellent ATS compatibility - highly likely to pass automated screening";
    lit "Strong skills alignment with job requirements";
    lit "Excellent keyword optimization";
    lit "Comprehensive work experience documentation";
    lit "Strong project portfolio demonstrates practical experience";
    lit "Effective use of " ++ decimal verbCount
    ++ lit " action verbs to demonstrate achievements";
    lit "Good use of quantifiable metrics and results" ].

(** Every weakness that [identifyWeaknesses] can report, in the order of
    production. *)
Definition allWeaknesses : list jsstring :=
  [ lit "Low ATS score may result in automatic rejection";
    lit "Insufficient skills match with job requirements";
    lit "Missing critical keywords from job description";
    lit "Limited skills listed - add more relevant technical and soft skills";
    lit "No work experience section detected";
    lit "Missing education information";
    lit "No projects section - consider adding relevant projects";
    AiAnalysis.lacksActionVerbs;
    lit "Few quantifiable achievements - add specific numbers, percentages, or metrics";
    lit "Resume appears too brief - add more detail to experience and achievements";
    lit "Resume may be too lengthy - consider condensing to most relevant information" ].

(** What a pattern can match, whatever surrounds the match: the assertions
    are taken to hold. *)
Inductive denotes : Regex.re -> jsstring -> Prop :=
| denotes_eps : denotes Regex.Eps []
| denotes_chr (p : char -> bool) (c : char) :
    p c = true -> denotes (Regex.Chr p) [c]
| denotes_seq (r1 r2 : Regex.re) (m1 m2 : jsstring) :
    denotes r1 m1 -> denotes r2 m2 -> denotes (Regex.Seq r1 r2) (m1 ++ m2)
| denotes_alt_l (r1 r2 : Regex.re) (m : jsstring) :
    denotes r1 m -> denotes (Regex.Alt r1 r2) m
| denotes_alt_r (r1 r2 : Regex.re) (m : jsstring) :
    denotes r2 m -> denotes (Regex.Alt r1 r2) m
| denotes_star_nil (greedy : bool) (r : Regex.re) :
    denotes (Regex.Star greedy r) []
| denotes_star_cons (greedy : bool) (r : Regex.re) (m1 m2 : jsstring) :
    denotes r m1 -> denotes (Regex.Star greedy r) m2 ->
    denotes (Regex.Star greedy r) (m1 ++ m2)
| denotes_look (r : Regex.re) : denotes (Regex.Look r) []
| denotes_bol (multiline : bool) : denotes (Regex.Bol multiline) []
| denotes_wordb : denotes Regex.WordB [].

(** [distinct l]: the elements of [l], each once, at its first occurrence;
    what [[...new Set(l)]] holds. *)
Definition distinct (l : list jsstring) : list jsstring :=
  fold_left setAdd l [].

End Notions.

(* ================================================================== *)
(** * Properties *)
(* ================================================================== *)

(** ** The embedding at work *)

Module Examples.
Import JS Num Regex Natural AtsEngine.

Example division_by_zero :
  div (Fin 0) (Fin 0) = NaN /\ div (Fin 1) (Fin 0) = PosInf /\
  min (Fin 100) NaN = NaN /\ lt NaN (Fin 70) = false.
Proof. repeat split; reflexivity. Qed.

Example round_halves_up :
  round (Fin 2.5) = Fin 3 /\ round (Fin (-2.5)) = Fin (-2) /\
  round (Fin 57.75) = Fin 58 /\ round NaN = NaN.
Proof. repeat split; reflexivity. Qed.

(** Arithmetic is that of binary64: 0.1 + 0.2 is above 0.3, and the keyword
    score for 6 of 36 keywords with a density total of 55 is
    57.49999999999999, which rounds to 57, where the exact value 57.5 would
    round to 58. *)
Example binary64_rounding :
  add (fin 0.1) (fin 0.2) = fin 0.30000000000000004 /\
  lt (fin 0.3) (add (fin 0.1) (fin 0.2)) = true /\
  add (mul (div (ofNat 6) (ofNat 36)) (Fin 70))
      (mul (div (ofNat 55) (ofNat 36)) (Fin 30))
  = fin 57.49999999999999 /\
  round (add (mul (div (ofNat 6) (ofNat 36)) (Fin 70))
             (mul (div (ofNat 55) (ofNat 36)) (Fin 30))) = Fin 57.
Proof. repeat split; vm_compute; reflexivity. Qed.

Example trim_and_split :
  trim (lit "  a b  ") = lit "a b" /\
  splitLines [97; 10; 10; 98]%N = [lit "a"; []; lit "b"] /\
  join (lit ", ") [lit "a"; lit "b"; lit "c"] = lit "a, b, c".
Proof. repeat split; reflexivity. Qed.

Example kitten_sitting :
  LevenshteinDistance (lit "kitten") (lit "sitting") = 3 /\
  LevenshteinDistance (lit "amazon web services") (lit "aws") = 16.
Proof. split; vm_compute; reflexivity. Qed.

Example normalizeSkills_strips :
  normalizeSkills [lit " Node.js! "; lit "C++"; lit "CI/CD"]
  = [lit "node.js"; lit "c++"; lit "cicd"].
Proof. vm_compute; reflexivity. Qed.

(** A keyword matches as a whole word, in any case. *)
Example keyword_word_boundaries :
  matchAll (keywordPattern (lit "java")) (lit "Java, javascript and (JAVA)")
  = [lit "Java"; lit "JAVA"].
Proof. vm_compute; reflexivity. Qed.

(** Bullet marks at the start of a line, with white space after them. *)
Example bullet_marks :
  matchAll AiAnalysis.bulletRegex
    (join [newline] [lit "- a"; lit "  * b"; lit "-c"; [bullet; 32; 100]%N])
  = [lit "- "; lit "  * "; [bullet; 32]%N].
Proof. vm_compute; reflexivity. Qed.

(** The skills header captures up to the blank line. *)
Example skills_section :
  matchAll (nth 0 ResumeParser.skillsSections Eps)
    (join [newline] [lit "Skills: React, AWS"; []; lit "Experience"])
  = [lit "Skills: React, AWS"] /\
  ResumeParser.extractSkillsFromText (lit "Skills: React, - AWS | unit  tests")
  = [lit "Skills: React"; lit "AWS"; lit "unit tests"].
Proof. split; vm_compute; reflexivity. Qed.

(** The formatting scenario of the specification: a short text without
    sections and action verbs scores 0, with all five issues. *)
Example formatting_floor :
  calculateFormattingScore
    {| content := repeat 120%N 200; skills := []; experience := [];
       education := []; projects := [] |}
  = {| fmtScore := 0;
       issues := [ lit "Resume content is too short";
                   lit "Missing skills section";
                   lit "Missing experience section";
                   lit "Missing education section";
                   lit "Lacks strong action verbs" ] |}.
Proof. vm_compute; reflexivity. Qed.

End Examples.

(** ** Strings, arrays and sets *)

Module Facts.
Import JS.

Lemma str_eqb_eq (a b : jsstring) : str_eqb a b = true <-> a = b.
Proof.
  revert b; induction a as [|x a IH]; intros [|y b]; simpl;
    try (split; (discriminate || reflexivity)).
  rewrite andb_true_iff, N.eqb_eq, IH.
  split; [intros [-> ->]; reflexivity | intros [= -> ->]; auto].
Qed.

Lemma str_eqb_refl (a : jsstring) : str_eqb a a = true.
Proof. now apply str_eqb_eq. Qed.

Lemma str_eqb_sym (a b : jsstring) : str_eqb a b = str_eqb b a.
Proof.
  revert b; induction a as [|x a IH]; intros [|y b]; simpl; auto.
  now rewrite N.eqb_sym, IH.
Qed.

Lemma str_eqb_neq (a b : jsstring) : str_eqb a b = false -> a <> b.
Proof. intros H E; apply str_eqb_eq in E; congruence. Qed.

Lemma arrIncludes_In (arr : list jsstring) (x : jsstring) :
  arrIncludes arr x = true <-> In x arr.
Proof.
  unfold arrIncludes; rewrite existsb_exists; split.
  - intros (y & Hy & E); apply str_eqb_eq in E; now subst.
  - intros H; exists x; split; [assumption | apply str_eqb_refl].
Qed.

Lemma arrIncludes_false (arr : list jsstring) (x : jsstring) :
  arrIncludes arr x = false <-> ~ In x arr.
Proof.
  rewrite <- arrIncludes_In; destruct (arrIncludes arr x); intuition congruence.
Qed.

Lemma arrIncludes_app (a b : list jsstring) (x : jsstring) :
  arrIncludes (a ++ b) x = arrIncludes a x || arrIncludes b x.
Proof. unfold arrIncludes; apply existsb_app. Qed.

Lemma setAdd_In (set : list jsstring) (x y : jsstring) :
  In y (setAdd set x) <-> In y set \/ y = x.
Proof.
  unfold setAdd; destruct (arrIncludes set x) eqn:E.
  - apply arrIncludes_In in E; split; [auto | intros [H | ->]; auto].
  - rewrite in_app_iff; simpl; intuition.
Qed.

Lemma setAdd_NoDup (set : list jsstring) (x : jsstring) :
  NoDup set -> NoDup (setAdd set x).
Proof.
  intros ND; unfold setAdd; destruct (arrIncludes set x) eqn:E; [exact ND|].
  apply arrIncludes_false in E.
  apply NoDup_app; [exact ND | repeat constructor; tauto |].
  intros y Hy [<-|[]]; tauto.
Qed.

Lemma fold_setAdd_NoDup (xs set : list jsstring) :
  NoDup set -> NoDup (fold_left setAdd xs set).
Proof.
  revert set; induction xs as [|x xs IH]; intros set ND; [exact ND|].
  simpl; apply IH, setAdd_NoDup, ND.
Qed.

Lemma fold_setAdd_In (xs set : list jsstring) (y : jsstring) :
  In y (fold_left setAdd xs set) <-> In y set \/ In y xs.
Proof.
  revert set; induction xs as [|x xs IH]; intros set; simpl; [tauto|].
  rewrite IH, setAdd_In; intuition.
Qed.

Lemma startsWith_app (s p : jsstring) :
  startsWith s p = true <-> exists post, s = p ++ post.
Proof.
  revert s; induction p as [|x p IH]; intros s; simpl.
  - split; [exists s; reflexivity | reflexivity].
  - destruct s as [|y s].
    + split; [discriminate | intros (post & E); discriminate].
    + rewrite andb_true_iff, N.eqb_eq, IH; split.
      * intros (-> & post & ->); now exists post.
      * intros (post & [= -> ->]); split; [reflexivity | now exists post].
Qed.

(** [includes] is the substring relation. *)
Lemma includes_spec (s sub : jsstring) :
  includes s sub = true <-> exists pre post, s = pre ++ sub ++ post.
Proof.
  induction s as [|c s IH].
  - simpl; rewrite orb_false_r, startsWith_app; split.
    + intros (post & E); now exists [], post.
    + intros (pre & post & E).
      destruct pre; [now exists post | discriminate].
  - cbn [includes]; rewrite orb_true_iff, startsWith_app, IH; split.
    + intros [(post & E) | (pre & post & E)].
      * now exists [], post.
      * exists (c :: pre), post; now rewrite E.
    + intros ([|d pre] & post & E).
      * left; now exists post.
      * right; injection E as -> ->; now exists pre, post.
Qed.

Lemma includes_map (f : char -> char) (s sub : jsstring) :
  includes s sub = true -> includes (map f s) (map f sub) = true.
Proof.
  rewrite !includes_spec; intros (pre & post & ->).
  exists (map f pre), (map f post); now rewrite !map_app.
Qed.

Lemma includes_trans (s mid sub : jsstring) :
  includes s mid = true -> includes mid sub = true -> includes s sub = true.
Proof.
  rewrite !includes_spec; intros (p1 & q1 & ->) (p2 & q2 & ->).
  exists (p1 ++ p2), (q2 ++ q1); now rewrite <- !app_assoc.
Qed.

Lemma In_firstn {A} (n : nat) (l : list A) (x : A) :
  In x (firstn n l) -> In x l.
Proof.
  revert l; induction n as [|n IH]; intros [|y l]; simpl; try tauto.
  intros [H | H]; [now left | right; now apply IH].
Qed.

Lemma existsb_pointwise {A} (f g : A -> bool) (l : list A) :
  (forall x, f x = g x) -> existsb f l = existsb g l.
Proof. intros H; induction l; simpl; [reflexivity | now rewrite H, IHl]. Qed.

End Facts.

(** ** Rounding to binary64 *)

Module RoundingFacts.
Import Num.
Local Open Scope Q_scope.

Lemma nearestEven_bounds (s : Q) :
  (Qfloor s <= nearestEven s <= Qfloor s + 1)%Z.
Proof.
  unfold nearestEven; destruct (Qcompare _ _); [destruct (Z.even _)| |]; lia.
Qed.

Lemma nearestEven_le (s t : Q) : s <= t -> (nearestEven s <= nearestEven t)%Z.
Proof.
  intros Hle.
  pose proof (Qfloor_resp_le _ _ Hle) as Hf.
  destruct (Z.eq_dec (Qfloor s) (Qfloor t)) as [E | N].
  - unfold nearestEven; rewrite <- E.
    destruct (Qcompare_spec (s - inject_Z (Qfloor s)) (1 # 2)) as [H1|H1|H1];
      destruct (Qcompare_spec (t - inject_Z (Qfloor s)) (1 # 2)) as [H2|H2|H2];
      try (destruct (Z.even (Qfloor s))); try lia; exfalso; lra.
  - pose proof (nearestEven_bounds s); pose proof (nearestEven_bounds t); lia.
Qed.

Lemma nearestEven_Z (n : Z) : nearestEven (inject_Z n) = n.
Proof.
  unfold nearestEven; rewrite Qfloor_Z.
  destruct (Qcompare_spec (inject_Z n - inject_Z n) (1 # 2)) as [H|H|H];
    try reflexivity; exfalso; lra.
Qed.

Lemma pow2_pos (e : Z) : 0 < 2 ^ e.
Proof. now apply Qpower_0_lt. Qed.

Lemma pow2_plus (a b : Z) : 2 ^ (a + b) == 2 ^ a * 2 ^ b.
Proof. apply Qpower_plus; discriminate. Qed.

Lemma pow2_log2 (a : Z) :
  (0 < a)%Z -> 2 ^ Z.log2 a <= inject_Z a /\ inject_Z a < 2 * 2 ^ Z.log2 a.
Proof.
  intros Ha; destruct (Z.log2_spec a Ha) as [H1 H2].
  pose proof (Z.log2_nonneg a) as Hn.
  rewrite Z.pow_succ_r in H2 by exact Hn.
  rewrite <- (Zpower_Qpower 2 (Z.log2 a) Hn).
  split.
  - now rewrite <- Zle_Qle.
  - change 2 with (inject_Z 2) at 1; rewrite <- inject_Z_mult, <- Zlt_Qlt.
    exact H2.
Qed.

(** The scaled value is a 53-bit significand. *)
Lemma exponent_spec (q : Q) :
  0 < q ->
  2 ^ 52 <= q * 2 ^ (- exponent q) /\ q * 2 ^ (- exponent q) < 2 ^ 53.
Proof.
  intros Hq; unfold exponent.
  set (la := Z.log2 (Qnum q)); set (lb := Z.log2 (Z.pos (Qden q))).
  assert (Ha : (0 < Qnum q)%Z).
  { destruct q as [a b]; unfold Qlt in Hq; simpl in *; lia. }
  destruct (pow2_log2 (Qnum q) Ha) as [A1 A2]; fold la in A1, A2.
  destruct (pow2_log2 (Z.pos (Qden q)) eq_refl) as [B1 B2]; fold lb in B1, B2.
  assert (Eq : q == inject_Z (Qnum q) / inject_Z (Z.pos (Qden q))).
  { destruct q as [a b]; simpl; apply Qmake_Qdiv. }
  pose proof (pow2_pos la) as Xp; pose proof (pow2_pos lb) as Yp.
  assert (Es : 2 ^ (- (la - lb - 53)) == 2 ^ 53 * 2 ^ lb / 2 ^ la).
  { replace (- (la - lb - 53))%Z with (53 + lb + - la)%Z by lia.
    rewrite !pow2_plus, Qpower_opp; reflexivity. }
  set (A := inject_Z (Qnum q)) in *; set (B := inject_Z (Z.pos (Qden q))) in *.
  set (X := 2 ^ la) in *; set (Y := 2 ^ lb) in *.
  assert (Bp : 0 < B) by lra.
  assert (Hs : q * 2 ^ (- (la - lb - 53)) == 2 ^ 53 * (A * Y / (B * X))).
  { rewrite Es, Eq; field; split; lra. }
  assert (Hlo : 1 # 2 <= A * Y / (B * X)).
  { apply Qle_shift_div_l; [nra | nra]. }
  assert (Hhi : A * Y / (B * X) < 2).
  { apply Qlt_shift_div_r; [nra | nra]. }
  set (r := A * Y / (B * X)) in *.
  assert (E52 : 2 ^ 52 == 2 ^ 53 * (1 # 2)) by reflexivity.
  assert (Em1 : 2 ^ (-1) == 1 # 2) by reflexivity.
  pose proof (pow2_pos 53) as Pp.
  destruct (Qle_bool (2 ^ 53) (q * 2 ^ (- (la - lb - 53)))) eqn:Hb.
  - apply Qle_bool_iff in Hb.
    replace (- (la - lb - 53 + 1))%Z with (- (la - lb - 53) + -1)%Z by lia.
    rewrite pow2_plus, Qmult_assoc, Em1, E52.
    rewrite Hs in *; split; nra.
  - assert (Hn : ~ 2 ^ 53 <= q * 2 ^ (- (la - lb - 53))).
    { intros H; apply Qle_bool_iff in H; congruence. }
    rewrite E52; rewrite Hs in *; split; [nra | lra].
Qed.

Lemma scaled_value (q : Q) (e : Z) : q * 2 ^ (- e) * 2 ^ e == q.
Proof.
  rewrite <- Qmult_assoc, <- pow2_plus.
  replace (- e + e)%Z with 0%Z by lia.
  change (2 ^ 0) with 1; ring.
Qed.

Lemma nearest_bounds (q : Q) :
  0 < q ->
  2 ^ 52 * 2 ^ exponent q <= nearest q /\
  nearest q <= 2 ^ 53 * 2 ^ exponent q.
Proof.
  intros Hq; destruct (exponent_spec q Hq) as [Hlo Hhi]; unfold nearest.
  pose proof (pow2_pos (exponent q)) as Hp.
  set (s := q * 2 ^ (- exponent q)) in *.
  assert (H52 : (2 ^ 52 <= nearestEven s)%Z).
  { rewrite <- (nearestEven_Z (2 ^ 52)); apply nearestEven_le; exact Hlo. }
  assert (H53 : (nearestEven s <= 2 ^ 53)%Z).
  { rewrite <- (nearestEven_Z (2 ^ 53)); apply nearestEven_le.
    apply Qlt_le_weak; exact Hhi. }
  rewrite Zle_Qle in H52, H53.
  change (inject_Z (2 ^ 52)) with (2 ^ 52) in H52.
  change (inject_Z (2 ^ 53)) with (2 ^ 53) in H53.
  split; apply Qmult_le_compat_r; try assumption; now apply Qlt_le_weak.
Qed.

Lemma nearest_pos (q : Q) : 0 < q -> 0 < nearest q.
Proof.
  intros Hq; destruct (nearest_bounds q Hq) as [H _].
  pose proof (pow2_pos (exponent q)) as Hp.
  eapply Qlt_le_trans; [|exact H].
  apply Qmult_lt_0_compat; [reflexivity | exact Hp].
Qed.

Lemma nearest_le (x y : Q) : 0 < x -> x <= y -> nearest x <= nearest y.
Proof.
  intros Hx Hxy.
  assert (Hy : 0 < y) by lra.
  destruct (exponent_spec x Hx) as [Xlo Xhi].
  destruct (exponent_spec y Hy) as [Ylo Yhi].
  pose proof (scaled_value x (exponent x)) as Vx.
  pose proof (scaled_value y (exponent y)) as Vy.
  pose proof (pow2_pos (exponent x)) as Px.
  pose proof (pow2_pos (exponent y)) as Py.
  destruct (Z_lt_le_dec (exponent y) (exponent x)) as [Hlt | Hle].
  - exfalso.
    assert (Hp : 2 ^ (exponent y + 1) <= 2 ^ exponent x)
      by (apply Qpower_le_compat_l; [lia | discriminate]).
    rewrite pow2_plus in Hp; change (2 ^ 1) with 2 in Hp.
    assert (E52 : 2 ^ 52 == 4503599627370496) by reflexivity.
    assert (E53 : 2 ^ 53 == 9007199254740992) by reflexivity.
    rewrite E52 in *; rewrite E53 in *.
    set (sx := x * 2 ^ (- exponent x)) in *.
    set (sy := y * 2 ^ (- exponent y)) in *.
    nra.
  - destruct (Z.eq_dec (exponent x) (exponent y)) as [E | N].
    + unfold nearest; rewrite <- E.
      apply Qmult_le_compat_r; [|now apply Qlt_le_weak].
      rewrite <- Zle_Qle; apply nearestEven_le.
      apply Qmult_le_compat_r; [exact Hxy|].
      apply Qlt_le_weak, pow2_pos.
    + destruct (nearest_bounds x Hx) as [_ Hhi].
      destruct (nearest_bounds y Hy) as [Hlo _].
      assert (Hp : 2 ^ (exponent x + 1) <= 2 ^ exponent y)
        by (apply Qpower_le_compat_l; [lia | discriminate]).
      rewrite pow2_plus in Hp; change (2 ^ 1) with 2 in Hp.
      assert (E52 : 2 ^ 52 == 4503599627370496) by reflexivity.
      assert (E53 : 2 ^ 53 == 9007199254740992) by reflexivity.
      rewrite E52 in *; rewrite E53 in *.
      lra.
Qed.

Lemma nearestDouble_sign (q : Q) :
  (0 < q -> 0 < nearestDouble q) /\ (q == 0 -> nearestDouble q == 0) /\
  (q < 0 -> nearestDouble q < 0).
Proof.
  unfold nearestDouble; destruct (Qcompare_spec q 0) as [H|H|H];
    repeat split; intros H'; try (exfalso; lra); try reflexivity.
  - assert (Hn : 0 < nearest (- q)) by (apply nearest_pos; lra). lra.
  - now apply nearest_pos.
Qed.

Lemma nearestDouble_le (x y : Q) :
  x <= y -> nearestDouble x <= nearestDouble y.
Proof.
  intros Hxy.
  destruct (nearestDouble_sign x) as (Xp & Xz & Xn).
  destruct (nearestDouble_sign y) as (Yp & Yz & Yn).
  destruct (Qlt_le_dec 0 x) as [Hx | Hx].
  - unfold nearestDouble.
    destruct (Qcompare_spec x 0) as [H|H|H]; try (exfalso; lra).
    destruct (Qcompare_spec y 0) as [H'|H'|H']; try (exfalso; lra).
    now apply nearest_le.
  - destruct (Qlt_le_dec 0 y) as [Hy | Hy].
    + specialize (Yp Hy).
      destruct (Qeq_dec x 0) as [E | N]; [rewrite (Xz E); lra|].
      assert (Hlt : x < 0).
      { destruct (Qlt_le_dec x 0) as [H | H]; [exact H|].
        exfalso; apply N; lra. }
      specialize (Xn Hlt); lra.
    + destruct (Qeq_dec y 0) as [E | N].
      * rewrite (Yz E).
        destruct (Qeq_dec x 0) as [E' | N']; [rewrite (Xz E'); lra|].
        assert (Hlt : x < 0).
        { destruct (Qlt_le_dec x 0) as [H | H]; [exact H|].
          exfalso; apply N'; lra. }
        specialize (Xn Hlt); lra.
      * assert (Hylt : y < 0).
        { destruct (Qlt_le_dec y 0) as [H | H]; [exact H|].
          exfalso; apply N; lra. }
        unfold nearestDouble.
        destruct (Qcompare_spec x 0) as [H|H|H]; try (exfalso; lra).
        destruct (Qcompare_spec y 0) as [H'|H'|H']; try (exfalso; lra).
        assert (Hn : nearest (- y) <= nearest (- x))
          by (apply nearest_le; lra).
        lra.
Qed.

Lemma double_eq (x y : Q) : x == y -> double x = double y.
Proof. intros E; unfold double; now rewrite (Qred_complete x y E). Qed.

Lemma double_le (x y : Q) : x <= y -> double x <= double y.
Proof.
  intros Hxy; unfold double; rewrite !(Qred_correct (nearestDouble _)).
  apply nearestDouble_le; now rewrite !Qred_correct.
Qed.

Lemma double_pos (q : Q) : 0 < q -> 0 < double q.
Proof.
  intros Hq; unfold double; rewrite (Qred_correct (nearestDouble _)).
  apply nearestDouble_sign; now rewrite Qred_correct.
Qed.

Lemma double_0 : double 0 = 0.
Proof. reflexivity. Qed.

Lemma double_nonneg (q : Q) : 0 <= q -> 0 <= double q.
Proof. intros Hq; rewrite <- double_0; now apply double_le. Qed.

Lemma nearestEven_comp (s t : Q) : s == t -> nearestEven s = nearestEven t.
Proof.
  intros E; apply Z.le_antisymm; apply nearestEven_le; rewrite E;
    apply Qle_refl.
Qed.

Lemma exponent_unique (q : Q) (e : Z) :
  0 < q -> 2 ^ 52 <= q * 2 ^ (- e) -> q * 2 ^ (- e) < 2 ^ 53 ->
  exponent q = e.
Proof.
  intros Hq Hlo Hhi.
  destruct (exponent_spec q Hq) as [Hlo' Hhi'].
  set (e' := exponent q) in *.
  assert (E52 : 2 ^ 52 == 4503599627370496) by reflexivity.
  assert (E53 : 2 ^ 53 == 9007199254740992) by reflexivity.
  rewrite E52, E53 in *.
  pose proof (pow2_pos (- e)) as P; pose proof (pow2_pos (- e')) as P'.
  destruct (Z.lt_trichotomy e' e) as [H | [H | H]]; [exfalso| exact H |exfalso].
  - assert (Hp : 2 ^ (- e + 1) <= 2 ^ (- e'))
      by (apply Qpower_le_compat_l; [lia | discriminate]).
    rewrite pow2_plus in Hp; change (2 ^ 1) with 2 in Hp.
    nra.
  - assert (Hp : 2 ^ (- e' + 1) <= 2 ^ (- e))
      by (apply Qpower_le_compat_l; [lia | discriminate]).
    rewrite pow2_plus in Hp; change (2 ^ 1) with 2 in Hp.
    nra.
Qed.

Lemma pow2_cancel (e : Z) : 2 ^ e * 2 ^ (- e) == 1.
Proof.
  rewrite <- pow2_plus; replace (e + - e)%Z with 0%Z by lia; reflexivity.
Qed.

(** A significand of 53 bits times a power of two is its own nearest
    value. *)
Lemma nearest_fixed (m e : Z) :
  (2 ^ 52 <= m < 2 ^ 53)%Z ->
  nearest (inject_Z m * 2 ^ e) == inject_Z m * 2 ^ e.
Proof.
  intros [Hlo Hhi].
  pose proof (pow2_pos e) as P.
  assert (Hm : 0 < inject_Z m).
  { change 0 with (inject_Z 0); rewrite <- Zlt_Qlt; lia. }
  assert (Hs : inject_Z m * 2 ^ e * 2 ^ (- e) == inject_Z m).
  { rewrite <- Qmult_assoc, pow2_cancel; ring. }
  assert (He : exponent (inject_Z m * 2 ^ e) = e).
  { apply exponent_unique.
    - now apply Qmult_lt_0_compat.
    - rewrite Hs; change (2 ^ 52) with (inject_Z (2 ^ 52)).
      now rewrite <- Zle_Qle.
    - rewrite Hs; change (2 ^ 53) with (inject_Z (2 ^ 53)).
      now rewrite <- Zlt_Qlt. }
  unfold nearest; rewrite He, (nearestEven_comp _ _ Hs), nearestEven_Z.
  reflexivity.
Qed.

Lemma nearest_nearest (q : Q) : 0 < q -> nearest (nearest q) == nearest q.
Proof.
  intros Hq; destruct (exponent_spec q Hq) as [Hlo Hhi].
  unfold nearest at 2 3.
  set (e := exponent q) in *; set (s := q * 2 ^ (- e)) in *.
  assert (H52 : (2 ^ 52 <= nearestEven s)%Z).
  { rewrite <- (nearestEven_Z (2 ^ 52)); apply nearestEven_le; exact Hlo. }
  assert (H53 : (nearestEven s <= 2 ^ 53)%Z).
  { rewrite <- (nearestEven_Z (2 ^ 53)); apply nearestEven_le.
    apply Qlt_le_weak; exact Hhi. }
  destruct (Z.eq_dec (nearestEven s) (2 ^ 53)) as [E | N].
  - rewrite E.
    assert (Ev : inject_Z (2 ^ 53) * 2 ^ e == inject_Z (2 ^ 52) * 2 ^ (e + 1)).
    { rewrite pow2_plus; change (2 ^ 1) with 2.
      change (inject_Z (2 ^ 53)) with (inject_Z (2 ^ 52) * 2); ring. }
    assert (Hn : nearest (inject_Z (2 ^ 53) * 2 ^ e)
                 == nearest (inject_Z (2 ^ 52) * 2 ^ (e + 1))).
    { pose proof (pow2_pos e); pose proof (pow2_pos (e + 1)).
      apply Qle_antisym; apply nearest_le;
        try (rewrite Ev; apply Qle_refl);
        apply Qmult_lt_0_compat; try assumption; reflexivity. }
    rewrite Hn, nearest_fixed by lia; symmetry; exact Ev.
  - apply nearest_fixed; lia.
Qed.

Lemma nearestDouble_comp (x y : Q) :
  x == y -> nearestDouble x == nearestDouble y.
Proof.
  intros E; apply Qle_antisym; apply nearestDouble_le; rewrite E;
    apply Qle_refl.
Qed.

Lemma nearestDouble_idempotent (q : Q) :
  nearestDouble (nearestDouble q) == nearestDouble q.
Proof.
  destruct (nearestDouble_sign q) as (Hp & Hz & Hn).
  unfold nearestDouble at 2 3.
  destruct (Qcompare_spec q 0) as [H|H|H].
  - reflexivity.
  - assert (Hq : 0 < - q) by lra.
    pose proof (nearest_pos (- q) Hq) as Hpos.
    unfold nearestDouble.
    destruct (Qcompare_spec (- nearest (- q)) 0) as [H'|H'|H'];
      try (exfalso; lra).
    assert (E : nearest (- - nearest (- q)) == nearest (nearest (- q))).
    { apply Qle_antisym; apply nearest_le; lra. }
    rewrite E, nearest_nearest by exact Hq; reflexivity.
  - pose proof (nearest_pos q H) as Hpos.
    unfold nearestDouble.
    destruct (Qcompare_spec (nearest q) 0) as [H'|H'|H'];
      try (exfalso; lra).
    now apply nearest_nearest.
Qed.

(** What an operation returns is a binary64 value. *)
Lemma double_idempotent (q : Q) : double (double q) = double q.
Proof.
  unfold double; apply Qred_complete.
  rewrite (nearestDouble_comp (Qred (Qred (nearestDouble (Qred q))))
             (nearestDouble (Qred q))) by (now rewrite !Qred_correct).
  apply nearestDouble_idempotent.
Qed.

End RoundingFacts.

(** ** Numbers *)

Module NumFacts.
Import Num.
Local Open Scope Q_scope.

Lemma nonneg_ofNat (n : nat) : nonneg (ofNat n).
Proof.
  unfold ofNat, ofZ, nonneg.
  change 0 with (inject_Z 0); rewrite <- Zle_Qle; lia.
Qed.

Lemma nonneg_add (a b : number) : nonneg a -> nonneg b -> nonneg (add a b).
Proof.
  destruct a as [x| | |], b as [y| | |]; cbn [nonneg add fin]; try tauto.
  intros Hx Hy; apply RoundingFacts.double_nonneg; lra.
Qed.

Lemma nonneg_mul (a b : number) : nonneg a -> nonneg b -> nonneg (mul a b).
Proof.
  destruct a as [x| | |], b as [y| | |]; cbn [nonneg mul fin]; try tauto.
  intros Hx Hy; apply RoundingFacts.double_nonneg.
  now apply Qmult_le_0_compat.
Qed.

(** A count divided by a positive count. *)
Lemma nonneg_div_ofNat (n m : nat) :
  (0 < m)%nat -> nonneg (div (ofNat n) (ofNat m)).
Proof.
  intros Hm; unfold ofNat, ofZ, div, isZero.
  assert (Hpos : 0 < inject_Z (Z.of_nat m)).
  { change 0 with (inject_Z 0); rewrite <- Zlt_Qlt; lia. }
  destruct (Qeq_bool (inject_Z (Z.of_nat m)) 0) eqn:E.
  - apply Qeq_bool_eq in E; rewrite E in Hpos; now apply Qlt_irrefl in Hpos.
  - cbn [nonneg fin]; apply RoundingFacts.double_nonneg.
    apply Qle_shift_div_l; [exact Hpos|].
    rewrite Qmult_0_l.
    change 0 with (inject_Z 0); rewrite <- Zle_Qle; lia.
Qed.

Lemma min_100_in_range (a : number) : nonneg a -> in_0_100 (min (Fin 100) a).
Proof.
  destruct a as [x| | |]; cbn [nonneg min lt in_0_100]; try tauto.
  intros Hx; destruct (Qle_bool 100 x) eqn:E; cbn [negb in_0_100].
  - split; [lra | apply Qle_refl].
  - split; [exact Hx|].
    destruct (Qlt_le_dec x 100) as [H | H]; [now apply Qlt_le_weak|].
    apply Qle_bool_iff in H; congruence.
Qed.

Lemma round_in_range (a : number) : in_0_100 a -> in_0_100 (round a).
Proof.
  destruct a as [x| | |]; cbn [in_0_100 round ofZ]; try tauto.
  intros [H0 H100]; split.
  - change 0 with (inject_Z 0); rewrite <- Zle_Qle.
    rewrite <- (Qfloor_Z 0); apply Qfloor_resp_le.
    change (inject_Z 0) with 0; lra.
  - change 100 with (inject_Z 100); rewrite <- Zle_Qle.
    change 100%Z with (Qfloor (100 + (1 # 2))).
    apply Qfloor_resp_le; lra.
Qed.

Lemma in_range_ofZ (z : Z) : (0 <= z <= 100)%Z -> in_0_100 (ofZ z).
Proof.
  intros [H0 H100]; unfold ofZ, in_0_100; split.
  - change 0 with (inject_Z 0); now rewrite <- Zle_Qle.
  - change 100 with (inject_Z 100); now rewrite <- Zle_Qle.
Qed.

End NumFacts.

(** ** The skill matcher *)

Module MatcherFacts.
Import JS Num Regex Natural AtsEngine Facts.

Lemma editDistance_cons (a : char) (s : jsstring) (b : char) (t : jsstring) :
  editDistance (a :: s) (b :: t) =
  Nat.min (Nat.min (editDistance s (b :: t) + 1)
                   (editDistance (a :: s) t + 1))
          (editDistance s t + (if (a =? b)%N then 0 else 1)).
Proof. reflexivity. Qed.

Lemma editDistance_nil_r (s : jsstring) : editDistance s [] = length s.
Proof. destruct s; reflexivity. Qed.

(** The edit distance does not depend on the order of its arguments. *)
Lemma editDistance_sym (s t : jsstring) : editDistance s t = editDistance t s.
Proof.
  revert t; induction s as [|a s IH]; intros t.
  - rewrite editDistance_nil_r; destruct t; reflexivity.
  - induction t as [|b t IHt]; [reflexivity|].
    rewrite !editDistance_cons, IHt, (IH (b :: t)), (IH t), (N.eqb_sym a b).
    lia.
Qed.

Lemma suffixes_cons (s : jsstring) : exists rest, suffixes s = s :: rest.
Proof. destruct s; simpl; eauto. Qed.

(** A row of the matrix holds the edit distances to the suffixes of the
    target. *)
Lemma nextRow_editDistance (a : char) (s t : jsstring) :
  nextRow a (S (length s)) t (map (editDistance s) (suffixes t))
  = map (editDistance (a :: s)) (suffixes t).
Proof.
  induction t as [|b t IH]; [reflexivity|].
  cbn [suffixes map nextRow]; rewrite IH.
  destruct (suffixes_cons t) as (rest & ->); cbn [map].
  now rewrite editDistance_cons.
Qed.

Lemma distanceRow_editDistance (s t : jsstring) :
  distanceRow s t = map (editDistance s) (suffixes t).
Proof.
  induction s as [|a s IH]; cbn [distanceRow].
  - apply map_ext; intros u; destruct u; reflexivity.
  - rewrite IH; apply nextRow_editDistance.
Qed.

Lemma Levenshtein_editDistance (s t : jsstring) :
  LevenshteinDistance s t = editDistance s t.
Proof.
  unfold LevenshteinDistance; rewrite distanceRow_editDistance.
  destruct (suffixes_cons t) as (rest & ->); reflexivity.
Qed.

Lemma Levenshtein_sym (s t : jsstring) :
  LevenshteinDistance s t = LevenshteinDistance t s.
Proof. rewrite !Levenshtein_editDistance; apply editDistance_sym. Qed.

(** C6.  [skillsMatch] is symmetric, and it accepts "JavaScript"/"js",
    "Reactjs"/"React" and "postgres"/"postgresql" and rejects
    "Python"/"Java". *)
Theorem skillsMatch_symmetric :
  (forall a b, skillsMatch a b = skillsMatch b a) /\
  skillsMatch (lit "JavaScript") (lit "js") = true /\
  skillsMatch (lit "Python") (lit "Java") = false /\
  skillsMatch (lit "Reactjs") (lit "React") = true /\
  skillsMatch (lit "postgres") (lit "postgresql") = true.
Proof.
  split; [|repeat split; vm_compute; reflexivity].
  intros a b; unfold skillsMatch.
  set (s1 := trim (toLowerCase a)); set (s2 := trim (toLowerCase b)).
  rewrite (str_eqb_sym s2 s1), (orb_comm (includes s2 s1)),
    (Levenshtein_sym s2 s1), (Nat.max_comm (length s2)).
  rewrite (existsb_pointwise
             (fun '(_, variants) =>
                arrIncludes variants s2 && arrIncludes variants s1)
             (fun '(_, variants) =>
                arrIncludes variants s1 && arrIncludes variants s2)).
  - reflexivity.
  - intros [key variants]; apply andb_comm.
Qed.

End MatcherFacts.

(** ** The skills score *)

Module SkillsFacts.
Import JS Num Regex Natural AtsEngine Facts.

Lemma requiredLoop_from (resumeSkills required m0 x0 : list jsstring) :
  fold_left
    (fun '(matched, missing) jobSkill =>
       if someMatch resumeSkills jobSkill
       then (matched ++ [jobSkill], missing)
       else (matched, missing ++ [jobSkill]))
    required (m0, x0)
  = (m0 ++ filter (someMatch resumeSkills) required,
     x0 ++ filter (unmatched resumeSkills) required).
Proof.
  revert m0 x0; induction required as [|s required IH]; intros m0 x0; simpl.
  - now rewrite !app_nil_r.
  - unfold unmatched at 1.
    destruct (someMatch resumeSkills s); simpl; rewrite IH;
      now rewrite <- ?app_assoc.
Qed.

(** The first loop splits the required skills, keeping their order. *)
Lemma requiredLoop_filter (resumeSkills required : list jsstring) :
  requiredLoop resumeSkills required
  = (filter (someMatch resumeSkills) required,
     filter (unmatched resumeSkills) required).
Proof. unfold requiredLoop; now rewrite requiredLoop_from. Qed.

(** The second loop appends to [matched], in their order and each once,
    the preferred skills that the resume matches and that [matched] does not
    hold. *)
Lemma preferredLoop_from (resumeSkills preferred m0 : list jsstring) :
  forall n acc,
    snd (fold_left
           (fun '(preferredMatched, matched) prefSkill =>
              if someMatch resumeSkills prefSkill
              then (S preferredMatched,
                    if negb (arrIncludes matched prefSkill)
                    then matched ++ [prefSkill] else matched)
              else (preferredMatched, matched))
           preferred (n, m0 ++ acc))
    = m0 ++ fold_left setAdd
              (filter (fun x => someMatch resumeSkills x
                                && negb (arrIncludes m0 x)) preferred) acc.
Proof.
  induction preferred as [|p preferred IH]; intros n acc; [reflexivity|].
  cbn [fold_left filter].
  destruct (someMatch resumeSkills p) eqn:Hp; cbn [andb]; [|apply IH].
  rewrite arrIncludes_app.
  destruct (arrIncludes m0 p) eqn:Hin; cbn [orb negb]; [apply IH|].
  cbn [fold_left]; unfold setAdd at 2.
  destruct (arrIncludes acc p); cbn [negb]; [apply IH|].
  rewrite <- app_assoc; apply IH.
Qed.

Lemma preferredLoop_extends (resumeSkills preferred m0 : list jsstring) :
  snd (preferredLoop resumeSkills preferred m0)
  = m0 ++ Notions.distinct
            (filter (fun x => someMatch resumeSkills x
                              && negb (arrIncludes m0 x)) preferred).
Proof.
  unfold preferredLoop, Notions.distinct.
  rewrite <- (app_nil_r m0) at 1; apply preferredLoop_from.
Qed.

(** What [calculateSkillsScore] returns as [matched] and [missing]. *)
Lemma calculateSkillsScore_lists (resume : ResumeData)
    (jobDescription : JobDescriptionData) :
  let resumeN := normalizeSkills (skills resume) in
  let requiredN := normalizeSkills (requiredSkills jobDescription) in
  let preferredN := normalizeSkills (preferredSkills jobDescription) in
  let a := calculateSkillsScore resume jobDescription in
  missing a = filter (unmatched resumeN) requiredN /\
  exists extra,
    matched a = filter (someMatch resumeN) requiredN ++ extra /\
    NoDup extra /\
    (forall x, In x extra <->
       In x preferredN /\ someMatch resumeN x = true /\ ~ In x requiredN) /\
    extra = Notions.distinct
              (filter (fun x => someMatch resumeN x
                                && negb (arrIncludes requiredN x)) preferredN).
Proof.
  intros resumeN requiredN preferredN a; subst a.
  unfold calculateSkillsScore; fold resumeN requiredN preferredN.
  rewrite requiredLoop_filter.
  pose proof (preferredLoop_extends resumeN preferredN
                (filter (someMatch resumeN) requiredN)) as E.
  destruct (preferredLoop resumeN preferredN
              (filter (someMatch resumeN) requiredN)) as [n m]; simpl in *.
  split; [reflexivity|].
  assert (Hsame :
            filter (fun x => someMatch resumeN x
                             && negb (arrIncludes
                                        (filter (someMatch resumeN) requiredN)
                                        x)) preferredN
            = filter (fun x => someMatch resumeN x
                               && negb (arrIncludes requiredN x)) preferredN).
  { apply filter_ext; intros x.
    destruct (someMatch resumeN x) eqn:Hm; [cbn [andb] | reflexivity].
    f_equal.
    destruct (arrIncludes requiredN x) eqn:Hr.
    - apply arrIncludes_In; apply arrIncludes_In in Hr.
      apply filter_In; now split.
    - apply arrIncludes_false; apply arrIncludes_false in Hr.
      intros H; apply filter_In in H; tauto. }
  rewrite Hsame in E; clear Hsame.
  eexists; split; [exact E|].
  split; [apply fold_setAdd_NoDup; constructor|].
  split; [|reflexivity].
  intros x; unfold Notions.distinct.
  rewrite fold_setAdd_In, filter_In, andb_true_iff, negb_true_iff.
  rewrite arrIncludes_false; simpl; tauto.
Qed.

End SkillsFacts.

(** ** The keyword score *)

Module KeywordFacts.
Import JS Num Regex Natural AtsEngine Facts.

Lemma isSyntaxChar_lowerChar (c : char) :
  isSyntaxChar (lowerChar c) = isSyntaxChar c.
Proof.
  unfold lowerChar, isUpperAZ, in_range.
  destruct (N.leb_spec 65 c), (N.leb_spec c 90); simpl;
    try (destruct (N.leb_spec 192 c), (N.leb_spec c 222); simpl;
         try destruct (N.eqb_spec c 215); simpl); try reflexivity;
    unfold isSyntaxChar, memc; simpl;
    repeat match goal with
           | |- context [N.eqb ?a ?b] =>
               destruct (N.eqb_spec a b); [exfalso; lia|]
           end; reflexivity.
Qed.

Lemma plainKeyword_toLowerCase (keyword : jsstring) :
  plainKeyword (toLowerCase keyword) = plainKeyword keyword.
Proof.
  unfold plainKeyword, toLowerCase; f_equal.
  induction keyword as [|c k IH]; simpl;
    [reflexivity | now rewrite isSyntaxChar_lowerChar, IH].
Qed.

(** On plain keywords the constructor does not throw. *)
Lemma plainKeywords_compilable
    (patternMatches : Compiler)
    (job : JobDescriptionData) :
  plainKeywords job -> compilable patternMatches job.
Proof.
  unfold plainKeywords, compilable; intros Hplain keyword Hin.
  rewrite forallb_forall in Hplain.
  unfold keywordRegExp.
  rewrite plainKeyword_toLowerCase, (Hplain keyword Hin); discriminate.
Qed.

Lemma keywordLoop_from
    (patternMatches : Compiler)
    (text : jsstring) (keywords : list jsstring) (st : KeywordLoop) :
  (forall k, In k keywords -> keywordRegExp patternMatches k <> None) ->
  fold_left (keywordStep patternMatches text) keywords (Some st)
  = Some {| kwMatched :=
              kwMatched st ++ filter (found patternMatches text) keywords;
            kwMissing :=
              kwMissing st
              ++ filter (fun k => negb (found patternMatches text k)) keywords;
            densityScore :=
              densityScore st + totalDensity patternMatches text keywords |}.
Proof.
  revert st; induction keywords as [|k ks IH]; intros [m x d] Hok.
  - simpl; unfold totalDensity; simpl.
    now rewrite !app_nil_r, Nat.add_0_r.
  - assert (Hks : forall k', In k' ks ->
                    keywordRegExp patternMatches k' <> None)
      by (intros k' Hk'; apply Hok; now right).
    assert (Hk : keywordRegExp patternMatches k <> None)
      by (apply Hok; now left).
    cbn [fold_left keywordStep filter].
    unfold totalDensity; cbn [map]; simpl list_sum.
    assert (Hfound : found patternMatches text k
                     = (0 <? occurrences patternMatches text k))
      by reflexivity.
    rewrite Hfound; clear Hfound.
    unfold occurrences at 1 2 3.
    destruct (keywordRegExp patternMatches k) as [matchesIn|]; [|congruence].
    destruct (0 <? length (matchesIn text)) eqn:Hocc; rewrite (IH _ Hks);
      cbn [kwMatched kwMissing densityScore negb]; unfold totalDensity;
      do 2 f_equal; try (rewrite <- app_assoc; reflexivity); try lia.
    apply Nat.ltb_ge in Hocc.
    replace (length (matchesIn text)) with 0 by lia.
    reflexivity.
Qed.

(** The keyword analysis in closed form, when the constructor does not
    throw. *)
Lemma calculateKeywordScore_returns
    (patternMatches : Compiler)
    (resume : ResumeData) (job : JobDescriptionData) :
  compilable patternMatches job ->
  let text := toLowerCase (content resume) in
  let kws := map toLowerCase (keywords job) in
  calculateKeywordScore patternMatches resume job
  = Some {| score :=
              min (Fin 100)
                (add (mul (if 0 <? length kws
                           then div (ofNat (length
                                              (filter
                                                 (found patternMatches text)
                                                 kws)))
                                    (ofNat (length kws))
                           else Fin 0)
                          (Fin 70))
                     (mul (div (ofNat (totalDensity patternMatches text kws))
                               (ofNat (length kws)))
                          (Fin 30)));
            matched := filter (found patternMatches text) kws;
            missing :=
              filter (fun k => negb (found patternMatches text k)) kws |}.
Proof.
  intros Hok text kws.
  unfold calculateKeywordScore; fold text kws.
  rewrite (keywordLoop_from patternMatches text kws).
  - reflexivity.
  - intros k Hk; apply in_map_iff in Hk; destruct Hk as (k0 & <- & Hk0).
    now apply Hok.
Qed.

Lemma density_saturated (n : nat) : 3 <= n -> density n = 15.
Proof. unfold density; lia. Qed.

Lemma calculateKeywordScore_no_keywords
    (patternMatches : Compiler)
    (resume : ResumeData) (job : JobDescriptionData) :
  keywords job = [] ->
  calculateKeywordScore patternMatches resume job
  = Some {| score := NaN; matched := []; missing := [] |}.
Proof. intros E; unfold calculateKeywordScore; rewrite E; reflexivity. Qed.

(** C3 (as the code has it).  With an empty keyword list the keyword score
    is NaN: the guard on the match ratio is not repeated on the density
    term, which divides 0 by 0. *)
Theorem empty_keywords_score_NaN :
  forall patternMatches resume description required preferred experienceLevel,
    calculateKeywordScore patternMatches resume
      {| description := description;
         requiredSkills := required;
         preferredSkills := preferred;
         keywords := [];
         jobExperience := experienceLevel |}
    = Some {| score := NaN; matched := []; missing := [] |}.
Proof. intros; now apply calculateKeywordScore_no_keywords. Qed.

(** C8.  A keyword adds [min(occurrences * 5, 15)] to the density total.
    Hence two resumes in which every keyword occurs equally often, or at
    least three times in both, receive the same keyword analysis: beyond
    three occurrences nothing is gained. *)
Theorem keyword_density_saturates :
  forall patternMatches (resume1 resume2 : ResumeData)
         (job : JobDescriptionData),
    compilable patternMatches job ->
    (forall keyword, In keyword (keywords job) ->
       let n1 := occurrences patternMatches (toLowerCase (content resume1))
                             (toLowerCase keyword) in
       let n2 := occurrences patternMatches (toLowerCase (content resume2))
                             (toLowerCase keyword) in
       n1 = n2 \/ (3 <= n1 /\ 3 <= n2)) ->
    exists analysis,
      calculateKeywordScore patternMatches resume1 job = Some analysis /\
      calculateKeywordScore patternMatches resume2 job = Some analysis /\
      let text := toLowerCase (content resume1) in
      let kws := map toLowerCase (keywords job) in
      score analysis
      = min (Fin 100)
          (add (mul (if 0 <? length kws
                     then div (ofNat (length (filter (found patternMatches text)
                                                     kws)))
                              (ofNat (length kws))
                     else Fin 0)
                    (Fin 70))
               (mul (div (ofNat (list_sum
                                   (map (fun k =>
                                           Nat.min
                                             (occurrences patternMatches text k
                                              * 5) 15)
                                        kws)))
                         (ofNat (length kws)))
                    (Fin 30))).
Proof.
  intros pm resume1 resume2 job Hok Hocc.
  rewrite (calculateKeywordScore_returns pm resume1 job Hok),
          (calculateKeywordScore_returns pm resume2 job Hok).
  eexists; split; [reflexivity | split; [|reflexivity]].
  set (t1 := toLowerCase (content resume1)) in *.
  set (t2 := toLowerCase (content resume2)) in *.
  assert (Hf : forall k, In k (map toLowerCase (keywords job)) ->
                 found pm t2 k = found pm t1 k /\
                 density (occurrences pm t2 k) = density (occurrences pm t1 k)).
  { intros k Hk; apply in_map_iff in Hk; destruct Hk as (k0 & <- & Hk0).
    pose proof (Hocc k0 Hk0) as H; cbv zeta in H.
    destruct H as [E | [H1 H2]].
    - unfold found; rewrite E; split; reflexivity.
    - unfold found; rewrite !density_saturated by assumption.
      split; [|reflexivity].
      transitivity true; [|symmetry]; apply Nat.ltb_lt; lia. }
  assert (Hfilter : filter (found pm t2) (map toLowerCase (keywords job))
                    = filter (found pm t1) (map toLowerCase (keywords job))).
  { apply filter_ext_in; intros k Hk; apply (Hf k Hk). }
  assert (Hmiss : filter (fun k => negb (found pm t2 k))
                         (map toLowerCase (keywords job))
                  = filter (fun k => negb (found pm t1 k))
                           (map toLowerCase (keywords job))).
  { apply filter_ext_in; intros k Hk; f_equal; apply (Hf k Hk). }
  assert (Hdens : totalDensity pm t2 (map toLowerCase (keywords job))
                  = totalDensity pm t1 (map toLowerCase (keywords job))).
  { unfold totalDensity; f_equal; apply map_ext_in; intros k Hk.
    apply (Hf k Hk). }
  now rewrite Hfilter, Hmiss, Hdens.
Qed.

Lemma keyword_density_saturates_witness :
  occurrences Scenarios.noPatterns
              (toLowerCase (content (Scenarios.pythonTimes 3)))
              (lit "python") = 3 /\
  occurrences Scenarios.noPatterns
              (toLowerCase (content (Scenarios.pythonTimes 100)))
              (lit "python") = 100 /\
  exists analysis,
    calculateKeywordScore Scenarios.noPatterns
      (Scenarios.pythonTimes 3) Scenarios.jobPython = Some analysis /\
    calculateKeywordScore Scenarios.noPatterns
      (Scenarios.pythonTimes 100) Scenarios.jobPython = Some analysis /\
    score analysis = Fin 100.
Proof.
  split; [vm_compute; reflexivity|].
  split; [vm_compute; reflexivity|].
  destruct (keyword_density_saturates Scenarios.noPatterns
              (Scenarios.pythonTimes 3) (Scenarios.pythonTimes 100)
              Scenarios.jobPython) as (analysis & H1 & H2 & H3).
  - apply plainKeywords_compilable; vm_compute; reflexivity.
  - simpl; intros keyword [<- | []]; right.
    split; apply Nat.leb_le; vm_compute; reflexivity.
  - exists analysis; split; [exact H1 | split; [exact H2|]].
    rewrite H3; vm_compute; reflexivity.
Defined.

End KeywordFacts.

(** ** The composite score *)

Module CompositeFacts.
Import JS Num Regex Natural AtsEngine Facts SkillsFacts KeywordFacts.

(** When the constructor does not throw, [calculateATSScore] returns, and
    the result is assembled from the four analyses. *)
Lemma calculateATSScore_returns
    (patternMatches : Compiler)
    (listTerms : ListTerms)
    (resume : ResumeData) (job : JobDescriptionData) :
  compilable patternMatches job ->
  exists keywordAnalysis,
    calculateKeywordScore patternMatches resume job = Some keywordAnalysis /\
    calculateATSScore patternMatches listTerms resume job =
    let skillsAnalysis := calculateSkillsScore resume job in
    let experienceAnalysis := calculateExperienceScore listTerms resume job in
    let formattingAnalysis := calculateFormattingScore resume in
    Some {| overallScore :=
              round (weighted (score skillsAnalysis)
                              (expScore experienceAnalysis)
                              (score keywordAnalysis)
                              (ofZ (fmtScore formattingAnalysis)));
            skillsScore := round (score skillsAnalysis);
            experienceScore := round (expScore experienceAnalysis);
            keywordScore := round (score keywordAnalysis);
            formattingScore := round (ofZ (fmtScore formattingAnalysis));
            matchedSkills := matched skillsAnalysis;
            missingSkills := missing skillsAnalysis;
            matchedKeywords := matched keywordAnalysis;
            missingKeywords := missing keywordAnalysis;
            suggestions :=
              generateSuggestions skillsAnalysis experienceAnalysis
                                  keywordAnalysis formattingAnalysis |}.
Proof.
  intros Hok; unfold calculateATSScore.
  rewrite (calculateKeywordScore_returns patternMatches resume job Hok).
  eexists; split; reflexivity.
Qed.

(** C1 (amended).  The overall score is the weighted sum of the four
    component scores as the analyses return them, computed in binary64 in
    the order written and rounded once; the component scores of the result
    are rounded separately.  The weights are the binary64 values of 0.40,
    0.30, 0.20 and 0.10; their sum in binary64, in the order written, is
    0.9999999999999999 (1 - 2^-53), not 1. *)
Theorem overallScore_rounded_once :
  forall (patternMatches : Compiler)
         (listTerms : ListTerms)
         (resume : ResumeData) (job : JobDescriptionData),
    compilable patternMatches job ->
    exists keywordAnalysis result,
      calculateKeywordScore patternMatches resume job = Some keywordAnalysis /\
      calculateATSScore patternMatches listTerms resume job = Some result /\
      let s := score (calculateSkillsScore resume job) in
      let e := expScore (calculateExperienceScore listTerms resume job) in
      let k := score keywordAnalysis in
      let f := ofZ (fmtScore (calculateFormattingScore resume)) in
      overallScore result
      = round (add (add (add (mul s (fin 0.40)) (mul e (fin 0.30)))
                        (mul k (fin 0.20)))
                   (mul f (fin 0.10))) /\
      skillsScore result = round s /\
      experienceScore result = round e /\
      keywordScore result = round k /\
      formattingScore result = round f /\
      add (add (add (fin 0.40) (fin 0.30)) (fin 0.20)) (fin 0.10)
      = Fin (9007199254740991 # 9007199254740992).
Proof.
  intros patternMatches listTerms resume job Hok.
  destruct (calculateATSScore_returns patternMatches listTerms resume job Hok)
    as (ka & Hk & Hats).
  exists ka; eexists; split; [exact Hk | split; [exact Hats |]].
  cbv zeta.
  cbn [overallScore skillsScore experienceScore keywordScore formattingScore].
  repeat split; vm_compute; reflexivity.
Qed.

Lemma overallScore_rounded_once_witness :
  exists result,
    calculateATSScore Scenarios.noPatterns Scenarios.noTerms
                      Scenarios.resumeDockerOnly Scenarios.jobFiveKeywords
    = Some result /\
    overallScore result = Fin 13 /\
    skillsScore result = Fin 7 /\
    experienceScore result = Fin 0 /\
    keywordScore result = Fin 44 /\
    formattingScore result = Fin 20.
Proof.
  destruct (overallScore_rounded_once Scenarios.noPatterns Scenarios.noTerms
              Scenarios.resumeDockerOnly Scenarios.jobFiveKeywords)
    as (ka & result & Hk & Hats & Ho & Hs & He & Hkw & Hf & _).
  - apply plainKeywords_compilable; vm_compute; reflexivity.
  - exists result; split; [exact Hats|].
    vm_compute in Hk; injection Hk as <-.
    rewrite Ho, Hs, He, Hkw, Hf.
    repeat split; vm_compute; reflexivity.
Defined.

(** C1 as stated fails on the weights: the binary64 values of 0.40, 0.30,
    0.20 and 0.10 do not add up to 1, neither in binary64, in the order
    written, nor as the rationals they are. *)
Lemma weights_do_not_sum_to_one :
  lt (add (add (add (Fin WEIGHTS.skills) (Fin WEIGHTS.experience))
               (Fin WEIGHTS.keywords))
          (Fin WEIGHTS.formatting))
     (Fin 1) = true /\
  ~ (WEIGHTS.skills + WEIGHTS.experience + WEIGHTS.keywords
     + WEIGHTS.formatting == 1)%Q.
Proof. split; [vm_compute; reflexivity | vm_compute; discriminate]. Qed.

(** Rounding the components before the combination gives another number:
    on the input above the overall score is 13, the weighted sum of the
    rounded components rounds to 14. *)
Lemma rounding_components_first_differs :
  round (weighted (Fin 7) (Fin 0) (Fin 44) (Fin 20)) = Fin 14.
Proof. vm_compute; reflexivity. Qed.

Lemma add_NaN_r (a : number) : add a NaN = NaN.
Proof. destruct a; reflexivity. Qed.

Lemma weighted_NaN_keywords (s e f : number) : weighted s e NaN f = NaN.
Proof.
  unfold weighted; cbn [mul].
  now rewrite add_NaN_r.
Qed.

(** C4 (as the code has it).  With an empty keyword list the keyword score
    and the overall score of the result are NaN, whatever the resume and the
    rest of the job description: neither is a number between 0 and 100. *)
Theorem empty_keywords_overall_NaN :
  forall (patternMatches : Compiler)
         (listTerms : ListTerms)
         (resume : ResumeData) description required preferred experienceLevel,
    exists result,
      calculateATSScore patternMatches listTerms resume
        {| description := description;
           requiredSkills := required;
           preferredSkills := preferred;
           keywords := [];
           jobExperience := experienceLevel |}
      = Some result /\
      keywordScore result = NaN /\
      overallScore result = NaN /\
      ~ in_0_100 (keywordScore result) /\
      ~ in_0_100 (overallScore result).
Proof.
  intros; unfold calculateATSScore.
  rewrite calculateKeywordScore_no_keywords by reflexivity.
  eexists; split; [reflexivity|].
  cbn [keywordScore overallScore score]; rewrite weighted_NaN_keywords.
  cbn; tauto.
Qed.

(** *** The range of the scores when there are keywords *)

Lemma nonneg_const (q : Q) : Qle_bool 0 q = true -> nonneg (Fin q).
Proof. intros H; now apply Qle_bool_iff. Qed.

Lemma skills_score_in_range (resume : ResumeData) (job : JobDescriptionData) :
  in_0_100 (score (calculateSkillsScore resume job)).
Proof.
  unfold calculateSkillsScore.
  destruct (requiredLoop _ _) as [m0 x0].
  destruct (preferredLoop _ _ _) as [n m]; cbn [score].
  apply NumFacts.min_100_in_range, NumFacts.nonneg_add.
  - apply NumFacts.nonneg_mul; [|now apply nonneg_const].
    destruct (0 <? length (normalizeSkills (requiredSkills job))) eqn:E;
      [|now apply nonneg_const].
    apply NumFacts.nonneg_div_ofNat; now apply Nat.ltb_lt.
  - destruct (0 <? length (normalizeSkills (preferredSkills job))) eqn:E;
      [|now apply nonneg_const].
    apply NumFacts.nonneg_mul; [|now apply nonneg_const].
    apply NumFacts.nonneg_div_ofNat; now apply Nat.ltb_lt.
Qed.

Lemma keyword_score_in_range
    (patternMatches : Compiler)
    (resume : ResumeData) (job : JobDescriptionData) :
  compilable patternMatches job -> keywords job <> [] ->
  exists analysis,
    calculateKeywordScore patternMatches resume job = Some analysis /\
    in_0_100 (score analysis).
Proof.
  intros Hok Hne.
  rewrite (calculateKeywordScore_returns patternMatches resume job Hok).
  eexists; split; [reflexivity|]; cbn [score].
  assert (Hlen : 0 < length (map toLowerCase (keywords job))).
  { rewrite length_map; destruct (keywords job); [congruence | simpl; lia]. }
  apply NumFacts.min_100_in_range, NumFacts.nonneg_add;
    (apply NumFacts.nonneg_mul; [|now apply nonneg_const]).
  - apply Nat.ltb_lt in Hlen; rewrite Hlen.
    apply NumFacts.nonneg_div_ofNat; now apply Nat.ltb_lt.
  - now apply NumFacts.nonneg_div_ofNat.
Qed.

Lemma formatting_score_in_range (resume : ResumeData) :
  (0 <= fmtScore (calculateFormattingScore resume) <= 100)%Z.
Proof.
  unfold calculateFormattingScore, penalize; cbn [fmtScore].
  generalize (length (content resume) <? 500),
    (negb (0 <? length (skills resume))),
    (negb (0 <? length (experience resume))),
    (negb (0 <? length (education resume))),
    (negb (existsb
             (fun word => includes (toLowerCase (content resume)) word)
             actionWords)).
  intros [] [] [] [] []; cbn [fst]; lia.
Qed.

(** The two sums of the experience loop: what matched is part of the
    total. *)
Lemma experience_loop_sums (resumeText : jsstring) (items : list TermItem)
    (m t : Q) :
  (forall item, In item items -> nonneg (tfidf item)) ->
  (0 <= m)%Q -> (m <= t)%Q -> double m = m -> double t = t ->
  exists m' t',
    fold_left
      (fun '(matchCount, totalWeight) item =>
         (if termInText resumeText item
          then add matchCount (tfidf item) else matchCount,
          add totalWeight (tfidf item)))
      items (Fin m, Fin t) = (Fin m', Fin t') /\
    (0 <= m')%Q /\ (m' <= t')%Q.
Proof.
  revert m t; induction items as [|item items IH];
    intros m t Hall Hm Hmt Dm Dt.
  - exists m, t; simpl; auto.
  - cbn [fold_left].
    assert (Hw : nonneg (tfidf item)) by (apply Hall; now left).
    destruct (tfidf item) as [w| | |]; cbn [nonneg] in Hw; try contradiction.
    assert (Hrest : forall i, In i items -> nonneg (tfidf i))
      by (intros i Hi; apply Hall; now right).
    destruct (termInText resumeText item); cbn [add fin];
      apply IH; try assumption;
      try apply RoundingFacts.double_idempotent.
    + apply RoundingFacts.double_nonneg; lra.
    + apply RoundingFacts.double_le; lra.
    + rewrite <- Dm; apply RoundingFacts.double_le; lra.
Qed.

Lemma experience_score_in_range
    (listTerms : ListTerms)
    (resume : ResumeData) (job : JobDescriptionData) :
  (forall documents d item,
     In item (listTerms documents d) -> nonneg (tfidf item)) ->
  in_0_100 (expScore (calculateExperienceScore listTerms resume job)).
Proof.
  intros Hterms; unfold calculateExperienceScore.
  set (jobTerms := filter _ (listTerms _ 1)).
  destruct (experience_loop_sums (toLowerCase (content resume))
              (firstn 20 jobTerms) 0 0) as (m & t & E & Hm & Hmt).
  - intros item Hin; apply In_firstn in Hin.
    apply filter_In in Hin; destruct Hin as [Hin _].
    now apply Hterms in Hin.
  - apply Qle_refl.
  - apply Qle_refl.
  - reflexivity.
  - reflexivity.
  - rewrite E; cbn [expScore].
    unfold gt, lt.
    destruct (Qle_bool t 0) eqn:Ht; cbn [negb in_0_100]; [split; lra|].
    assert (Hpos : (0 < t)%Q).
    { destruct (Qlt_le_dec 0 t) as [H | H]; [exact H|].
      apply Qle_bool_iff in H; congruence. }
    unfold div, isZero.
    destruct (Qeq_bool t 0) eqn:Hz.
    { apply Qeq_bool_eq in Hz; rewrite Hz in Hpos.
      now apply Qlt_irrefl in Hpos. }
    cbn [mul fin in_0_100].
    assert (H1 : (0 <= m / t)%Q).
    { apply Qle_shift_div_l; [exact Hpos | lra]. }
    assert (H2 : (m / t <= 1)%Q).
    { apply Qle_shift_div_r; [exact Hpos | lra]. }
    pose proof (RoundingFacts.double_nonneg _ H1) as R1.
    pose proof (RoundingFacts.double_le _ _ H2) as R2.
    change (double 1) with 1%Q in R2.
    split.
    + apply RoundingFacts.double_nonneg; lra.
    + change 100%Q with (double 100) at 2.
      apply RoundingFacts.double_le; lra.
Qed.

(** The product of a score and a weight, and the sum of two bounded
    numbers, stay within the bounds that binary64 gives the extremes. *)
Lemma mul_bounded (x w hi : Q) :
  (0 <= x)%Q -> (x <= 100)%Q -> (0 <= w)%Q -> double (100 * w) = hi ->
  (0 <= double (x * w))%Q /\ (double (x * w) <= hi)%Q.
Proof.
  intros H0 H100 Hw <-; split.
  - apply RoundingFacts.double_nonneg; now apply Qmult_le_0_compat.
  - apply RoundingFacts.double_le, Qmult_le_compat_r; assumption.
Qed.

Lemma add_bounded (x y a b hi : Q) :
  (0 <= x)%Q -> (x <= a)%Q -> (0 <= y)%Q -> (y <= b)%Q ->
  double (a + b) = hi ->
  (0 <= double (x + y))%Q /\ (double (x + y) <= hi)%Q.
Proof.
  intros Hx Hxa Hy Hyb <-; split.
  - apply RoundingFacts.double_nonneg; lra.
  - apply RoundingFacts.double_le; lra.
Qed.

Lemma weighted_in_range (s e k f : number) :
  in_0_100 s -> in_0_100 e -> in_0_100 k -> in_0_100 f ->
  in_0_100 (weighted s e k f).
Proof.
  destruct s as [s| | |], e as [e| | |], k as [k| | |], f as [f| | |];
    cbn [in_0_100]; try tauto.
  intros [Hs Hs'] [He He'] [Hk Hk'] [Hf Hf'].
  unfold weighted; cbn [add mul fin in_0_100].
  destruct (mul_bounded s WEIGHTS.skills 40 Hs Hs') as [S0 S1];
    [vm_compute; discriminate | vm_compute; reflexivity|].
  destruct (mul_bounded e WEIGHTS.experience 30 He He') as [E0 E1];
    [vm_compute; discriminate | vm_compute; reflexivity|].
  destruct (mul_bounded k WEIGHTS.keywords 20 Hk Hk') as [K0 K1];
    [vm_compute; discriminate | vm_compute; reflexivity|].
  destruct (mul_bounded f WEIGHTS.formatting 10 Hf Hf') as [F0 F1];
    [vm_compute; discriminate | vm_compute; reflexivity|].
  destruct (add_bounded _ _ 40 30 70 S0 S1 E0 E1 eq_refl) as [A0 A1].
  destruct (add_bounded _ _ 70 20 90 A0 A1 K0 K1 eq_refl) as [B0 B1].
  exact (add_bounded _ _ 90 10 100 B0 B1 F0 F1 eq_refl).
Qed.

(** With at least one keyword, and weights of the TF-IDF terms that are not
    negative, the overall score and the four component scores of the result
    are numbers between 0 and 100. *)
Lemma scores_in_range_with_keywords
    (patternMatches : Compiler)
    (listTerms : ListTerms)
    (resume : ResumeData) (job : JobDescriptionData) :
  compilable patternMatches job -> keywords job <> [] ->
  (forall documents d item,
     In item (listTerms documents d) -> nonneg (tfidf item)) ->
  exists result,
    calculateATSScore patternMatches listTerms resume job = Some result /\
    in_0_100 (overallScore result) /\
    in_0_100 (skillsScore result) /\
    in_0_100 (experienceScore result) /\
    in_0_100 (keywordScore result) /\
    in_0_100 (formattingScore result).
Proof.
  intros Hok Hne Hterms.
  destruct (keyword_score_in_range patternMatches resume job Hok Hne)
    as (ka & Hk & Hka).
  pose proof (skills_score_in_range resume job) as Hs.
  pose proof (experience_score_in_range listTerms resume job Hterms) as He.
  pose proof (NumFacts.in_range_ofZ _ (formatting_score_in_range resume)) as Hf.
  unfold calculateATSScore; rewrite Hk.
  eexists; split; [reflexivity|].
  cbn [overallScore skillsScore experienceScore keywordScore formattingScore].
  split; [|split; [|split; [|split]]]; apply NumFacts.round_in_range;
    try assumption; now apply weighted_in_range.
Qed.

(** C7 (amended).  In the scenario of the specification the lists hold the
    normalised skills: "react" is matched, "aws" is missing, and the score
    is 40. *)
Theorem scenario_react_aws_docker :
  forall content experience education projects description keywords level,
    calculateSkillsScore
      {| content := content;
         skills := [lit "React"; lit "Node.js"];
         experience := experience;
         education := education;
         projects := projects |}
      {| description := description;
         requiredSkills := [lit "React"; lit "AWS"];
         preferredSkills := [lit "Docker"];
         keywords := keywords;
         jobExperience := level |}
    = {| score := Fin 40; matched := [lit "react"]; missing := [lit "aws"] |}.
Proof. intros; vm_compute; reflexivity. Qed.

(** C7 as stated fails: the lists do not hold "React" and "AWS" as the job
    description spells them. *)
Lemma scenario_lists_are_normalised :
  ~ (matched (calculateSkillsScore Scenarios.resumeReactNode
                                   Scenarios.jobReactAws) = [lit "React"] /\
     missing (calculateSkillsScore Scenarios.resumeReactNode
                                   Scenarios.jobReactAws) = [lit "AWS"] /\
     score (calculateSkillsScore Scenarios.resumeReactNode
                                 Scenarios.jobReactAws) = Fin 40).
Proof. intros (H & _); vm_compute in H; discriminate H. Qed.

(** C2 (amended).  The two lists are built over the normalised skills.
    [missingSkills] holds the unmatched required skills in their order;
    [matchedSkills] holds the matched required skills in their order,
    followed by the preferred skills that the resume matches and that are
    not among the required ones, in their order, each once, and by nothing
    else; every required skill is in exactly one of the two lists. *)
Theorem skill_lists_partition_normalised :
  forall (patternMatches : Compiler)
         (listTerms : ListTerms)
         (resume : ResumeData) (job : JobDescriptionData),
    compilable patternMatches job ->
    exists result,
      calculateATSScore patternMatches listTerms resume job = Some result /\
      let resumeN := normalizeSkills (skills resume) in
      let requiredN := normalizeSkills (requiredSkills job) in
      let preferredN := normalizeSkills (preferredSkills job) in
      let extra :=
        Notions.distinct
          (filter (fun x => someMatch resumeN x
                            && negb (arrIncludes requiredN x)) preferredN) in
      missingSkills result = filter (unmatched resumeN) requiredN /\
      matchedSkills result = filter (someMatch resumeN) requiredN ++ extra /\
      NoDup extra /\
      (forall x, In x extra <->
         In x preferredN /\ someMatch resumeN x = true /\ ~ In x requiredN) /\
      (forall x, In x requiredN ->
         (In x (matchedSkills result) /\ ~ In x (missingSkills result)) \/
         (In x (missingSkills result) /\ ~ In x (matchedSkills result))).
Proof.
  intros patternMatches listTerms resume job Hok.
  destruct (calculateATSScore_returns patternMatches listTerms resume job Hok)
    as (ka & _ & Hats).
  eexists; split; [exact Hats|].
  cbn [matchedSkills missingSkills].
  destruct (calculateSkillsScore_lists resume job)
    as (Hmiss & extra & Hmat & ND & Hextra & Hdef).
  cbv zeta in *; subst extra.
  set (resumeN := normalizeSkills (skills resume)) in *.
  set (requiredN := normalizeSkills (requiredSkills job)) in *.
  split; [exact Hmiss|].
  split; [exact Hmat|].
  split; [exact ND|].
  split; [exact Hextra|].
  intros x Hx; rewrite Hmiss, Hmat.
  destruct (someMatch resumeN x) eqn:Hm.
  - left; split.
    + apply in_or_app; left; apply filter_In; now split.
    + intros H; apply filter_In in H; destruct H as [_ H].
      unfold unmatched in H; rewrite Hm in H; discriminate.
  - right; split.
    + apply filter_In; split; [assumption|].
      unfold unmatched; now rewrite Hm.
    + intros H; apply in_app_or in H; destruct H as [H | H].
      * apply filter_In in H; destruct H as [_ H]; congruence.
      * apply Hextra in H; destruct H as (_ & H & _); congruence.
Qed.

Lemma skill_lists_partition_normalised_witness :
  exists result,
    calculateATSScore Scenarios.noPatterns Scenarios.noTerms Scenarios.resumeDocker
                      Scenarios.jobAwsDocker = Some result /\
    matchedSkills result = [lit "docker"] /\
    missingSkills result = [lit "aws"].
Proof.
  destruct (skill_lists_partition_normalised Scenarios.noPatterns
              Scenarios.noTerms
              Scenarios.resumeDocker Scenarios.jobAwsDocker)
    as (result & Hats & Hmiss & Hmat & _).
  - apply plainKeywords_compilable; vm_compute; reflexivity.
  - exists result; split; [exact Hats|].
    vm_compute in Hats; injection Hats as <-.
    split; vm_compute; reflexivity.
Defined.

(** C2 as stated fails: a preferred skill that the resume has enters
    [matchedSkills] although it is not a required skill. *)
Lemma preferred_skill_among_matched :
  exists result,
    calculateATSScore Scenarios.noPatterns Scenarios.noTerms Scenarios.resumeDocker
                      Scenarios.jobAwsDocker = Some result /\
    ~ Notions.partitionsRequired (requiredSkills Scenarios.jobAwsDocker)
        (matchedSkills result) (missingSkills result).
Proof.
  eexists; split; [vm_compute; reflexivity|].
  intros (_ & Hout & _).
  specialize (Hout (lit "docker")).
  vm_compute in Hout.
  destruct Hout as [H | []]; [left; left; reflexivity | discriminate H].
Qed.

End CompositeFacts.

(** ** The suggestions *)

Module SuggestionFacts.
Import JS Num Regex Natural AtsEngine Notions Facts KeywordFacts CompositeFacts.

Lemma mask_incl {A : Type} (keep : list bool) (l : list A) (x : A) :
  In x (mask keep l) -> In x l.
Proof.
  revert l; induction keep as [|b keep IH]; intros [|y l]; simpl;
    try contradiction.
  destruct b; simpl; intuition.
Qed.

Lemma mask_NoDup {A : Type} (keep : list bool) (l : list A) :
  NoDup l -> NoDup (mask keep l).
Proof.
  revert l; induction keep as [|b keep IH]; intros [|y l] ND; simpl;
    try constructor.
  inversion ND as [|? ? Hy ND']; subst.
  destruct b; [constructor|]; auto.
  intros H; apply Hy; eapply mask_incl; eassumption.
Qed.

Lemma mask_length {A : Type} (keep : list bool) (l : list A) :
  length (mask keep l) <= length l.
Proof.
  revert l; induction keep as [|b keep IH]; intros [|y l]; simpl; try lia.
  specialize (IH l); destruct b; simpl; lia.
Qed.

(** The nine candidate suggestions differ within their first 22 code
    units. *)
Lemma allSuggestions_NoDup (missingSkills missingKeywords : list jsstring) :
  NoDup (allSuggestions missingSkills missingKeywords).
Proof.
  apply (NoDup_map_inv (firstn 22)).
  vm_compute.
  repeat (constructor;
          [intros H; repeat (destruct H as [H | H]; [discriminate H|]);
           exact H|]).
  constructor.
Qed.

(** After [calculateFormattingScore], [generateSuggestions] returns a
    selection of the nine candidates, in their order. *)
Lemma generateSuggestions_mask (skillsAnalysis keywordAnalysis : MatchAnalysis)
    (experienceAnalysis : ExperienceAnalysis) (resume : ResumeData) :
  generateSuggestions skillsAnalysis experienceAnalysis keywordAnalysis
                      (calculateFormattingScore resume)
  = mask
      [ lt (score skillsAnalysis) (Fin 70)
        && (0 <? length (missing skillsAnalysis));
        lt (expScore experienceAnalysis) (Fin 60);
        lt (score keywordAnalysis) (Fin 70)
        && (0 <? length (missing keywordAnalysis));
        length (content resume) <? 500;
        negb (0 <? length (skills resume));
        negb (0 <? length (experience resume));
        negb (0 <? length (education resume));
        negb (existsb
                (fun word => includes (toLowerCase (content resume)) word)
                actionWords);
        ge (score skillsAnalysis) (Fin 80)
        && ge (score keywordAnalysis) (Fin 80) ]
      (allSuggestions (missing skillsAnalysis) (missing keywordAnalysis)).
Proof.
  unfold generateSuggestions, calculateFormattingScore, allSuggestions.
  unfold pushIf, penalize.
  generalize (skillsSuggestion (missing skillsAnalysis)),
    (keywordSuggestion (missing keywordAnalysis)),
    experienceSuggestion, generalSuggestion, formattingSuggestion,
    (lit "Resume content is too short"), (lit "Missing skills section"),
    (lit "Missing experience section"), (lit "Missing education section"),
    (lit "Lacks strong action verbs").
  intros s1 s3 s2 s9 fmt i1 i2 i3 i4 i5.
  generalize (lt (score skillsAnalysis) (Fin 70)
              && (0 <? length (missing skillsAnalysis))),
    (lt (expScore experienceAnalysis) (Fin 60)),
    (lt (score keywordAnalysis) (Fin 70)
     && (0 <? length (missing keywordAnalysis))),
    (ge (score skillsAnalysis) (Fin 80) && ge (score keywordAnalysis) (Fin 80)),
    (length (content resume) <? 500),
    (negb (0 <? length (skills resume))),
    (negb (0 <? length (experience resume))),
    (negb (0 <? length (education resume))),
    (negb (existsb
             (fun word => includes (toLowerCase (content resume)) word)
             actionWords)).
  intros [] [] [] [] [] [] [] [] []; reflexivity.
Qed.

(** C5.  The suggestions of a result are pairwise different, and there are
    at most ten of them. *)
Theorem suggestions_distinct_at_most_ten :
  forall (patternMatches : Compiler)
         (listTerms : ListTerms)
         (resume : ResumeData) (job : JobDescriptionData),
    compilable patternMatches job ->
    exists result,
      calculateATSScore patternMatches listTerms resume job = Some result /\
      NoDup (suggestions result) /\
      length (suggestions result) <= 10.
Proof.
  intros patternMatches listTerms resume job Hok.
  destruct (calculateATSScore_returns patternMatches listTerms resume job Hok)
    as (ka & _ & Hats).
  eexists; split; [exact Hats|].
  cbn [suggestions].
  rewrite generateSuggestions_mask.
  split.
  - apply mask_NoDup, allSuggestions_NoDup.
  - etransitivity; [apply mask_length|].
    unfold allSuggestions; simpl; lia.
Qed.

Lemma suggestions_distinct_at_most_ten_witness :
  exists result,
    calculateATSScore Scenarios.noPatterns Scenarios.twoTerms Scenarios.resumePython
                      Scenarios.jobThree = Some result /\
    NoDup (suggestions result) /\
    length (suggestions result) = 6.
Proof.
  destruct (suggestions_distinct_at_most_ten Scenarios.noPatterns
              Scenarios.twoTerms
              Scenarios.resumePython Scenarios.jobThree)
    as (result & Hats & ND & _).
  - apply plainKeywords_compilable; vm_compute; reflexivity.
  - exists result; split; [exact Hats | split; [exact ND|]].
    vm_compute in Hats; injection Hats as <-.
    reflexivity.
Defined.

End SuggestionFacts.

(** ** Bullet points *)

Module BulletFacts.
Import JS Num Regex ResumeParser AiAnalysis Notions.

(** C9 (amended).  The bullet score starts at 100 and loses 30 for fewer
    than three bullet matches, 25 for no action cue, 25 for no result cue,
    10 for no context cue, 10 for a bullet line of more than 150 code units
    and 10 when more than half of the bullet lines have fewer than 30; it
    does not fall below 0. *)
Theorem bullet_score_penalties :
  forall resume : ParsedResume,
    score (analyzeBulletPoints resume)
    = Z.max 0 (100 - bulletPenalties 25 10 resume)
    /\ (0 <= score (analyzeBulletPoints resume) <= 100)%Z.
Proof.
  intros resume.
  assert (E : score (analyzeBulletPoints resume)
              = Z.max 0 (100 - bulletPenalties 25 10 resume)).
  { unfold analyzeBulletPoints, bulletPenalties, penalize, charge.
    cbv zeta; cbn [score].
    generalize (join [newline] (experience resume)); intros content.
    generalize (length (matchAll bulletRegex content) <? 3),
      (test actionRegex content), (test resultRegex content),
      (test contextRegex content),
      (0 <? length (filter (fun l => 150 <? length l) (bulletLines content))),
      (gt (ofNat (length (filter (fun l => length l <? 30)
                                 (bulletLines content))))
          (div (ofNat (length (bulletLines content))) (Fin 2))).
    intros [] [] [] [] [] []; reflexivity. }
  split; [exact E|].
  rewrite E; unfold bulletPenalties, charge; cbv zeta.
  repeat match goal with
         | |- context [if ?b then _ else _] => destruct b
         end; lia.
Qed.

(** The floor is reached: six penalties add up to 110. *)
Lemma bullet_score_floor :
  score (analyzeBulletPoints Scenarios.crampedBullets) = 0%Z /\
  bulletPenalties 25 10 Scenarios.crampedBullets = 110%Z.
Proof. split; vm_compute; reflexivity. Qed.

(** C9 as stated fails: without a result cue the code takes 25, not 10. *)
Lemma missing_result_costs_25 :
  score (analyzeBulletPoints Scenarios.threeBullets) = 75%Z /\
  specBulletScore Scenarios.threeBullets = 90%Z /\
  score (analyzeBulletPoints Scenarios.threeBullets)
  <> specBulletScore Scenarios.threeBullets.
Proof.
  split; [vm_compute; reflexivity|].
  split; [vm_compute; reflexivity|].
  vm_compute; discriminate.
Qed.

End BulletFacts.

(** ** The skill vocabulary scan *)

Module ParserFacts.
Import JS Regex ResumeParser Facts.

Lemma scan_keeps (lowerContent : jsstring) (vocabulary skills : list jsstring)
    (x : jsstring) :
  In x skills \/
  (In x vocabulary /\ includes lowerContent (toLowerCase x) = true) ->
  In x (fold_left
          (fun skills skill =>
             let skillLower := toLowerCase skill in
             if includes lowerContent skillLower
             then setAdd skills skill else skills)
          vocabulary skills).
Proof.
  revert skills; induction vocabulary as [|v vocabulary IH]; intros skills H.
  - destruct H as [H | [[] _]]; exact H.
  - cbn [fold_left]; apply IH; cbv zeta.
    destruct H as [H | [[<- | H] Hinc]].
    + left; destruct (includes lowerContent (toLowerCase v));
        [apply setAdd_In; now left | exact H].
    + left; rewrite Hinc; apply setAdd_In; now right.
    + right; now split.
Qed.

(** C10.  The vocabulary scan is a plain substring test on the lower-cased
    text: a vocabulary skill whose lower-cased name occurs anywhere in the
    lower-cased content is returned.  So "Java" is returned for every
    content with "JavaScript" in it, and "AI" for every content with
    "maintain" in it. *)
Theorem extractSkills_substring_scan :
  (forall content skill : jsstring,
     In skill commonSkills ->
     includes (toLowerCase content) (toLowerCase skill) = true ->
     In skill (extractSkills content)) /\
  (forall content : jsstring,
     includes content (lit "JavaScript") = true ->
     In (lit "Java") (extractSkills content)) /\
  (forall before after : jsstring,
     In (lit "AI") (extractSkills (before ++ lit "maintain" ++ after))).
Proof.
  assert (Scan : forall content skill : jsstring,
             In skill commonSkills ->
             includes (toLowerCase content) (toLowerCase skill) = true ->
             In skill (extractSkills content)).
  { intros content skill Hin Hinc; unfold extractSkills; cbv zeta.
    apply scan_keeps; right; now split. }
  split; [exact Scan | split].
  - intros content H; apply Scan.
    + apply arrIncludes_In; vm_compute; reflexivity.
    + apply includes_trans with (mid := toLowerCase (lit "JavaScript")).
      * now apply includes_map.
      * vm_compute; reflexivity.
  - intros before after; apply Scan.
    + apply arrIncludes_In; vm_compute; reflexivity.
    + apply includes_spec.
      exists (toLowerCase before ++ lit "m"),
             (lit "ntain" ++ toLowerCase after).
      unfold toLowerCase; rewrite !map_app, <- !app_assoc.
      reflexivity.
Qed.

Lemma extractSkills_substring_scan_witness :
  extractSkills (lit "I maintain JavaScript services")
  = [lit "JavaScript"; lit "Java"; lit "AI"] /\
  In (lit "Java") (extractSkills (lit "I maintain JavaScript services")) /\
  In (lit "AI") (extractSkills (lit "I maintain JavaScript services")).
Proof.
  destruct extractSkills_substring_scan as (Scan & Hjava & _).
  split; [vm_compute; reflexivity | split].
  - apply Hjava; vm_compute; reflexivity.
  - apply Scan; [apply arrIncludes_In|]; vm_compute; reflexivity.
Defined.

End ParserFacts.

(** ** The matcher *)

Module RegexFacts.
Import JS Regex Notions Facts.

(** What [run] hands to its continuation is the subject less a prefix that
    the pattern denotes. *)
Lemma run_sound (r : re) :
  forall prev s k out,
    run r prev s k = Some out ->
    exists m prev' s',
      s = m ++ s' /\ denotes r m /\ k prev' s' = Some out.
Proof.
  induction r as [|p|r1 IH1 r2 IH2|r1 IH1 r2 IH2|g r1 IH1|r1 IH1|b|];
    intros prev s k out H; cbn [run] in H.
  - exists [], prev, s; repeat split; [constructor | exact H].
  - destruct s as [|c s']; [discriminate|].
    destruct (p c) eqn:Hp; [|discriminate].
    exists [c], (Some c), s'; repeat split; [now constructor | exact H].
  - apply IH1 in H; destruct H as (m1 & p1 & s1 & -> & D1 & H).
    apply IH2 in H; destruct H as (m2 & p2 & s2 & -> & D2 & H).
    exists (m1 ++ m2), p2, s2; rewrite app_assoc.
    repeat split; [now constructor | exact H].
  - destruct (run r1 prev s k) eqn:H1.
    + injection H as <-.
      apply IH1 in H1; destruct H1 as (m & p' & s' & -> & D & H).
      exists m, p', s'; repeat split; [now apply denotes_alt_l | exact H].
    + apply IH2 in H; destruct H as (m & p' & s' & -> & D & H).
      exists m, p', s'; repeat split; [now apply denotes_alt_r | exact H].
  - revert H; generalize (length s) at 1; intros n; revert prev s.
    induction n as [|n IHn]; intros prev s H.
    + exists [], prev, s; repeat split; [constructor | exact H].
    + assert (Hnil : k prev s = Some out ->
                     exists m prev' s',
                       s = m ++ s' /\ denotes (Star g r1) m /\
                       k prev' s' = Some out).
      { intros Hk; exists [], prev, s; repeat split; [constructor | exact Hk]. }
      cbn zeta in H.
      destruct g.
      * destruct (run r1 prev s _) eqn:Hrun; [injection H as <-|exact (Hnil H)].
        apply IH1 in Hrun; destruct Hrun as (m1 & p1 & s1 & -> & D1 & Hrun).
        destruct (length s1 <? _); [|discriminate].
        apply IHn in Hrun; destruct Hrun as (m2 & p2 & s2 & -> & D2 & Hrun).
        exists (m1 ++ m2), p2, s2; rewrite app_assoc.
        repeat split; [now constructor | exact Hrun].
      * destruct (k prev s) eqn:Hk; [exact (Hnil H)|clear Hnil].
        apply IH1 in H; destruct H as (m1 & p1 & s1 & -> & D1 & Hrun).
        destruct (length s1 <? _); [|discriminate].
        apply IHn in Hrun; destruct Hrun as (m2 & p2 & s2 & -> & D2 & Hrun).
        exists (m1 ++ m2), p2, s2; rewrite app_assoc.
        repeat split; [now constructor | exact Hrun].
  - destruct (run r1 prev s (fun _ s' => Some s')); [|discriminate].
    exists [], prev, s; repeat split; [constructor | exact H].
  - destruct (atLineStart b prev); [|discriminate].
    exists [], prev, s; repeat split; [constructor | exact H].
  - destruct (xorb _ _); [|discriminate].
    exists [], prev, s; repeat split; [constructor | exact H].
Qed.

Lemma firstn_app_length {A} (m s : list A) :
  firstn (length m) (m ++ s) = m.
Proof. induction m; simpl; [now destruct s | now f_equal]. Qed.

Lemma execAt_sound (r : re) (prev : option char) (s : jsstring) (len : nat) :
  execAt r prev s = Some len ->
  denotes r (firstn len s) /\ includes s (firstn len s) = true.
Proof.
  unfold execAt; destruct (run r prev s _) as [out|] eqn:H; [|discriminate].
  intros [= <-].
  apply run_sound in H; destruct H as (m & _ & s' & -> & D & [= ->]).
  rewrite length_app, Nat.add_sub, firstn_app_length.
  split; [exact D|]. apply includes_spec; now exists [], out.
Qed.

Lemma includes_cons (c : char) (s sub : jsstring) :
  includes s sub = true -> includes (c :: s) sub = true.
Proof.
  rewrite !includes_spec; intros (pre & post & ->); now exists (c :: pre), post.
Qed.

(** Every match of a global search is denoted by the pattern and occurs in
    the subject. *)
Lemma scan_sound (r : re) (x : jsstring) :
  forall s skip prev,
    In x (scan r skip prev s) -> denotes r x /\ includes s x = true.
Proof.
  induction s as [|c s IH]; intros skip prev H.
  - destruct skip; [|contradiction]. cbn [scan] in H.
    destruct (execAt r prev []) eqn:E; [|contradiction].
    destruct H as [<-|[]]; now apply execAt_sound in E.
  - destruct skip; cbn [scan] in H.
    + destruct (execAt r prev (c :: s)) eqn:E.
      * destruct H as [<-|H]; [now apply execAt_sound in E|].
        apply IH in H; split; [tauto | apply includes_cons; tauto].
      * apply IH in H; split; [tauto | apply includes_cons; tauto].
    + apply IH in H; split; [tauto | apply includes_cons; tauto].
Qed.

Lemma matchAll_sound (r : re) (s x : jsstring) :
  In x (matchAll r s) -> denotes r x /\ includes s x = true.
Proof. apply scan_sound. Qed.

Lemma firstFrom_sound (r : re) (x : jsstring) :
  forall s prev,
    firstFrom r prev s = Some x -> denotes r x /\ includes s x = true.
Proof.
  induction s as [|c s IH]; intros prev H; cbn [firstFrom] in H;
    destruct (execAt r prev _) eqn:E; try discriminate.
  - injection H as <-; now apply execAt_sound in E.
  - injection H as <-; now apply execAt_sound in E.
  - apply IH in H; split; [tauto | apply includes_cons; tauto].
Qed.

Lemma execAtUntil_sound (body ahead : re) (prev : option char) (s : jsstring)
    (len : nat) :
  execAtUntil body ahead prev s = Some len ->
  denotes body (firstn len s) /\ includes s (firstn len s) = true.
Proof.
  unfold execAtUntil; destruct (run body prev s _) as [out|] eqn:H;
    [|discriminate].
  intros [= <-].
  apply run_sound in H; destruct H as (m & p' & s' & -> & D & H).
  assert (s' = out) as ->.
  { destruct s'; [now injection H|].
    destruct (run ahead _ _ _); [now injection H | discriminate]. }
  rewrite length_app, Nat.add_sub, firstn_app_length.
  split; [exact D|]. apply includes_spec; now exists [], out.
Qed.

Lemma firstUntilFrom_sound (body ahead : re) (x : jsstring) :
  forall s prev,
    firstUntilFrom body ahead prev s = Some x ->
    denotes body x /\ includes s x = true.
Proof.
  induction s as [|c s IH]; intros prev H; cbn [firstUntilFrom] in H;
    destruct (execAtUntil body ahead prev _) eqn:E; try discriminate.
  - injection H as <-; now apply execAtUntil_sound in E.
  - injection H as <-; now apply execAtUntil_sound in E.
  - apply IH in H; split; [tauto | apply includes_cons; tauto].
Qed.

(** The texts denoted by a sequence are the concatenations of texts denoted
    by its parts. *)
Lemma denotes_seqs (rs : list re) :
  forall m, denotes (seqs rs) m ->
            exists ms, Forall2 denotes rs ms /\ m = concat ms.
Proof.
  induction rs as [|r rs IH]; intros m D.
  - inversion D; subst; exists []; split; [constructor | reflexivity].
  - destruct rs as [|r' rs].
    + exists [m]; split; [repeat constructor; exact D|].
      simpl; now rewrite app_nil_r.
    + change (seqs (r :: r' :: rs)) with (Seq r (seqs (r' :: rs))) in D.
      inversion D as [| |r1 r2 m1 m2 D1 D2| | | | | | |]; subst.
      apply IH in D2; destruct D2 as (ms & F & ->).
      exists (m1 :: ms); split; [now constructor | reflexivity].
Qed.

Lemma denotes_word_i (w m : jsstring) :
  denotes (word_i w) m -> map canon m = map canon w.
Proof.
  unfold word_i; intros D; apply denotes_seqs in D.
  destruct D as (ms & F & ->).
  revert ms F; induction w as [|c w IH]; intros ms F; inversion F; subst.
  - reflexivity.
  - match goal with H : denotes (chr_i c) _ |- _ => inversion H; subst end.
    simpl; f_equal; [now apply N.eqb_eq | now apply IH].
Qed.

Lemma denotes_word (w m : jsstring) : denotes (word w) m -> m = w.
Proof.
  unfold word; intros D; apply denotes_seqs in D.
  destruct D as (ms & F & ->).
  revert ms F; induction w as [|c w IH]; intros ms F; inversion F; subst.
  - reflexivity.
  - match goal with H : denotes (chr c) _ |- _ => inversion H; subst end.
    simpl; f_equal; [symmetry; now apply N.eqb_eq | now apply IH].
Qed.

End RegexFacts.

(** ** Strings and sets *)

Module StringFacts.
Import JS Regex Notions Facts.

Lemma trimStart_suffix (s : jsstring) : exists pre, s = pre ++ trimStart s.
Proof.
  induction s as [|c s (pre & IH)]; [now exists []|]; simpl.
  destruct (isWhiteSpace c); [|now exists []].
  exists (c :: pre); simpl; now f_equal.
Qed.

Lemma trimEnd_prefix (s : jsstring) : exists post, s = trimEnd s ++ post.
Proof.
  unfold trimEnd; destruct (trimStart_suffix (rev s)) as (pre & E).
  exists (rev pre); rewrite <- rev_app_distr, <- E; now rewrite rev_involutive.
Qed.

Lemma trim_includes (s : jsstring) : includes s (trim s) = true.
Proof.
  unfold trim; destruct (trimStart_suffix s) as (pre & E).
  destruct (trimEnd_prefix (trimStart s)) as (post & E').
  apply includes_spec; exists pre, post; now rewrite <- E', <- E.
Qed.

Lemma includes_In (s sub : jsstring) (c : char) :
  includes s sub = true -> In c sub -> In c s.
Proof.
  rewrite includes_spec; intros (pre & post & ->) H.
  rewrite !in_app_iff; tauto.
Qed.

Lemma includes_length (s sub : jsstring) :
  includes s sub = true -> length sub <= length s.
Proof.
  rewrite includes_spec; intros (pre & post & ->); rewrite !length_app; lia.
Qed.

Lemma includes_refl (s : jsstring) : includes s s = true.
Proof. apply includes_spec; exists [], []; now rewrite app_nil_r. Qed.

Lemma includes_nil (s : jsstring) : includes s [] = true.
Proof. apply includes_spec; now exists [], s. Qed.

Lemma In_trim (s : jsstring) (c : char) : In c (trim s) -> In c s.
Proof. apply includes_In, trim_includes. Qed.

(** Replacing every character of a class by nothing filters them out. *)
Lemma replaceFrom_delete (p : char -> bool) (s : jsstring) :
  forall prev,
    replaceFrom (Chr p) [] 0 prev s = filter (fun c => negb (p c)) s.
Proof.
  induction s as [|c s IH]; intros prev; [reflexivity|].
  cbn [replaceFrom filter]; unfold execAt; cbn [run].
  destruct (p c); cbn [negb].
  - replace (length (c :: s) - length s) with 1 by (cbn [length]; lia).
    simpl; apply IH.
  - simpl; f_equal; apply IH.
Qed.

Lemma lowerChar_not_upper (c : char) : isUpperAZ (lowerChar c) = false.
Proof.
  unfold lowerChar, isUpperAZ, in_range.
  destruct ((65 <=? c)%N && (c <=? 90)%N) eqn:E1.
  - apply andb_true_iff in E1; destruct E1 as [H1 H2].
    apply N.leb_le in H1, H2.
    apply andb_false_iff; right; apply N.leb_gt; lia.
  - destruct (((192 <=? c)%N && (c <=? 222)%N) && negb (c =? 215)%N) eqn:E2;
      [|exact E1].
    apply andb_true_iff in E2; destruct E2 as [E2 _].
    apply andb_true_iff in E2; destruct E2 as [H1 H2].
    apply N.leb_le in H1, H2.
    apply andb_false_iff; right; apply N.leb_gt; lia.
Qed.

(** *** Letter case *)

(** A code unit that a case-insensitive pattern takes for an ASCII
    character other than a capital has that character as its lower-case
    form. *)
Lemma canon_cases (c : char) :
  ((97 <= c <= 122)%N /\ canon c = (c - 32)%N) \/
  ((224 <= c <= 254)%N /\ c <> 247%N /\ canon c = (c - 32)%N) \/
  (c = 255%N /\ canon c = 376%N) \/
  (c = 181%N /\ canon c = 924%N) \/
  (~ (97 <= c <= 122)%N /\ ~ ((224 <= c <= 254)%N /\ c <> 247%N) /\
   c <> 255%N /\ c <> 181%N /\ canon c = c).
Proof.
  unfold canon, isLowerAZ, in_range.
  destruct (N.leb_spec 97 c), (N.leb_spec c 122); cbn [andb];
    try (left; lia);
    destruct (N.leb_spec 224 c), (N.leb_spec c 254), (N.eqb_spec c 247);
    cbn [andb negb]; try (right; left; lia);
    destruct (N.eqb_spec c 255); try (right; right; left; lia);
    destruct (N.eqb_spec c 181); try (right; right; right; left; lia);
    right; right; right; right; lia.
Qed.

Lemma lowerChar_cases (c : char) :
  ((65 <= c <= 90)%N /\ lowerChar c = (c + 32)%N) \/
  ((192 <= c <= 222)%N /\ c <> 215%N /\ lowerChar c = (c + 32)%N) \/
  (~ (65 <= c <= 90)%N /\ ~ ((192 <= c <= 222)%N /\ c <> 215%N) /\
   lowerChar c = c).
Proof.
  unfold lowerChar, isUpperAZ, in_range.
  destruct (N.leb_spec 65 c), (N.leb_spec c 90); cbn [andb];
    try (left; lia);
    destruct (N.leb_spec 192 c), (N.leb_spec c 222), (N.eqb_spec c 215);
    cbn [andb negb]; try (right; left; lia); right; right; lia.
Qed.

Lemma canon_lower (c d : char) :
  (d <? 128)%N && negb (isUpperAZ d) = true ->
  canon c = canon d -> lowerChar c = d.
Proof.
  intros Hd; apply andb_true_iff in Hd; destruct Hd as [Hd Hu].
  apply N.ltb_lt in Hd; apply negb_true_iff in Hu.
  assert (Hu' : ~ (65 <= d <= 90)%N).
  { unfold isUpperAZ, in_range in Hu.
    destruct (N.leb_spec 65 d), (N.leb_spec d 90); try discriminate; lia. }
  clear Hu.
  pose proof (canon_cases c) as Hc; pose proof (canon_cases d) as Hcd.
  pose proof (lowerChar_cases c) as Hl.
  revert Hc Hcd Hl.
  generalize (canon c), (canon d), (lowerChar c); intros x y z.
  lia.
Qed.

Lemma canon_lower_text (w m : jsstring) :
  forallb (fun d => (d <? 128)%N && negb (isUpperAZ d)) w = true ->
  map canon m = map canon w -> toLowerCase m = w.
Proof.
  revert m; induction w as [|d w IH]; intros [|c m] Hw E; try discriminate;
    [reflexivity|].
  cbn [forallb] in Hw; apply andb_true_iff in Hw; destruct Hw as [Hd Hw].
  injection E as Ec Em; cbn [toLowerCase map]; f_equal;
    [now apply canon_lower | now apply IH].
Qed.

(** What a case-insensitive literal matches is the literal, up to case. *)
Lemma denotes_text_i (w : string) (m : jsstring) :
  forallb (fun d => (d <? 128)%N && negb (isUpperAZ d)) (lit w) = true ->
  denotes (text_i w) m -> toLowerCase m = lit w.
Proof.
  intros Hw D; apply canon_lower_text; [exact Hw|].
  now apply RegexFacts.denotes_word_i.
Qed.

End StringFacts.

(** ** The scoring engine: further properties *)

Module EngineFacts.
Import JS Num Regex Natural AtsEngine Notions Facts StringFacts.

Lemma skillsMatch_empty (skill : jsstring) : skillsMatch [] skill = true.
Proof.
  unfold skillsMatch.
  change (trim (toLowerCase [])) with (@nil char).
  destruct (str_eqb [] _); [reflexivity|].
  now rewrite includes_nil, orb_true_r.
Qed.

Lemma filter_all {A} (f : A -> bool) (l : list A) :
  (forall x, In x l -> f x = true) -> filter f l = l.
Proof.
  induction l as [|x l IH]; intros H; simpl; [reflexivity|].
  rewrite (H x (or_introl eq_refl)), IH; [reflexivity|].
  intros y Hy; apply H; now right.
Qed.

Lemma filter_none {A} (f : A -> bool) (l : list A) :
  (forall x, In x l -> f x = false) -> filter f l = [].
Proof.
  induction l as [|x l IH]; intros H; simpl; [reflexivity|].
  rewrite (H x (or_introl eq_refl)); apply IH.
  intros y Hy; apply H; now right.
Qed.

(** X1.  A resume skill that normalises to the empty string (one made of
    punctuation only, say) matches every job skill: no required skill is
    reported missing, and every normalised required skill is reported
    matched. *)
Theorem empty_skill_matches_everything
    (resume : ResumeData) (job : JobDescriptionData) :
  In [] (normalizeSkills (skills resume)) ->
  missing (calculateSkillsScore resume job) = [] /\
  incl (normalizeSkills (requiredSkills job))
       (matched (calculateSkillsScore resume job)).
Proof.
  intros Hin.
  assert (Hall : forall x,
             someMatch (normalizeSkills (skills resume)) x = true).
  { intros x; unfold someMatch; apply existsb_exists.
    exists []; split; [exact Hin | apply skillsMatch_empty]. }
  destruct (SkillsFacts.calculateSkillsScore_lists resume job)
    as (Hmissing & extra & Hmatched & _).
  split.
  - rewrite Hmissing; apply filter_none.
    intros x _; unfold unmatched; now rewrite Hall.
  - rewrite Hmatched, filter_all by (intros x _; apply Hall).
    intros x Hx; apply in_or_app; now left.
Qed.

Lemma empty_skill_matches_everything_witness :
  In [] (normalizeSkills (skills (Scenarios.resume [] ["!!"%string]))) /\
  missing (calculateSkillsScore (Scenarios.resume [] ["!!"%string])
                                Scenarios.jobAwsDocker) = [] /\
  incl (normalizeSkills (requiredSkills Scenarios.jobAwsDocker))
       (matched (calculateSkillsScore (Scenarios.resume [] ["!!"%string])
                                      Scenarios.jobAwsDocker)).
Proof.
  split; [vm_compute; now left|].
  apply (empty_skill_matches_everything (Scenarios.resume [] ["!!"%string])
           Scenarios.jobAwsDocker).
  vm_compute; now left.
Defined.

(** X2.  A normalised skill is made of the lower-case letters a to z, the
    digits, white space and the characters + # . only. *)
Theorem normalizeSkills_alphabet (skills : list jsstring) :
  forallb
    (forallb (fun c => isLowerAZ c || isDigit c || isWhiteSpace c
                       || memc c [43; 35; 46]%N))
    (normalizeSkills skills) = true.
Proof.
  apply forallb_forall; intros s Hs.
  apply in_map_iff in Hs; destruct Hs as (skill & <- & _).
  apply forallb_forall; intros c Hc.
  unfold normalizeSkill, replaceAll in Hc.
  rewrite replaceFrom_delete in Hc.
  apply filter_In in Hc; destruct Hc as [Hc Hkeep].
  apply In_trim, in_map_iff in Hc; destruct Hc as (c0 & <- & _).
  unfold notSkillChar, isLetter in Hkeep.
  rewrite negb_involutive, lowerChar_not_upper in Hkeep.
  exact Hkeep.
Qed.

(** X3.  The formatting score is 100 exactly when no issue is reported, and
    0 exactly when the content is shorter than 500 code units and the
    skills, the experience and the education are all empty; there are at
    most five issues. *)
Theorem formatting_score_extremes (resume : ResumeData) :
  let analysis := calculateFormattingScore resume in
  (fmtScore analysis = 100%Z <-> issues analysis = []) /\
  (fmtScore analysis = 0%Z <->
   length (content resume) < 500 /\ skills resume = [] /\
   experience resume = [] /\ education resume = []) /\
  length (issues analysis) <= 5.
Proof.
  unfold calculateFormattingScore, penalize; cbn [fmtScore issues].
  repeat match goal with
         | |- context [lit ?s] => generalize (lit s); intro
         end.
  generalize (negb (existsb
                      (fun word => includes (toLowerCase (content resume)) word)
                      actionWords)).
  destruct (length (content resume) <? 500) eqn:E;
    [apply Nat.ltb_lt in E | apply Nat.ltb_ge in E];
    destruct (skills resume), (experience resume), (education resume);
    intros []; cbn [fst snd app length Z.sub Z.max];
    (split; [split; [try (intros H; discriminate H); try reflexivity
                    | try (intros H; discriminate H); try reflexivity]
            | split; [split; [try (intros H; discriminate H); tauto
                             | intros (H1 & H2 & H3 & H4);
                               try discriminate; try reflexivity; try lia]
                     | simpl; lia]]).
Qed.

(** *** The keyword score *)

Lemma ofNat_positive (n : nat) :
  0 < n -> isZero (inject_Z (Z.of_nat n)) = false.
Proof.
  intros H; unfold isZero.
  destruct (Qeq_bool (inject_Z (Z.of_nat n)) 0) eqn:E; [|reflexivity].
  apply Qeq_bool_eq in E; unfold Qeq in E; simpl in E; lia.
Qed.

(** The sum under [Math.min] in the keyword score, for [m] matched keywords
    out of [n] and the density total [d]. *)
Lemma keyword_sum (m d n : nat) :
  0 < n ->
  exists q,
    add (mul (div (ofNat m) (ofNat n)) (Fin 70))
        (mul (div (ofNat d) (ofNat n)) (Fin 30)) = Fin q /\
    (m = 0 -> d = 0 -> q = 0%Q) /\
    (5 * n <= 11 * m -> 5 * m <= d -> (100 <= q)%Q).
Proof.
  intros Hn; unfold div, ofNat, ofZ.
  rewrite (ofNat_positive n Hn); cbn [mul add fin].
  eexists; split; [reflexivity|].
  assert (Hpos : (0 < inject_Z (Z.of_nat n))%Q).
  { rewrite <- (Zlt_Qlt 0); lia. }
  split.
  - intros -> ->.
    assert (Hz : (inject_Z (Z.of_nat 0) / inject_Z (Z.of_nat n) == 0)%Q).
    { change (inject_Z (Z.of_nat 0)) with 0%Q; field.
      intros E; rewrite E in Hpos; now apply Qlt_irrefl in Hpos. }
    rewrite (RoundingFacts.double_eq _ _ Hz); reflexivity.
  - intros Hfrac Hdens.
    assert (H1 : (5 # 11 <= inject_Z (Z.of_nat m) / inject_Z (Z.of_nat n))%Q).
    { apply Qle_shift_div_l; [exact Hpos|].
      assert (H : (5 * inject_Z (Z.of_nat n)
                   <= 11 * inject_Z (Z.of_nat m))%Q).
      { change 5%Q with (inject_Z 5); change 11%Q with (inject_Z 11).
        rewrite <- !inject_Z_mult, <- Zle_Qle; lia. }
      lra. }
    assert (H2 : (25 # 11 <= inject_Z (Z.of_nat d) / inject_Z (Z.of_nat n))%Q).
    { apply Qle_shift_div_l; [exact Hpos|].
      assert (H : (25 * inject_Z (Z.of_nat n)
                   <= 11 * inject_Z (Z.of_nat d))%Q).
      { change 25%Q with (inject_Z 25); change 11%Q with (inject_Z 11).
        rewrite <- !inject_Z_mult, <- Zle_Qle; lia. }
      lra. }
    apply RoundingFacts.double_le in H1, H2.
    assert (H3 : (double (double (5 # 11) * 70)
                  <= double (double (inject_Z (Z.of_nat m)
                                     / inject_Z (Z.of_nat n)) * 70))%Q).
    { apply RoundingFacts.double_le; lra. }
    assert (H4 : (double (double (25 # 11) * 30)
                  <= double (double (inject_Z (Z.of_nat d)
                                     / inject_Z (Z.of_nat n)) * 30))%Q).
    { apply RoundingFacts.double_le; lra. }
    assert (H5 : (100 <= double (double (double (5 # 11) * 70)
                                 + double (double (25 # 11) * 30)))%Q).
    { vm_compute; discriminate. }
    eapply Qle_trans; [exact H5|].
    apply RoundingFacts.double_le; lra.
Qed.

Lemma totalDensity_bounds
    (patternMatches : Compiler)
    (text : jsstring) (keywords : list jsstring) :
  5 * length (filter (found patternMatches text) keywords)
  <= totalDensity patternMatches text keywords /\
  (filter (found patternMatches text) keywords = [] ->
   totalDensity patternMatches text keywords = 0).
Proof.
  unfold totalDensity; induction keywords as [|k ks [IH1 IH2]];
    [simpl; split; [lia | reflexivity]|].
  cbn [filter map]; simpl list_sum.
  assert (Hfound : found patternMatches text k
                   = (0 <? occurrences patternMatches text k))
    by reflexivity.
  rewrite Hfound; clear Hfound.
  destruct (0 <? occurrences patternMatches text k) eqn:E.
  - apply Nat.ltb_lt in E; cbn [length]; unfold density at 1.
    split; [lia | discriminate].
  - apply Nat.ltb_ge in E.
    replace (occurrences patternMatches text k) with 0 by lia.
    change (density 0) with 0; cbn [Nat.add]; tauto.
Qed.

(** X4.  With at least one keyword: when no keyword is found the keyword
    score is 0, and as soon as five in eleven of the keywords are found it
    is 100, however often they occur. *)
Theorem keyword_score_saturates_at_five_elevenths
    (patternMatches : Compiler)
    (resume : ResumeData) (job : JobDescriptionData) :
  compilable patternMatches job -> keywords job <> [] ->
  exists analysis,
    calculateKeywordScore patternMatches resume job = Some analysis /\
    (matched analysis = [] -> score analysis = Fin 0) /\
    (5 * length (keywords job) <= 11 * length (matched analysis) ->
     score analysis = Fin 100).
Proof.
  intros Hok Hne.
  rewrite (KeywordFacts.calculateKeywordScore_returns
             patternMatches resume job Hok).
  eexists; split; [reflexivity|]; cbn [score matched].
  set (text := toLowerCase (content resume)).
  set (kws := map toLowerCase (keywords job)).
  assert (Hlen : 0 < length kws).
  { unfold kws; rewrite length_map.
    destruct (keywords job); [congruence | simpl; lia]. }
  destruct (totalDensity_bounds patternMatches text kws) as [Hd H0].
  destruct (keyword_sum (length (filter (found patternMatches text) kws))
              (totalDensity patternMatches text kws) (length kws) Hlen)
    as (q & Hsum & Hzero & Hfull).
  apply Nat.ltb_lt in Hlen; rewrite Hlen; apply Nat.ltb_lt in Hlen.
  rewrite Hsum; clear Hsum.
  split.
  - intros Hnone; rewrite Hzero; [reflexivity | now rewrite Hnone|].
    now apply H0.
  - intros Hfrac; cbn [min lt].
    assert (Hge : (100 <= q)%Q).
    { apply Hfull; [|exact Hd].
      unfold kws; rewrite length_map; exact Hfrac. }
    apply Qle_bool_iff in Hge; rewrite Hge; reflexivity.
Qed.

Lemma keyword_score_saturates_at_five_elevenths_witness :
  exists analysis,
    calculateKeywordScore Scenarios.noPatterns (Scenarios.pythonTimes 1)
                          (Scenarios.job [] [] ["python"; "java"]%string)
    = Some analysis /\
    score analysis = Fin 100.
Proof.
  destruct (keyword_score_saturates_at_five_elevenths Scenarios.noPatterns
              (Scenarios.pythonTimes 1)
              (Scenarios.job [] [] ["python"; "java"]%string))
    as (analysis & E & _ & H100).
  - apply KeywordFacts.plainKeywords_compilable; vm_compute; reflexivity.
  - discriminate.
  - exists analysis; split; [exact E|].
    apply H100.
    vm_compute in E; injection E as <-.
    vm_compute; lia.
Defined.


Lemma filter_partition_Permutation {A} (f : A -> bool) (l : list A) :
  Permutation (filter f l ++ filter (fun x => negb (f x)) l) l.
Proof.
  induction l as [|x l IH]; simpl; [constructor|].
  destruct (f x); simpl; [now constructor|].
  apply Permutation_sym, Permutation_cons_app, Permutation_sym, IH.
Qed.

(** X5.  Every keyword is reported once, lower-cased, as matched or as
    missing: the two lists together are a rearrangement of the lower-cased
    keywords, duplicates included, and no keyword is in both. *)
Theorem keywords_matched_or_missing
    (patternMatches : Compiler)
    (resume : ResumeData) (job : JobDescriptionData) :
  compilable patternMatches job ->
  exists analysis,
    calculateKeywordScore patternMatches resume job = Some analysis /\
    Permutation (matched analysis ++ missing analysis)
                (map toLowerCase (keywords job)) /\
    (forall keyword,
       In keyword (matched analysis) -> ~ In keyword (missing analysis)).
Proof.
  intros Hok.
  rewrite (KeywordFacts.calculateKeywordScore_returns
             patternMatches resume job Hok).
  eexists; split; [reflexivity|]; cbn [matched missing].
  split; [apply filter_partition_Permutation|].
  intros k H1 H2; apply filter_In in H1, H2.
  destruct H1 as [_ H1], H2 as [_ H2]; rewrite H1 in H2; discriminate.
Qed.

Lemma keywords_matched_or_missing_witness :
  exists analysis,
    calculateKeywordScore Scenarios.noPatterns (Scenarios.pythonTimes 1)
                          (Scenarios.job [] [] ["Python"; "Java"; "python"]%string)
    = Some analysis /\
    matched analysis = [lit "python"; lit "python"] /\
    missing analysis = [lit "java"].
Proof.
  destruct (keywords_matched_or_missing Scenarios.noPatterns
              (Scenarios.pythonTimes 1)
              (Scenarios.job [] [] ["Python"; "Java"; "python"]%string))
    as (analysis & E & _).
  - apply KeywordFacts.plainKeywords_compilable; vm_compute; reflexivity.
  - exists analysis; split; [exact E|].
    vm_compute in E; injection E as <-; split; reflexivity.
Defined.

Lemma denotes_keywordPattern (keyword m : jsstring) :
  denotes (keywordPattern keyword) m -> map canon m = map canon keyword.
Proof.
  unfold keywordPattern; intros D.
  apply RegexFacts.denotes_seqs in D; destruct D as (ms & F & ->).
  inversion F as [|r1 m1 rs1 ms1 D1 F1]; subst.
  inversion F1 as [|r2 m2 rs2 ms2 D2 F2]; subst.
  inversion F2 as [|r3 m3 rs3 ms3 D3 F3]; subst.
  inversion F3; subst.
  inversion D1; inversion D3; subst.
  simpl; rewrite app_nil_r.
  now apply RegexFacts.denotes_word_i.
Qed.

(** X6.  Whatever the other keywords of the job are, a keyword without
    pattern syntax characters that is reported as matched occurs in the
    lower-cased content of the resume, up to the case of its letters. *)
Theorem matched_keyword_occurs
    (patternMatches : Compiler)
    (resume : ResumeData) (job : JobDescriptionData) :
  compilable patternMatches job ->
  exists analysis,
    calculateKeywordScore patternMatches resume job = Some analysis /\
    forall keyword,
      In keyword (matched analysis) ->
      plainKeyword keyword = true ->
      includes (map canon (toLowerCase (content resume)))
               (map canon keyword) = true.
Proof.
  intros Hok.
  rewrite (KeywordFacts.calculateKeywordScore_returns patternMatches resume job
             Hok).
  eexists; split; [reflexivity|]; cbn [matched].
  intros k Hk Hplain; apply filter_In in Hk; destruct Hk as [_ Hfound].
  unfold found, occurrences, keywordRegExp in Hfound.
  rewrite Hplain in Hfound.
  apply Nat.ltb_lt in Hfound.
  destruct (matchAll (keywordPattern k) (toLowerCase (content resume)))
    as [|x xs] eqn:E; [simpl in Hfound; lia|].
  destruct (RegexFacts.matchAll_sound (keywordPattern k)
              (toLowerCase (content resume)) x) as [D Hsub];
    [rewrite E; now left|].
  apply denotes_keywordPattern in D; rewrite <- D.
  now apply includes_map.
Qed.

Lemma matched_keyword_occurs_witness :
  exists analysis,
    calculateKeywordScore Scenarios.nodePattern Scenarios.resumePythonNode
                          Scenarios.jobNodePython = Some analysis /\
    matched analysis = [lit "node.js"; lit "python"] /\
    includes (map canon (toLowerCase (content Scenarios.resumePythonNode)))
             (map canon (lit "python")) = true.
Proof.
  destruct (matched_keyword_occurs Scenarios.nodePattern
              Scenarios.resumePythonNode Scenarios.jobNodePython)
    as (analysis & E & H).
  - intros keyword [<-|[<-|[]]]; vm_compute; discriminate.
  - exists analysis; split; [exact E|].
    assert (Hm : matched analysis = [lit "node.js"; lit "python"])
      by (vm_compute in E; injection E as <-; reflexivity).
    split; [exact Hm|].
    apply H; [rewrite Hm; right; now left | reflexivity].
Defined.


(** *** The suggestions *)

Lemma mask_In_nth {A : Type} (x : A) :
  forall (keep : list bool) (l : list A),
    In x (mask keep l) ->
    exists i, nth_error l i = Some x /\ nth_error keep i = Some true.
Proof.
  induction keep as [|b keep IH]; intros [|y l] H; try contradiction.
  cbn [mask] in H; destruct b.
  - destruct H as [<-|H]; [now exists 0|].
    apply IH in H; destruct H as (i & H1 & H2); now exists (S i).
  - apply IH in H; destruct H as (i & H1 & H2); now exists (S i).
Qed.

Lemma lt_70_not_ge_80 (a : number) :
  lt a (Fin 70) = true -> ge a (Fin 80) = false.
Proof.
  destruct a as [x| | |]; cbn [lt ge]; try reflexivity; try discriminate.
  intros H; apply negb_true_iff in H.
  destruct (Qle_bool 80 x) eqn:E; [|reflexivity].
  apply Qle_bool_iff in E.
  assert (H70 : (70 <= x)%Q) by lra.
  apply Qle_bool_iff in H70; congruence.
Qed.

(** X7.  A result carries at most eight suggestions: the congratulation on
    the keyword optimization is never accompanied by the suggestion to add
    skills or by the suggestion to include keywords. *)
Theorem suggestions_at_most_eight
    (patternMatches : Compiler)
    (listTerms : ListTerms)
    (resume : ResumeData) (job : JobDescriptionData) :
  compilable patternMatches job ->
  exists result,
    calculateATSScore patternMatches listTerms resume job = Some result /\
    length (suggestions result) <= 8 /\
    (In generalSuggestion (suggestions result) ->
     ~ In (skillsSuggestion (missingSkills result)) (suggestions result) /\
     ~ In (keywordSuggestion (missingKeywords result)) (suggestions result)).
Proof.
  intros Hok.
  destruct (CompositeFacts.calculateATSScore_returns
              patternMatches listTerms resume job Hok) as (ka & _ & Hats).
  eexists; split; [exact Hats|].
  cbn [suggestions missingSkills missingKeywords].
  rewrite SuggestionFacts.generateSuggestions_mask.
  set (sa := calculateSkillsScore resume job).
  pose proof (SuggestionFacts.allSuggestions_NoDup (missing sa) (missing ka))
    as ND.
  assert (H1 : lt (score sa) (Fin 70) && (0 <? length (missing sa)) = true ->
               ge (score sa) (Fin 80) && ge (score ka) (Fin 80) = false).
  { intros H; apply andb_true_iff in H; destruct H as [H _].
    now rewrite (lt_70_not_ge_80 _ H). }
  assert (H3 : lt (score ka) (Fin 70) && (0 <? length (missing ka)) = true ->
               ge (score sa) (Fin 80) && ge (score ka) (Fin 80) = false).
  { intros H; apply andb_true_iff in H; destruct H as [H _].
    rewrite (lt_70_not_ge_80 _ H); apply andb_false_r. }
  revert H1 H3.
  generalize (lt (score sa) (Fin 70) && (0 <? length (missing sa))),
    (lt (expScore (calculateExperienceScore listTerms resume job)) (Fin 60)),
    (lt (score ka) (Fin 70) && (0 <? length (missing ka))),
    (ge (score sa) (Fin 80) && ge (score ka) (Fin 80)),
    (length (content resume) <? 500),
    (negb (0 <? length (skills resume))),
    (negb (0 <? length (experience resume))),
    (negb (0 <? length (education resume))),
    (negb (existsb
             (fun word => includes (toLowerCase (content resume)) word)
             actionWords)).
  intros b1 b2 b3 b9 f1 f2 f3 f4 f5 H1 H3.
  split.
  - clear ND; unfold allSuggestions.
    generalize (skillsSuggestion (missing sa)), (keywordSuggestion (missing ka)),
      experienceSuggestion, generalSuggestion, formattingSuggestion.
    intros s1 s3 s2 s9 fmt.
    destruct b1, b9; try (specialize (H1 eq_refl); discriminate);
      destruct b3; try (specialize (H3 eq_refl); discriminate);
      destruct b2, f1, f2, f3, f4, f5; simpl; lia.
  - intros Hgen.
    apply mask_In_nth in Hgen; destruct Hgen as (i & Hi & Hkeep).
    assert (i = 8) as ->.
    { apply (proj1 (NoDup_nth_error _) ND);
        [apply nth_error_Some; congruence | rewrite Hi; reflexivity]. }
    injection Hkeep as ->.
    split; intros Hin; apply mask_In_nth in Hin;
      destruct Hin as (j & Hj & Hkeep).
    + assert (j = 0) as ->.
      { apply (proj1 (NoDup_nth_error _) ND);
          [apply nth_error_Some; congruence | rewrite Hj; reflexivity]. }
      injection Hkeep as ->; specialize (H1 eq_refl); discriminate.
    + assert (j = 2) as ->.
      { apply (proj1 (NoDup_nth_error _) ND);
          [apply nth_error_Some; congruence | rewrite Hj; reflexivity]. }
      injection Hkeep as ->; specialize (H3 eq_refl); discriminate.
Qed.

Lemma suggestions_at_most_eight_witness :
  exists result,
    calculateATSScore Scenarios.noPatterns Scenarios.twoTerms
                      (Scenarios.resume [] []) Scenarios.jobThree
    = Some result /\
    length (suggestions result) = 8.
Proof.
  destruct (suggestions_at_most_eight Scenarios.noPatterns Scenarios.twoTerms
              (Scenarios.resume [] []) Scenarios.jobThree)
    as (result & Hats & _).
  - apply KeywordFacts.plainKeywords_compilable; vm_compute; reflexivity.
  - exists result; split; [exact Hats|].
    vm_compute in Hats; injection Hats as <-.
    reflexivity.
Defined.


(** *** The experience score and the extraction of keywords *)

(** The loop when no term is found: the match count stays at 0. *)
Lemma experience_loop_none (resumeText : jsstring) (items : list TermItem) :
  forall total,
    (forall item, In item items -> termInText resumeText item = false) ->
    exists total',
      fold_left
        (fun '(matchCount, totalWeight) item =>
           (if termInText resumeText item
            then add matchCount (tfidf item) else matchCount,
            add totalWeight (tfidf item)))
        items (Fin 0, total) = (Fin 0, total').
Proof.
  induction items as [|item items IH]; intros total Hnone.
  - now exists total.
  - cbn [fold_left]; rewrite (Hnone item (or_introl eq_refl)).
    apply IH; intros i Hi; apply Hnone; now right.
Qed.

(** The loop when every term is found and the weights are positive: the
    match count is the total weight. *)
Lemma experience_loop_all (resumeText : jsstring) (items : list TermItem) :
  forall m,
    (0 <= m)%Q ->
    (forall item, In item items ->
       termInText resumeText item = true /\
       exists w, tfidf item = Fin w /\ (0 < w)%Q) ->
    exists m',
      fold_left
        (fun '(matchCount, totalWeight) item =>
           (if termInText resumeText item
            then add matchCount (tfidf item) else matchCount,
            add totalWeight (tfidf item)))
        items (Fin m, Fin m) = (Fin m', Fin m') /\
      ((0 < m)%Q -> (0 < m')%Q) /\ (items <> [] -> (0 < m')%Q).
Proof.
  induction items as [|item items IH]; intros m Hm Hall.
  - exists m; repeat split; [tauto | congruence].
  - cbn [fold_left].
    destruct (Hall item (or_introl eq_refl)) as (Hfound & w & Hw & Hpos).
    rewrite Hfound, Hw; cbn [add fin].
    assert (Hsum : (0 < double (m + w))%Q)
      by (apply RoundingFacts.double_pos; lra).
    destruct (IH (double (m + w))) as (m' & E & Hkeep & _).
    + now apply Qlt_le_weak.
    + intros i Hi; apply Hall; now right.
    + exists m'; split; [exact E|].
      split; intros _; now apply Hkeep.
Qed.

(** X8.  When no term of the job description longer than three code units
    is found in the resume, the experience score is 0, whatever the weights;
    when there is such a term, the weights are positive and every such term
    is found, it is 100. *)
Theorem experience_score_extremes
    (listTerms : ListTerms)
    (resume : ResumeData) (job : JobDescriptionData) :
  let terms :=
    listTerms [join (lit " ") (experience resume); description job] 1 in
  let text := toLowerCase (content resume) in
  let analysis := calculateExperienceScore listTerms resume job in
  (expMatched analysis = [] -> expScore analysis = Fin 0) /\
  ((exists item, In item terms /\ 3 < length (term item)) ->
   (forall item, In item terms -> exists w, tfidf item = Fin w /\ (0 < w)%Q) ->
   (forall item, In item terms -> 3 < length (term item) ->
      includes text (toLowerCase (term item)) = true) ->
   expScore analysis = Fin 100).
Proof.
  intros terms text analysis; subst analysis.
  unfold calculateExperienceScore; fold terms text.
  set (jobTerms := filter (fun item => 3 <? length (term item)) terms).
  split.
  - destruct (fold_left _ (firstn 20 jobTerms) _) as [mc tw] eqn:E.
    cbn [expMatched expScore]; intros Hnone.
    apply map_eq_nil in Hnone.
    destruct (experience_loop_none text (firstn 20 jobTerms) (Fin 0))
      as (total & E').
    { intros item Hin; apply In_firstn in Hin.
      destruct (termInText text item) eqn:Hfound; [|reflexivity].
      assert (Hf : In item (filter (termInText text) jobTerms))
        by (apply filter_In; now split).
      rewrite Hnone in Hf; contradiction. }
    rewrite E' in E; injection E as <- <-.
    destruct total as [t| | |]; try reflexivity.
    unfold gt, lt; destruct (Qle_bool t 0) eqn:Ht; cbn [negb]; [reflexivity|].
    unfold div.
    destruct (isZero t) eqn:Hz.
    { unfold isZero in Hz; apply Qeq_bool_eq in Hz.
      assert (Hle : (t <= 0)%Q) by (rewrite Hz; apply Qle_refl).
      apply Qle_bool_iff in Hle; congruence. }
    assert (Hq : (0 / t == 0)%Q) by (unfold Qdiv; ring).
    unfold fin; rewrite (RoundingFacts.double_eq _ _ Hq); reflexivity.
  - intros (witness & Hin & Hlong) Hweights Hfound.
    destruct (experience_loop_all text (firstn 20 jobTerms) 0)
      as (m & E & _ & Hpos).
    { apply Qle_refl. }
    { intros item Hitem; apply In_firstn, filter_In in Hitem.
      destruct Hitem as [Hitem Hlen]; apply Nat.ltb_lt in Hlen.
      split; [now apply Hfound | now apply Hweights]. }
    rewrite E; cbn [expScore].
    assert (Hm : (0 < m)%Q).
    { apply Hpos.
      assert (Hj : In witness jobTerms)
        by (apply filter_In; split; [exact Hin | now apply Nat.ltb_lt]).
      destruct jobTerms; [contradiction | discriminate]. }
    unfold gt, lt.
    destruct (Qle_bool m 0) eqn:Hle;
      [apply Qle_bool_iff in Hle; lra | cbn [negb]].
    unfold div.
    destruct (isZero m) eqn:Hz.
    { unfold isZero in Hz; apply Qeq_bool_eq in Hz; lra. }
    assert (Hq : (m / m == 1)%Q).
    { field; intros Hz'; lra. }
    unfold fin; rewrite (RoundingFacts.double_eq _ _ Hq); reflexivity.
Qed.

Lemma experience_score_extremes_witness :
  expScore (calculateExperienceScore Scenarios.twoTerms
              (Scenarios.resume (lit "Python on Kubernetes") [])
              Scenarios.jobPython) = Fin 100.
Proof.
  apply (experience_score_extremes Scenarios.twoTerms
           (Scenarios.resume (lit "Python on Kubernetes") [])
           Scenarios.jobPython).
  - eexists; split; [now left | vm_compute; lia].
  - intros item [<-|[<-|[]]]; eexists; split; try reflexivity;
      vm_compute; reflexivity.
  - intros item [<-|[<-|[]]] _; vm_compute; reflexivity.
Defined.

(** X9.  [extractKeywords] returns at most 30 keywords; each one is a term
    of the lower-cased text that is longer than three code units and weighs
    more than 1. *)
Theorem extractKeywords_contract (listTerms : ListTerms) (text : jsstring) :
  length (extractKeywords listTerms text) <= 30 /\
  Forall
    (fun keyword =>
       3 < length keyword /\
       exists item,
         In item (listTerms [toLowerCase text] 0) /\
         term item = keyword /\ gt (tfidf item) (Fin 1) = true)
    (extractKeywords listTerms text).
Proof.
  unfold extractKeywords; split; [apply firstn_le_length|].
  apply Forall_forall; intros keyword Hin.
  apply In_firstn, in_map_iff in Hin; destruct Hin as (item & <- & Hin).
  apply filter_In in Hin; destruct Hin as [Hin Hkeep].
  apply andb_true_iff in Hkeep; destruct Hkeep as [Hlen Hw].
  apply Nat.ltb_lt in Hlen.
  split; [exact Hlen | now exists item].
Qed.

(** X10.  The keywords of an analysis are those that [extractKeywords]
    finds in the job description.  When no term of the description longer
    than three code units weighs more than 1, there is no keyword, and the
    keyword score and the overall score of the result are NaN. *)
Theorem description_without_keywords_scores_NaN
    (patternMatches : Compiler)
    (listTerms : ListTerms)
    (resume : ResumeData)
    (text : jsstring) (required preferred : list jsstring)
    (level : option jsstring) :
  (forall item,
     In item (listTerms [toLowerCase text] 0) ->
     3 < length (term item) -> gt (tfidf item) (Fin 1) = false) ->
  extractKeywords listTerms text = [] /\
  exists result,
    calculateATSScore patternMatches listTerms resume
      {| description := text;
         requiredSkills := required;
         preferredSkills := preferred;
         keywords := extractKeywords listTerms text;
         jobExperience := level |}
    = Some result /\
    keywordScore result = NaN /\ overallScore result = NaN.
Proof.
  intros Hlight.
  assert (Hnone : extractKeywords listTerms text = []).
  { unfold extractKeywords; rewrite filter_none; [reflexivity|].
    intros item Hin.
    destruct (3 <? length (term item)) eqn:Hlen; [|reflexivity].
    apply Nat.ltb_lt in Hlen; now rewrite (Hlight item Hin Hlen). }
  split; [exact Hnone|].
  rewrite Hnone; unfold calculateATSScore.
  rewrite KeywordFacts.calculateKeywordScore_no_keywords by reflexivity.
  eexists; split; [reflexivity|].
  cbn [keywordScore overallScore score].
  rewrite CompositeFacts.weighted_NaN_keywords; split; reflexivity.
Qed.

Lemma description_without_keywords_scores_NaN_witness :
  exists result,
    calculateATSScore Scenarios.noPatterns
      (fun documents d => [ {| term := lit "python"; tfidf := fin 0.9 |} ])
      Scenarios.resumePython
      {| description := lit "Python developer";
         requiredSkills := [];
         preferredSkills := [];
         keywords :=
           extractKeywords
             (fun documents d => [ {| term := lit "python"; tfidf := fin 0.9 |} ])
             (lit "Python developer");
         jobExperience := None |}
    = Some result /\
    keywordScore result = NaN /\ overallScore result = NaN.
Proof.
  apply (description_without_keywords_scores_NaN Scenarios.noPatterns
           (fun documents d => [ {| term := lit "python"; tfidf := fin 0.9 |} ])
           Scenarios.resumePython (lit "Python developer") [] [] None).
  intros item [<-|[]] _; vm_compute; reflexivity.
Defined.

End EngineFacts.

(** ** The analysis of the text: further properties *)

Module AnalysisFacts.
Import JS Num Regex ResumeParser AiAnalysis Notions Facts StringFacts.

(** X11.  The bullet score is 100 exactly when there is no feedback;
    with feedback, of which there are at most six lines, it is at most
    90. *)
Theorem bullet_feedback_and_score (resume : ParsedResume) :
  let quality := analyzeBulletPoints resume in
  (score quality = 100%Z <-> feedback quality = []) /\
  (feedback quality <> [] -> (score quality <= 90)%Z) /\
  length (feedback quality) <= 6.
Proof.
  unfold analyzeBulletPoints, penalize; cbv zeta; cbn [score feedback].
  generalize (join [newline] (experience resume)); intros content.
  repeat match goal with
         | |- context [lit ?s] => generalize (lit s); intro
         end.
  generalize (length (matchAll bulletRegex content) <? 3),
    (test actionRegex content), (test resultRegex content),
    (test contextRegex content),
    (0 <? length (filter (fun l => 150 <? length l) (bulletLines content))),
    (gt (ofNat (length (filter (fun l => length l <? 30)
                               (bulletLines content))))
        (div (ofNat (length (bulletLines content))) (Fin 2))).
  intros [] [] [] [] [] []; cbn [fst snd app length negb];
    (split; [split; intros H; try reflexivity; try discriminate H
            | split; [intros H; try (now contradiction H);
                      vm_compute; discriminate
                     | simpl; lia]]).
Qed.

(** X12.  The language score is between 40 and 100, so that its floor at 0
    never applies; it is 100 exactly when there is no feedback, of which
    there are at most five lines. *)
Theorem language_score_at_least_40
    (tokenize : jsstring -> list jsstring)
    (getSentiment : list jsstring -> number)
    (resume : ParsedResume) :
  let quality := analyzeLanguageQuality tokenize getSentiment resume in
  (40 <= score quality <= 100)%Z /\
  (score quality = 100%Z <-> feedback quality = []) /\
  length (feedback quality) <= 5.
Proof.
  unfold analyzeLanguageQuality, penalizeWith; cbv zeta; cbn [score feedback].
  generalize replaceCliches; intros cliche.
  repeat match goal with
         | |- context [lit ?s] => generalize (lit s); intro
         end.
  generalize (5 <? length (matchAll passiveIndicators (content resume))),
    (3 <? length (matchAll firstPersonRegex (content resume))),
    (gt (ofNat (length (matchAll complexWordRegex (content resume))))
        (mul (ofNat (length (split sentenceEnd (content resume)))) (fin 0.3))),
    (2 <? length (filter
                    (fun c => includes (toLowerCase (content resume)) c)
                    cliches)),
    (lt (getSentiment (tokenize (toLowerCase (content resume)))) (fin (-0.5))).
  intros [] [] [] [] []; cbn;
    (split; [lia | split; [split; intros H; try reflexivity;
                           try discriminate H; try lia | lia]]).
Qed.

Lemma addIf_length (cond : bool) (items target : list jsstring) :
  length (addIf cond items target) <= length target + length items.
Proof. unfold addIf; destruct cond; rewrite ?length_app; lia. Qed.

Lemma firstn_short {A} (n : nat) (l : list A) :
  length l <= n -> firstn n l = l.
Proof. apply firstn_all2. Qed.

(** X13.  There are at most nine improvements, so that the cut at ten
    drops nothing.  When skills are missing, the first improvement is the
    one that names up to three of them; and without quantifiable results,
    the first two suggestions of the impact analysis are among the
    improvements. *)
Theorem improvements_at_most_nine
    (resume : ParsedResume) (atsScore : AtsEngine.ATSScoreResult)
    (bulletQuality languageQuality : BulletPointQuality)
    (impactAnalysis : ImpactAnalysis) :
  let improvements :=
    generateImprovements resume atsScore bulletQuality languageQuality
                         impactAnalysis in
  length improvements <= 9 /\
  (AtsEngine.missingSkills atsScore <> [] ->
   hd_error improvements
   = Some (lit "HIGH PRIORITY: Add these missing skills - "
           ++ join (lit ", ") (firstn 3 (AtsEngine.missingSkills atsScore)))) /\
  (hasQuantifiableResults impactAnalysis = false ->
   incl (firstn 2 (suggestions impactAnalysis)) improvements).
Proof.
  unfold generateImprovements; cbv zeta.
  set (high := lit "HIGH PRIORITY: Add these missing skills - " ++ _).
  set (critical := lit "Add critical keywords: " ++ _).
  set (formatting :=
         lit "Improve resume formatting for better ATS compatibility").
  pose proof (firstn_le_length 2 (feedback bulletQuality)) as Hb.
  pose proof (firstn_le_length 2 (feedback languageQuality)) as Hl.
  pose proof (firstn_le_length 2 (suggestions impactAnalysis)) as Hi.
  revert Hb Hl Hi.
  generalize (firstn 2 (feedback bulletQuality)),
    (firstn 2 (feedback languageQuality)),
    (firstn 2 (suggestions impactAnalysis)).
  intros fb fl fi Hb Hl Hi.
  match goal with
  | |- context [firstn 10 ?l] =>
      assert (Hlen : length l <= 9);
      [ unfold addIf;
        repeat match goal with
               | |- context [if ?b then _ else _] => destruct b
               end;
        rewrite ?length_app; simpl; lia
      | rewrite (firstn_short 10 l) by lia ]
  end.
  split; [exact Hlen|]; clear Hlen; split.
  - intros Hmissing.
    destruct (AtsEngine.missingSkills atsScore) as [|skill rest];
      [congruence|].
    cbn [length Nat.ltb Nat.leb]; unfold addIf at 6.
    cbn [app]; unfold addIf.
    repeat match goal with
           | |- context [if ?b then _ else _] => destruct b
           end; reflexivity.
  - intros ->; cbn [negb]; unfold addIf at 2.
    intros x Hx.
    destruct (lt (AtsEngine.formattingScore atsScore) (Fin 80)); cbn [addIf];
      rewrite ?in_app_iff; tauto.
Qed.

Lemma improvements_at_most_nine_witness :
  hd_error
    (generateImprovements (Scenarios.parsedText [])
       {| AtsEngine.overallScore := Fin 0;
          AtsEngine.skillsScore := Fin 0;
          AtsEngine.experienceScore := Fin 0;
          AtsEngine.keywordScore := Fin 0;
          AtsEngine.formattingScore := Fin 0;
          AtsEngine.matchedSkills := [];
          AtsEngine.missingSkills := [lit "aws"];
          AtsEngine.matchedKeywords := [];
          AtsEngine.missingKeywords := [];
          AtsEngine.suggestions := [] |}
       (analyzeBulletPoints (Scenarios.parsedText []))
       (analyzeBulletPoints (Scenarios.parsedText []))
       (analyzeImpact (Scenarios.parsedText [])))
  = Some (lit "HIGH PRIORITY: Add these missing skills - aws").
Proof.
  match goal with
  | |- hd_error (generateImprovements ?r ?a ?b ?l ?i) = _ =>
      destruct (improvements_at_most_nine r a b l i) as (_ & H & _)
  end.
  apply H; discriminate.
Defined.


(** *** The metrics *)

Lemma fold_app_In {A B} (f : A -> list B) (x : B) :
  forall (l : list A) (acc : list B),
    In x (fold_left (fun acc a => acc ++ f a) l acc) <->
    In x acc \/ exists a, In a l /\ In x (f a).
Proof.
  induction l as [|a l IH]; intros acc; simpl.
  - split; [tauto | intros [H | (a & [] & _)]; exact H].
  - rewrite IH, in_app_iff; split.
    + intros [[H | H] | (b & Hb & H)]; eauto.
    + intros [H | (b & [<- | Hb] & H)]; eauto.
Qed.

Lemma In_trimStart (s : jsstring) (c : char) :
  In c s -> isWhiteSpace c = false -> In c (trimStart s).
Proof.
  induction s as [|d s IH]; intros Hin Hc; [contradiction|]; simpl.
  destruct (isWhiteSpace d) eqn:Hd; [|exact Hin].
  destruct Hin as [-> | Hin]; [congruence | now apply IH].
Qed.

Lemma In_trim_keeps (s : jsstring) (c : char) :
  In c s -> isWhiteSpace c = false -> In c (trim s).
Proof.
  intros Hin Hc; unfold trim, trimEnd.
  rewrite <- in_rev; apply In_trimStart; [|exact Hc].
  rewrite <- in_rev; now apply In_trimStart.
Qed.

Lemma isDigit_not_space (c : char) :
  isDigit c = true -> isWhiteSpace c = false.
Proof.
  unfold isDigit, in_range; intros H.
  apply andb_true_iff in H; destruct H as [H1 H2].
  apply N.leb_le in H1, H2.
  unfold isWhiteSpace, memc, in_range; cbn [existsb].
  repeat match goal with
         | |- context [(c =? ?n)%N] =>
             replace (c =? n)%N with false by (symmetry; apply N.eqb_neq; lia)
         end.
  replace (8192 <=? c)%N with false by (symmetry; apply N.leb_gt; lia).
  reflexivity.
Qed.

Lemma denotes_plus_digit (m : jsstring) :
  denotes (plus digit) m -> existsb isDigit m = true.
Proof.
  unfold plus, digit; intros D.
  inversion D as [| |r1 r2 m1 m2 D1 D2| | | | | | |]; subst.
  inversion D1; subst; simpl.
  match goal with H : isDigit _ = true |- _ => now rewrite H end.
Qed.

Lemma denotes_amount (m : jsstring) :
  denotes amount m -> existsb isDigit m = true.
Proof.
  unfold amount; intros D.
  apply RegexFacts.denotes_seqs in D; destruct D as (ms & F & ->).
  inversion F as [|r1 m1 rs1 ms1 D1 F1]; subst.
  simpl; rewrite existsb_app, (denotes_plus_digit _ D1); reflexivity.
Qed.

Lemma denotes_metric (pattern : re) (m : jsstring) :
  In pattern metricPatterns -> denotes pattern m -> existsb isDigit m = true.
Proof.
  unfold metricPatterns.
  intros [<- | [<- | [<- | [<- | []]]]] D;
    apply RegexFacts.denotes_seqs in D; destruct D as (ms & F & ->).
  - inversion F as [|r1 m1 rs1 ms1 D1 F1]; subst.
    inversion F1 as [|r2 m2 rs2 ms2 D2 F2]; subst.
    inversion F2 as [|r3 m3 rs3 ms3 D3 F3]; subst.
    inversion F3 as [|r4 m4 rs4 ms4 D4 F4]; subst.
    assert (H4 : existsb isDigit m4 = true).
    { cbn [alts] in D4.
      inversion D4 as [| | |ra rb ma Da|ra rb ma Da| | | | |]; subst.
      - inversion Da as [| |ra rb ma mb Da1 Da2| | | | | | |]; subst.
        now rewrite existsb_app, (denotes_amount _ Da1).
      - inversion Da as [| |ra rb ma mb Da1 Da2| | | | | | |]; subst.
        inversion Da2 as [| |rc rd mc md Dc Dd| | | | | | |]; subst.
        rewrite !existsb_app, (denotes_plus_digit _ Dc).
        now rewrite orb_true_r. }
    simpl; rewrite !existsb_app, H4, ?orb_true_r; reflexivity.
  - inversion F as [|r1 m1 rs1 ms1 D1 F1]; subst.
    simpl; rewrite existsb_app, (denotes_amount _ D1); reflexivity.
  - inversion F as [|r1 m1 rs1 ms1 D1 F1]; subst.
    inversion F1 as [|r2 m2 rs2 ms2 D2 F2]; subst.
    simpl; rewrite !existsb_app, (denotes_amount _ D2), ?orb_true_r.
    reflexivity.
  - inversion F as [|r1 m1 rs1 ms1 D1 F1]; subst.
    inversion F1 as [|r2 m2 rs2 ms2 D2 F2]; subst.
    inversion F2 as [|r3 m3 rs3 ms3 D3 F3]; subst.
    simpl; rewrite !existsb_app, (denotes_plus_digit _ D3), ?orb_true_r.
    reflexivity.
Qed.

(** X14.  The metrics extracted from a text are pairwise different; each
    one occurs in the text and contains a digit. *)
Theorem extractMetrics_sound (content : jsstring) :
  NoDup (extractMetrics content) /\
  Forall (fun metric =>
            includes content metric = true /\
            existsb isDigit metric = true)
         (extractMetrics content).
Proof.
  unfold extractMetrics; split; [apply fold_setAdd_NoDup; constructor|].
  apply Forall_forall; intros metric Hin.
  apply fold_setAdd_In in Hin; destruct Hin as [[] | Hin].
  apply fold_app_In in Hin; destruct Hin as [[] | (pattern & Hp & Hin)].
  apply in_map_iff in Hin; destruct Hin as (m & <- & Hm).
  apply RegexFacts.matchAll_sound in Hm; destruct Hm as [D Hsub].
  split.
  - apply (includes_trans _ m); [exact Hsub | apply trim_includes].
  - apply (denotes_metric _ _ Hp) in D.
    apply existsb_exists in D; destruct D as (c & Hc & Hd).
    apply existsb_exists; exists c; split; [|exact Hd].
    apply In_trim_keeps; [exact Hc | now apply isDigit_not_space].
Qed.


(** *** Strengths and weaknesses *)

(** A chain of conditional pushes selects by the conditions. *)
Lemma addIf_chain (keep : list bool) (l acc : list jsstring) :
  fold_left (fun acc p => addIf (fst p) [snd p] acc) (combine keep l) acc
  = acc ++ mask keep l.
Proof.
  revert l acc; induction keep as [|b keep IH]; intros [|x l] acc;
    cbn [combine fold_left mask]; try (now rewrite app_nil_r).
  rewrite IH; unfold addIf; cbn [fst snd]; destruct b;
    [now rewrite <- app_assoc | reflexivity].
Qed.

Lemma identifyStrengths_mask (resume : ParsedResume)
    (atsScore : AtsEngine.ATSScoreResult) :
  identifyStrengths resume atsScore
  = mask
      [ 10 <=? length (skills resume);
        ge (AtsEngine.overallScore atsScore) (Fin 80);
        ge (AtsEngine.skillsScore atsScore) (Fin 85);
        ge (AtsEngine.keywordScore atsScore) (Fin 80);
        3 <=? length (experience resume);
        2 <=? length (projects resume);
        10 <=? countActionVerbs (content resume);
        3 <=? length (extractMetrics (content resume)) ]
      (allStrengths (length (skills resume))
                    (countActionVerbs (content resume))).
Proof.
  exact (addIf_chain
           [ 10 <=? length (skills resume);
             ge (AtsEngine.overallScore atsScore) (Fin 80);
             ge (AtsEngine.skillsScore atsScore) (Fin 85);
             ge (AtsEngine.keywordScore atsScore) (Fin 80);
             3 <=? length (experience resume);
             2 <=? length (projects resume);
             10 <=? countActionVerbs (content resume);
             3 <=? length (extractMetrics (content resume)) ]
           (allStrengths (length (skills resume))
                         (countActionVerbs (content resume))) []).
Qed.

Lemma identifyWeaknesses_mask (resume : ParsedResume)
    (atsScore : AtsEngine.ATSScoreResult) :
  identifyWeaknesses resume atsScore
  = mask
      [ lt (AtsEngine.overallScore atsScore) (Fin 60);
        lt (AtsEngine.skillsScore atsScore) (Fin 60);
        lt (AtsEngine.keywordScore atsScore) (Fin 50);
        length (skills resume) <? 5;
        length (experience resume) =? 0;
        length (education resume) =? 0;
        length (projects resume) =? 0;
        countActionVerbs (content resume) <? 5;
        length (extractMetrics (content resume)) <? 2;
        length (content resume) <? 800;
        5000 <? length (content resume) ]
      allWeaknesses.
Proof.
  exact (addIf_chain
           [ lt (AtsEngine.overallScore atsScore) (Fin 60);
             lt (AtsEngine.skillsScore atsScore) (Fin 60);
             lt (AtsEngine.keywordScore atsScore) (Fin 50);
             length (skills resume) <? 5;
             length (experience resume) =? 0;
             length (education resume) =? 0;
             length (projects resume) =? 0;
             countActionVerbs (content resume) <? 5;
             length (extractMetrics (content resume)) <? 2;
             length (content resume) <? 800;
             5000 <? length (content resume) ]
           allWeaknesses []).
Qed.

Lemma allStrengths_NoDup (skillCount verbCount : nat) :
  NoDup (allStrengths skillCount verbCount).
Proof.
  apply (NoDup_map_inv (firstn 13)).
  vm_compute.
  repeat (constructor;
          [intros H; repeat (destruct H as [H | H]; [discriminate H|]);
           exact H|]).
  constructor.
Qed.

Lemma allWeaknesses_NoDup : NoDup allWeaknesses.
Proof.
  apply (NoDup_map_inv (firstn 9)).
  vm_compute.
  repeat (constructor;
          [intros H; repeat (destruct H as [H | H]; [discriminate H|]);
           exact H|]).
  constructor.
Qed.

(** An element of a list without duplicates is selected only by its own
    flag. *)
Lemma mask_selects {A : Type} (keep : list bool) (l : list A) (i : nat)
    (x : A) :
  NoDup l -> nth_error l i = Some x -> In x (mask keep l) ->
  nth i keep false = true.
Proof.
  intros ND Hi Hin.
  apply EngineFacts.mask_In_nth in Hin; destruct Hin as (j & Hj & Hkeep).
  assert (j = i) as ->; [|now apply nth_error_nth].
  apply (proj1 (NoDup_nth_error _) ND);
    [apply nth_error_Some; congruence | congruence].
Qed.

Lemma ge_not_lt (a : number) (high low : Q) :
  (low <= high)%Q -> ge a (Fin high) = true -> lt a (Fin low) = false.
Proof.
  destruct a as [x| | |]; cbn [lt ge]; try reflexivity; try discriminate.
  intros Hle H; apply Qle_bool_iff in H.
  apply negb_false_iff, Qle_bool_iff; lra.
Qed.

(** X15.  The strengths and the weaknesses do not contradict each other:
    the resume is not both praised and blamed for its ATS score, its skills
    match, its keywords, its experience, its projects or its metrics. *)
Theorem strengths_and_weaknesses_agree
    (resume : ParsedResume) (atsScore : AtsEngine.ATSScoreResult) :
  let strengths := identifyStrengths resume atsScore in
  let weaknesses := identifyWeaknesses resume atsScore in
  ~ (In (lit "Excellent ATS compatibility - highly likely to pass automated screening")
        strengths /\
     In (lit "Low ATS score may result in automatic rejection") weaknesses) /\
  ~ (In (lit "Strong skills alignment with job requirements") strengths /\
     In (lit "Insufficient skills match with job requirements") weaknesses) /\
  ~ (In (lit "Excellent keyword optimization") strengths /\
     In (lit "Missing critical keywords from job description") weaknesses) /\
  ~ (In (lit "Comprehensive work experience documentation") strengths /\
     In (lit "No work experience section detected") weaknesses) /\
  ~ (In (lit "Strong project portfolio demonstrates practical experience")
        strengths /\
     In (lit "No projects section - consider adding relevant projects")
        weaknesses) /\
  ~ (In (lit "Good use of quantifiable metrics and results") strengths /\
     In (lit "Few quantifiable achievements - add specific numbers, percentages, or metrics")
        weaknesses).
Proof.
  cbv zeta; rewrite identifyStrengths_mask, identifyWeaknesses_mask.
  pose proof (allStrengths_NoDup (length (skills resume))
                (countActionVerbs (content resume))) as NS.
  pose proof allWeaknesses_NoDup as NW.
  repeat split; intros [Hs Hw].
  - apply (mask_selects _ _ 1 _ NS eq_refl) in Hs; cbn [nth] in Hs.
    apply (mask_selects _ _ 0 _ NW eq_refl) in Hw; cbn [nth] in Hw.
    rewrite (ge_not_lt _ 80 60) in Hw; [discriminate | lra | exact Hs].
  - apply (mask_selects _ _ 2 _ NS eq_refl) in Hs; cbn [nth] in Hs.
    apply (mask_selects _ _ 1 _ NW eq_refl) in Hw; cbn [nth] in Hw.
    rewrite (ge_not_lt _ 85 60) in Hw; [discriminate | lra | exact Hs].
  - apply (mask_selects _ _ 3 _ NS eq_refl) in Hs; cbn [nth] in Hs.
    apply (mask_selects _ _ 2 _ NW eq_refl) in Hw; cbn [nth] in Hw.
    rewrite (ge_not_lt _ 80 50) in Hw; [discriminate | lra | exact Hs].
  - apply (mask_selects _ _ 4 _ NS eq_refl) in Hs; cbn [nth] in Hs.
    apply (mask_selects _ _ 4 _ NW eq_refl) in Hw; cbn [nth] in Hw.
    apply Nat.leb_le in Hs; apply Nat.eqb_eq in Hw; lia.
  - apply (mask_selects _ _ 5 _ NS eq_refl) in Hs; cbn [nth] in Hs.
    apply (mask_selects _ _ 6 _ NW eq_refl) in Hw; cbn [nth] in Hw.
    apply Nat.leb_le in Hs; apply Nat.eqb_eq in Hw; lia.
  - apply (mask_selects _ _ 7 _ NS eq_refl) in Hs; cbn [nth] in Hs.
    apply (mask_selects _ _ 8 _ NW eq_refl) in Hw; cbn [nth] in Hw.
    apply Nat.leb_le in Hs; apply Nat.ltb_lt in Hw; lia.
Qed.

(** X16.  A score that is not a number is neither praised nor blamed: when
    the overall score and the keyword score are NaN, as they are for a job
    description without keywords, the weaknesses mention neither a low ATS
    score nor missing keywords. *)
Theorem NaN_scores_pass_unnoticed
    (resume : ParsedResume) (atsScore : AtsEngine.ATSScoreResult) :
  AtsEngine.overallScore atsScore = NaN ->
  AtsEngine.keywordScore atsScore = NaN ->
  ~ In (lit "Low ATS score may result in automatic rejection")
       (identifyWeaknesses resume atsScore) /\
  ~ In (lit "Missing critical keywords from job description")
       (identifyWeaknesses resume atsScore) /\
  ~ In (lit "Excellent ATS compatibility - highly likely to pass automated screening")
       (identifyStrengths resume atsScore) /\
  ~ In (lit "Excellent keyword optimization")
       (identifyStrengths resume atsScore).
Proof.
  intros Ho Hk; rewrite identifyStrengths_mask, identifyWeaknesses_mask.
  rewrite Ho, Hk; cbn [lt ge].
  pose proof (allStrengths_NoDup (length (skills resume))
                (countActionVerbs (content resume))) as NS.
  pose proof allWeaknesses_NoDup as NW.
  repeat split; intros H.
  - apply (mask_selects _ _ 0 _ NW eq_refl) in H; discriminate H.
  - apply (mask_selects _ _ 2 _ NW eq_refl) in H; discriminate.
  - apply (mask_selects _ _ 1 _ NS eq_refl) in H; discriminate.
  - apply (mask_selects _ _ 3 _ NS eq_refl) in H; discriminate.
Qed.

Lemma NaN_scores_pass_unnoticed_witness :
  exists result,
    AtsEngine.calculateATSScore Scenarios.noPatterns Scenarios.noTerms
      Scenarios.resumePython (Scenarios.job [] [] []) = Some result /\
    ~ In (lit "Low ATS score may result in automatic rejection")
         (identifyWeaknesses (Scenarios.parsedText (lit "Python services"))
                             result) /\
    ~ In (lit "Missing critical keywords from job description")
         (identifyWeaknesses (Scenarios.parsedText (lit "Python services"))
                             result).
Proof.
  eexists; split; [vm_compute; reflexivity|].
  match goal with
  | |- ~ In _ (identifyWeaknesses ?resume ?result) /\ _ =>
      destruct (NaN_scores_pass_unnoticed resume result eq_refl eq_refl)
        as (H1 & H2 & _)
  end.
  split; [exact H1 | exact H2].
Defined.


(** *** The whole analysis *)

(** The improvements before the cut at ten, which drops nothing. *)
Lemma generateImprovements_all
    (resume : ParsedResume) (atsScore : AtsEngine.ATSScoreResult)
    (bulletQuality languageQuality : BulletPointQuality)
    (impactAnalysis : ImpactAnalysis) :
  generateImprovements resume atsScore bulletQuality languageQuality
                       impactAnalysis
  = (if 0 <? length (AtsEngine.missingSkills atsScore)
     then [lit "HIGH PRIORITY: Add these missing skills - "
           ++ join (lit ", ") (firstn 3 (AtsEngine.missingSkills atsScore))]
     else [])
    ++ (if 0 <? length (AtsEngine.missingKeywords atsScore)
        then [lit "Add critical keywords: "
              ++ join (lit ", ")
                      (firstn 3 (AtsEngine.missingKeywords atsScore))]
        else [])
    ++ (if (score bulletQuality <? 70)%Z
        then firstn 2 (feedback bulletQuality) else [])
    ++ (if (score languageQuality <? 70)%Z
        then firstn 2 (feedback languageQuality) else [])
    ++ (if negb (hasQuantifiableResults impactAnalysis)
        then firstn 2 (suggestions impactAnalysis) else [])
    ++ (if lt (AtsEngine.formattingScore atsScore) (Fin 80)
        then [lit "Improve resume formatting for better ATS compatibility"]
        else []).
Proof.
  unfold generateImprovements; cbv zeta.
  pose proof (firstn_le_length 2 (feedback bulletQuality)) as Hb.
  pose proof (firstn_le_length 2 (feedback languageQuality)) as Hl.
  pose proof (firstn_le_length 2 (suggestions impactAnalysis)) as Hi.
  revert Hb Hl Hi.
  generalize (firstn 2 (feedback bulletQuality)),
    (firstn 2 (feedback languageQuality)),
    (firstn 2 (suggestions impactAnalysis)).
  intros fb fl fi Hb Hl Hi.
  repeat match goal with
         | |- context [lit ?s] => generalize (lit s); intro
         end.
  rewrite firstn_short.
  - unfold addIf;
      repeat match goal with
             | |- context [if ?b then _ else _] => destruct b
             end;
      cbn [app]; rewrite <- ?app_assoc, ?app_nil_r; reflexivity.
  - unfold addIf;
      repeat match goal with
             | |- context [if ?b then _ else _] => destruct b
             end;
      rewrite ?length_app; simpl; lia.
Qed.

Lemma bullet_feedback_nonempty (resume : ParsedResume) :
  (score (analyzeBulletPoints resume) < 100)%Z ->
  feedback (analyzeBulletPoints resume) <> [].
Proof.
  unfold analyzeBulletPoints, penalize; cbv zeta; cbn [score feedback].
  generalize (join [newline] (experience resume)); intros content.
  repeat match goal with
         | |- context [lit ?s] => generalize (lit s); intro
         end.
  repeat match goal with
         | |- context [if ?b then _ else _] => destruct b
         end;
    cbn [fst snd app]; intros H; try (intros E; discriminate E).
  vm_compute in H; discriminate H.
Qed.

Lemma language_feedback_nonempty
    (tokenize : jsstring -> list jsstring)
    (getSentiment : list jsstring -> number)
    (resume : ParsedResume) :
  (score (analyzeLanguageQuality tokenize getSentiment resume) < 100)%Z ->
  feedback (analyzeLanguageQuality tokenize getSentiment resume) <> [].
Proof.
  unfold analyzeLanguageQuality, penalizeWith; cbv zeta; cbn [score feedback].
  generalize replaceCliches; intros cliche.
  repeat match goal with
         | |- context [lit ?s] => generalize (lit s); intro
         end.
  repeat match goal with
         | |- context [if ?b then _ else _] => destruct b
         end;
    cbn [fst snd app]; intros H; try (intros E; discriminate E).
  vm_compute in H; discriminate H.
Qed.

Lemma hd_in_firstn_2 (l : list jsstring) :
  l <> [] -> exists x, In x l /\ In x (firstn 2 l).
Proof.
  destruct l as [|x l]; [congruence|]; intros _.
  exists x; split; now left.
Qed.

(** X17.  The improvements of the whole analysis take up the advice of its
    parts: with a bullet score or a language score below 70 they hold a
    line of the respective feedback, and without quantifiable results they
    hold a suggestion of the impact analysis. *)
Theorem analysis_improvements_take_up_advice
    (tokenize : jsstring -> list jsstring)
    (getSentiment : list jsstring -> number)
    (resume : ParsedResume) (atsScore : AtsEngine.ATSScoreResult) :
  let result := analyzeResumeWithAI tokenize getSentiment resume atsScore in
  ((score (bulletPointQuality result) < 70)%Z ->
   exists advice,
     In advice (feedback (bulletPointQuality result)) /\
     In advice (improvements result)) /\
  ((score (languageQuality result) < 70)%Z ->
   exists advice,
     In advice (feedback (languageQuality result)) /\
     In advice (improvements result)) /\
  (hasQuantifiableResults (impactAnalysis result) = false ->
   exists advice,
     In advice (suggestions (impactAnalysis result)) /\
     In advice (improvements result)).
Proof.
  cbv zeta; unfold analyzeResumeWithAI.
  cbn [bulletPointQuality languageQuality impactAnalysis improvements].
  rewrite generateImprovements_all.
  split; [|split].
  - intros Hlow.
    destruct (hd_in_firstn_2 (feedback (analyzeBulletPoints resume)))
      as (advice & Hin & Hfirst); [apply bullet_feedback_nonempty; lia|].
    exists advice; split; [exact Hin|].
    apply Z.ltb_lt in Hlow; rewrite Hlow.
    rewrite !in_app_iff; tauto.
  - intros Hlow.
    destruct (hd_in_firstn_2
                (feedback (analyzeLanguageQuality tokenize getSentiment resume)))
      as (advice & Hin & Hfirst); [apply language_feedback_nonempty; lia|].
    exists advice; split; [exact Hin|].
    apply Z.ltb_lt in Hlow; rewrite Hlow.
    rewrite !in_app_iff; tauto.
  - intros Hnone; rewrite Hnone; cbn [negb].
    destruct (hd_in_firstn_2 (suggestions (analyzeImpact resume)))
      as (advice & Hin & Hfirst).
    { unfold analyzeImpact in *; cbn [suggestions hasQuantifiableResults] in *.
      destruct (length (extractMetrics (content resume))) as [|[|n]];
        [discriminate | discriminate | discriminate Hnone]. }
    exists advice; split; [exact Hin|].
    rewrite !in_app_iff; tauto.
Qed.

Lemma analysis_improvements_take_up_advice_witness :
  exists advice,
    In advice
       (suggestions
          (impactAnalysis
             (analyzeResumeWithAI (fun text => []) (fun tokens => Fin 0)
                (Scenarios.parsedText (lit "Python services"))
                {| AtsEngine.overallScore := Fin 50;
                   AtsEngine.skillsScore := Fin 50;
                   AtsEngine.experienceScore := Fin 50;
                   AtsEngine.keywordScore := Fin 50;
                   AtsEngine.formattingScore := Fin 50;
                   AtsEngine.matchedSkills := [];
                   AtsEngine.missingSkills := [];
                   AtsEngine.matchedKeywords := [];
                   AtsEngine.missingKeywords := [];
                   AtsEngine.suggestions := [] |}))) /\
    In advice
       (improvements
          (analyzeResumeWithAI (fun text => []) (fun tokens => Fin 0)
             (Scenarios.parsedText (lit "Python services"))
             {| AtsEngine.overallScore := Fin 50;
                AtsEngine.skillsScore := Fin 50;
                AtsEngine.experienceScore := Fin 50;
                AtsEngine.keywordScore := Fin 50;
                AtsEngine.formattingScore := Fin 50;
                AtsEngine.matchedSkills := [];
                AtsEngine.missingSkills := [];
                AtsEngine.matchedKeywords := [];
                AtsEngine.missingKeywords := [];
                AtsEngine.suggestions := [] |})).
Proof.
  match goal with
  | |- exists advice,
         In advice (suggestions (impactAnalysis
                      (analyzeResumeWithAI ?t ?g ?r ?a))) /\ _ =>
      destruct (analysis_improvements_take_up_advice t g r a) as (_ & _ & H)
  end.
  apply H; vm_compute; reflexivity.
Defined.


(** *** The action verbs *)

Lemma lowerChar_idempotent (c : char) : lowerChar (lowerChar c) = lowerChar c.
Proof.
  pose proof (lowerChar_cases c) as H1.
  pose proof (lowerChar_cases (lowerChar c)) as H2.
  revert H1 H2; generalize (lowerChar (lowerChar c)), (lowerChar c).
  intros x y; lia.
Qed.

Lemma toLowerCase_idempotent (s : jsstring) :
  toLowerCase (toLowerCase s) = toLowerCase s.
Proof.
  unfold toLowerCase; rewrite map_map; apply map_ext, lowerChar_idempotent.
Qed.

Lemma fold_count_zero {A} (f : A -> nat) (l : list A) :
  (forall a, In a l -> f a = 0) ->
  fold_left (fun count a => count + f a) l 0 = 0.
Proof.
  induction l as [|a l IH]; intros H; [reflexivity|]; cbn [fold_left].
  rewrite (H a (or_introl eq_refl)); apply IH.
  intros b Hb; apply H; now right.
Qed.

(** X18.  Only verbs that occur in the lower-cased text are counted: when
    none of the action verbs occurs in it, the count is 0. *)
Theorem countActionVerbs_needs_a_verb (content : jsstring) :
  forallb (fun verb => negb (includes (toLowerCase content) verb))
          actionVerbs = true ->
  countActionVerbs content = 0.
Proof.
  intros Hnone; rewrite forallb_forall in Hnone.
  unfold countActionVerbs.
  apply (fold_count_zero
           (fun verb => length (matchAll (verbRegExp verb)
                                         (toLowerCase content)))).
  intros verb Hverb.
  destruct (matchAll (verbRegExp verb) (toLowerCase content))
    as [|found rest] eqn:E; [reflexivity | exfalso].
  destruct (RegexFacts.matchAll_sound (verbRegExp verb) (toLowerCase content)
              found) as [D Hsub]; [rewrite E; now left|].
  apply EngineFacts.denotes_keywordPattern in D.
  assert (Hascii : forallb
                     (forallb (fun d => (d <? 128)%N && negb (isUpperAZ d)))
                     actionVerbs = true) by (vm_compute; reflexivity).
  rewrite forallb_forall in Hascii; specialize (Hascii verb Hverb).
  apply (canon_lower_text verb found Hascii) in D.
  apply (includes_map lowerChar) in Hsub.
  fold (toLowerCase (toLowerCase content)) in Hsub.
  fold (toLowerCase found) in Hsub.
  rewrite toLowerCase_idempotent, D in Hsub.
  specialize (Hnone verb Hverb); rewrite Hsub in Hnone; discriminate.
Qed.

Lemma countActionVerbs_needs_a_verb_witness :
  countActionVerbs (lit "Python services") = 0.
Proof.
  apply countActionVerbs_needs_a_verb; vm_compute; reflexivity.
Defined.

End AnalysisFacts.

(** ** The parser of pasted text: further properties *)

Module ParserExtras.
Import JS Regex ResumeParser Notions Facts StringFacts.

(** *** Splitting and replacing *)

(** The pieces of a split hold no separator; the first piece opens the
    subject and the others occur in what follows it. *)
Lemma splitOn_pieces (p : char -> bool) (s : jsstring) :
  exists w ws rest,
    splitOn p s = w :: ws /\ s = w ++ rest /\
    forallb (fun c => negb (p c)) w = true /\
    (forall x, In x ws ->
       includes rest x = true /\ forallb (fun c => negb (p c)) x = true).
Proof.
  induction s as [|c s (w & ws & rest & E & Es & Hw & Hws)].
  - exists [], [], []; repeat split; contradiction.
  - cbn [splitOn]; rewrite E; destruct (p c) eqn:Hp.
    + exists [], (w :: ws), (c :: s).
      split; [reflexivity | split; [reflexivity | split; [reflexivity|]]].
      intros x [<- | H]; (split; [apply RegexFacts.includes_cons; subst s|]).
      * apply includes_spec; now exists [], rest.
      * exact Hw.
      * apply (includes_trans _ rest); [|now apply Hws].
        apply includes_spec; exists w, []; now rewrite app_nil_r.
      * now apply Hws.
    + exists (c :: w), ws, rest; subst s.
      split; [reflexivity | split; [reflexivity | split; [|exact Hws]]].
      cbn [forallb]; now rewrite Hp, Hw.
Qed.

Lemma splitOn_In (p : char -> bool) (s x : jsstring) :
  In x (splitOn p s) ->
  includes s x = true /\ forallb (fun c => negb (p c)) x = true.
Proof.
  destruct (splitOn_pieces p s) as (w & ws & rest & E & Es & Hw & Hws).
  rewrite E; intros [<- | H].
  - split; [|exact Hw]. apply includes_spec; now exists [], rest.
  - split; [|now apply Hws].
    apply (includes_trans _ rest); [|now apply Hws].
    apply includes_spec; exists w, []; now rewrite app_nil_r.
Qed.

Lemma replaceFrom_chars (r : re) (repl : jsstring) (c : char) :
  forall s skip prev,
    In c (replaceFrom r repl skip prev s) -> In c repl \/ In c s.
Proof.
  induction s as [|d s IH]; intros skip prev H.
  - destruct skip; cbn [replaceFrom] in H; [|contradiction].
    destruct (execAt r prev []); [|contradiction].
    rewrite app_nil_r in H; now left.
  - destruct skip; cbn [replaceFrom] in H.
    + destruct (execAt r prev (d :: s)) as [len|].
      * rewrite !in_app_iff in H; destruct H as [H | [H | H]];
          [now left | | apply IH in H; simpl; tauto].
        destruct (len =? 0); [|contradiction].
        destruct H as [<- | []]; right; now left.
      * destruct H as [<- | H]; [right; now left|].
        apply IH in H; simpl; tauto.
    + apply IH in H; simpl; tauto.
Qed.

Lemma In_skipn {A} (n : nat) (l : list A) (x : A) :
  In x (skipn n l) -> In x l.
Proof.
  revert l; induction n as [|n IH]; intros [|y l]; simpl; try tauto.
  intros H; right; now apply IH.
Qed.

Lemma replaceFirstFrom_chars (r : re) (repl : jsstring) (c : char) :
  forall s prev,
    In c (replaceFirstFrom r repl prev s) -> In c repl \/ In c s.
Proof.
  induction s as [|d s IH]; intros prev H; cbn [replaceFirstFrom] in H.
  - destruct (execAt r prev []); [|contradiction].
    apply in_app_iff in H; destruct H as [H | H];
      [now left | right; now apply In_skipn in H].
  - destruct (execAt r prev (d :: s)).
    + apply in_app_iff in H; destruct H as [H | H];
        [now left | right; now apply In_skipn in H].
    + destruct H as [<- | H]; [right; now left|].
      apply IH in H; simpl; tauto.
Qed.

(** A greedy repetition followed by nothing always matches. *)
Lemma star_matches (r : re) (prev : option char) (s : jsstring) :
  exists out,
    run (Star true r) prev s (fun _ s' => Some s') = Some out /\
    length out <= length s.
Proof.
  assert (H : exists out,
             run (Star true r) prev s (fun _ s' => Some s') = Some out).
  { cbn [run]; destruct (length s) as [|n]; [now exists s|].
    match goal with
    | |- context [match ?x with Some _ => _ | None => _ end] => destruct x
    end; eauto. }
  destruct H as (out & H); exists out; split; [exact H|].
  apply RegexFacts.run_sound in H.
  destruct H as (m & _ & s' & -> & _ & [= ->]).
  rewrite length_app; lia.
Qed.

(** [\s+] matches at a position exactly when a white space is there. *)
Lemma execAt_spaces (prev : option char) (c : char) (s : jsstring) :
  if isWhiteSpace c
  then exists len, execAt (plus ws) prev (c :: s) = Some (S len)
  else execAt (plus ws) prev (c :: s) = None.
Proof.
  unfold execAt, plus, ws; cbn [run].
  destruct (isWhiteSpace c); [|reflexivity].
  destruct (star_matches (Chr isWhiteSpace) (Some c) s) as (out & E & Hlen).
  cbn [run] in E; rewrite E.
  exists (length s - length out); f_equal; cbn [length]; lia.
Qed.

(** After [replace(/\s+/g, ' ')] every white space is a space. *)
Lemma replaceFrom_spaces (c : char) :
  forall s skip prev,
    In c (replaceFrom (plus ws) (lit " ") skip prev s) ->
    isWhiteSpace c = true -> c = 32%N.
Proof.
  induction s as [|d s IH]; intros skip prev H Hc.
  - destruct skip; cbn [replaceFrom] in H; [|contradiction].
    unfold execAt, plus, ws in H; cbn [run] in H; contradiction.
  - destruct skip; cbn [replaceFrom] in H; [|now apply IH in H].
    pose proof (execAt_spaces prev d s) as E.
    destruct (isWhiteSpace d) eqn:Hd.
    + destruct E as (len & E); rewrite E in H.
      cbn [Nat.eqb app] in H.
      destruct H as [<- | H]; [reflexivity | now apply IH in H].
    + rewrite E in H; destruct H as [<- | H]; [congruence | now apply IH in H].
Qed.


(** *** The skills *)

Lemma fold_push_In {A} (f : A -> jsstring) (g : A -> bool) (x : jsstring) :
  forall (l : list A) (acc : list jsstring),
    In x (fold_left (fun acc a => if g a then acc ++ [f a] else acc) l acc) ->
    In x acc \/ exists a, In a l /\ g a = true /\ x = f a.
Proof.
  induction l as [|a l IH]; intros acc H; [now left|].
  cbn [fold_left] in H; apply IH in H.
  destruct H as [H | (b & Hb & Hg & ->)].
  - destruct (g a) eqn:Hg; [|now left].
    apply in_app_iff in H; destruct H as [H | [<- | []]]; [now left|].
    right; exists a; repeat split; [now left | exact Hg].
  - right; exists b; repeat split; [now right | exact Hg].
Qed.

(** A skill of a text block is a cleaned piece of the right length. *)
Lemma extractSkillsFromText_In (text skill : jsstring) :
  In skill (extractSkillsFromText text) ->
  exists part,
    In part (splitOn isDelimiter text) /\
    skill = replaceAll (plus ws) (lit " ")
              (replaceFirst (seqs [Bol false; Chr isBulletMark; star ws]) []
                 (trim part)) /\
    (1 <? length skill) && (length skill <? 50) = true.
Proof.
  unfold extractSkillsFromText; intros H.
  apply (fold_push_In
           (fun part =>
              replaceAll (plus ws) (lit " ")
                (replaceFirst (seqs [Bol false; Chr isBulletMark; star ws]) []
                   (trim part)))
           (fun part =>
              let cleaned :=
                replaceAll (plus ws) (lit " ")
                  (replaceFirst (seqs [Bol false; Chr isBulletMark; star ws])
                     [] (trim part)) in
              (1 <? length cleaned) && (length cleaned <? 50))) in H.
  destruct H as [[] | (part & Hin & Hlen & ->)].
  exists part; repeat split; [exact Hin | exact Hlen].
Qed.

(** X19.  A skill taken from a text block has 2 to 49 code units, holds
    none of the delimiters , ; | bullet and line feed, and no white space
    other than the space. *)
Theorem extractSkillsFromText_clean (text : jsstring) :
  Forall
    (fun skill =>
       1 < length skill < 50 /\
       forallb (fun c => negb (isDelimiter c)
                         && (negb (isWhiteSpace c) || (c =? 32)%N))
               skill = true)
    (extractSkillsFromText text).
Proof.
  apply Forall_forall; intros skill Hin.
  apply extractSkillsFromText_In in Hin.
  destruct Hin as (part & Hpart & E & Hlen).
  apply andb_true_iff in Hlen; destruct Hlen as [H1 H2].
  apply Nat.ltb_lt in H1, H2; split; [lia|].
  apply forallb_forall; intros c Hc; rewrite E in Hc.
  apply andb_true_iff; split.
  - apply replaceFrom_chars in Hc; destruct Hc as [[<- | []] | Hc];
      [reflexivity|].
    apply replaceFirstFrom_chars in Hc; destruct Hc as [[] | Hc].
    apply In_trim in Hc.
    apply splitOn_In in Hpart; destruct Hpart as [_ Hfree].
    rewrite forallb_forall in Hfree; now apply Hfree.
  - destruct (isWhiteSpace c) eqn:Hw; [|reflexivity].
    apply replaceFrom_spaces in Hc; [|exact Hw].
    subst c; reflexivity.
Qed.

Lemma fold_left_preserves {A B} (P : B -> Prop) (g : B -> A -> B)
    (l : list A) :
  (forall acc a, In a l -> P acc -> P (g acc a)) ->
  forall acc, P acc -> P (fold_left g l acc).
Proof.
  induction l as [|a l IH]; intros Hstep acc Hacc; [exact Hacc|].
  cbn [fold_left]; apply IH.
  - intros acc' b Hb; apply Hstep; now right.
  - apply Hstep; [now left | exact Hacc].
Qed.

Lemma setAdd_Forall (P : jsstring -> Prop) (set : list jsstring)
    (x : jsstring) :
  Forall P set -> P x -> Forall P (setAdd set x).
Proof.
  intros Hset Hx; unfold setAdd; destruct (arrIncludes set x); [exact Hset|].
  apply Forall_app; split; [exact Hset | now constructor].
Qed.

Lemma fold_each_In {A : Type}
    (step : list jsstring -> A -> list jsstring)
    (adds : A -> jsstring -> Prop) :
  (forall set x y, In y (step set x) <-> In y set \/ adds x y) ->
  forall xs y set,
    In y (fold_left step xs set)
    <-> In y set \/ exists x, In x xs /\ adds x y.
Proof.
  intros Hstep xs y; induction xs as [|x xs IH]; intros set; cbn [fold_left].
  - split; [now left | intros [H | (x & [] & _)]; exact H].
  - rewrite IH, Hstep; split.
    + intros [[H | H] | (x' & Hx' & H)].
      * now left.
      * right; exists x; split; [now left | exact H].
      * right; exists x'; split; [now right | exact H].
    + intros [H | (x' & [<- | Hx'] & H)].
      * left; now left.
      * left; now right.
      * right; now exists x'.
Qed.

Lemma fold_setAdd_if_In (keep : jsstring -> bool)
    (xs : list jsstring) (y : jsstring) :
  forall set,
    In y (fold_left (fun skills x => if keep x then setAdd skills x else skills)
            xs set)
    <-> In y set \/ (In y xs /\ keep y = true).
Proof.
  induction xs as [|x xs IH]; intros set; cbn [fold_left].
  - split; [now left | intros [H | [[] _]]; exact H].
  - rewrite IH; destruct (keep x) eqn:Hx.
    + rewrite setAdd_In; split.
      * intros [[H | ->] | [H1 H2]]; [now left | | ].
        -- right; split; [now left | exact Hx].
        -- right; split; [now right | exact H2].
      * intros [H | [[<- | H1] H2]].
        -- left; now left.
        -- left; now right.
        -- right; now split.
    + split.
      * intros [H | [H1 H2]]; [now left | right; split; [now right | exact H2]].
      * intros [H | [[<- | H1] H2]];
          [now left | congruence | right; now split].
Qed.

(** X20.  The skills of a resume are pairwise different, and they are these:
    the skills that [extractSkillsFromText] takes from a match of one of the
    three skills section patterns in the content, and the skills of the
    vocabulary whose lower-case form occurs in the lower-cased content.
    Each one is in the vocabulary or has 2 to 49 code units. *)
Theorem extractSkills_distinct (content : jsstring) :
  NoDup (extractSkills content) /\
  (forall skill,
     In skill (extractSkills content) <->
     (exists regex found,
        In regex skillsSections /\
        In found (matchAll regex content) /\
        In skill (extractSkillsFromText found)) \/
     (In skill commonSkills /\
      includes (toLowerCase content) (toLowerCase skill) = true)) /\
  Forall (fun skill => In skill commonSkills \/ 1 < length skill < 50)
         (extractSkills content).
Proof.
  assert (Hin : forall skill,
             In skill (extractSkills content) <->
             (exists regex found,
                In regex skillsSections /\
                In found (matchAll regex content) /\
                In skill (extractSkillsFromText found)) \/
             (In skill commonSkills /\
              includes (toLowerCase content) (toLowerCase skill) = true)).
  { intros skill; unfold extractSkills.
    rewrite (fold_setAdd_if_In
               (fun skill => includes (toLowerCase content) (toLowerCase skill))).
    apply or_iff_compat_r.
    unfold sectionSkills.
    rewrite (fold_each_In _
               (fun regex skill =>
                  exists found,
                    In found (matchAll regex content) /\
                    In skill (extractSkillsFromText found))).
    - split.
      + intros [[] | (regex & Hregex & found & H)].
        now exists regex, found.
      + intros (regex & found & Hregex & H).
        right; exists regex; split; [exact Hregex | now exists found].
    - intros set regex y.
      apply (fold_each_In _ (fun found skill =>
                               In skill (extractSkillsFromText found))).
      intros set' found y'; apply fold_setAdd_In. }
  split; [|split; [exact Hin|]].
  - unfold extractSkills.
    apply fold_left_preserves.
    + intros acc skill _ ND.
      destruct (includes _ _); [now apply setAdd_NoDup | exact ND].
    + unfold sectionSkills.
      apply fold_left_preserves; [|constructor].
      intros acc regex _ Hacc.
      apply fold_left_preserves; [|exact Hacc].
      intros acc' found _ Hacc'.
      now apply fold_setAdd_NoDup.
  - apply Forall_forall; intros skill Hskill.
    pose proof (proj1 (Hin skill) Hskill) as Hfrom.
    clear Hin Hskill.
    destruct Hfrom as [(regex & found & _ & _ & H) | [H _]].
    + right.
      apply extractSkillsFromText_In in H.
      destruct H as (_ & _ & _ & Hlen).
      apply andb_true_iff in Hlen; destruct Hlen as [H1 H2].
      apply Nat.ltb_lt in H1, H2; lia.
    + left; exact H.
Qed.


(** *** The contact details *)

Lemma denotes_digits (n : nat) :
  forall m, denotes (times n digit) m ->
            length m = n /\ forallb isDigit m = true.
Proof.
  induction n as [|n IH]; intros m D.
  - inversion D; subst; now split.
  - destruct n as [|n].
    + inversion D; subst; cbn; split; [reflexivity|].
      match goal with H : isDigit _ = true |- _ => now rewrite H end.
    + change (times (S (S n)) digit)
        with (Seq digit (times (S n) digit)) in D.
      inversion D as [| |r1 r2 m1 m2 D1 D2| | | | | | |]; subst.
      apply IH in D2; destruct D2 as [Hlen Hall].
      inversion D1; subst; cbn [app length forallb].
      match goal with H : isDigit _ = true |- _ => rewrite H end.
      split; [now f_equal | exact Hall].
Qed.

Lemma digits_counted (m : jsstring) :
  forallb isDigit m = true -> length (filter isDigit m) = length m.
Proof.
  induction m as [|c m IH]; [reflexivity|]; cbn [forallb filter].
  intros H; apply andb_true_iff in H; destruct H as [Hc Hm].
  rewrite Hc; cbn [length]; now rewrite IH.
Qed.

Lemma denotes_phone (m : jsstring) :
  denotes phoneRegex m -> 10 <= length (filter isDigit m).
Proof.
  unfold phoneRegex; intros D.
  apply RegexFacts.denotes_seqs in D; destruct D as (ms & F & ->).
  inversion F as [|r1 m1 rs1 ms1 D1 F1]; subst.
  inversion F1 as [|r2 m2 rs2 ms2 D2 F2]; subst.
  inversion F2 as [|r3 m3 rs3 ms3 D3 F3]; subst.
  inversion F3 as [|r4 m4 rs4 ms4 D4 F4]; subst.
  inversion F4 as [|r5 m5 rs5 ms5 D5 F5]; subst.
  inversion F5 as [|r6 m6 rs6 ms6 D6 F6]; subst.
  inversion F6 as [|r7 m7 rs7 ms7 D7 F7]; subst.
  inversion F7 as [|r8 m8 rs8 ms8 D8 F8]; subst.
  apply (denotes_digits 3) in D3, D6; apply (denotes_digits 4) in D8.
  destruct D3 as [L3 A3], D6 as [L6 A6], D8 as [L8 A8].
  apply digits_counted in A3, A6, A8.
  cbn [concat]; rewrite !filter_app, !length_app; lia.
Qed.

Lemma denotes_email (m : jsstring) : denotes emailRegex m -> In 64%N m.
Proof.
  unfold emailRegex; intros D.
  apply RegexFacts.denotes_seqs in D; destruct D as (ms & F & ->).
  inversion F as [|r1 m1 rs1 ms1 D1 F1]; subst.
  inversion F1 as [|r2 m2 rs2 ms2 D2 F2]; subst.
  inversion D2 as [|p c Hp| | | | | | | |]; subst.
  apply N.eqb_eq in Hp; subst c.
  cbn [concat]; rewrite !in_app_iff; right; left; now left.
Qed.

(** What a literal followed by something matches opens with the literal,
    up to case. *)
Lemma denotes_prefix_i (w : string) (r : re) (m : jsstring) :
  forallb (fun d => (d <? 128)%N && negb (isUpperAZ d)) (lit w) = true ->
  denotes (Seq (text_i w) r) m ->
  toLowerCase (firstn (length (lit w)) m) = lit w.
Proof.
  intros Hw D.
  inversion D as [| |r1 r2 m1 m2 D1 D2| | | | | | |]; subst.
  pose proof (denotes_text_i w m1 Hw D1) as E.
  assert (Hlen : length (lit w) = length m1).
  { rewrite <- E; unfold toLowerCase; now rewrite length_map. }
  now rewrite Hlen, RegexFacts.firstn_app_length.
Qed.

(** X21.  Every contact detail that is found occurs in the text.  The
    email has an at sign, the phone number at least ten digits, and the
    profile addresses open, up to case, with linkedin.com/in/ and with
    github.com/. *)
Theorem contact_details_occur (content : jsstring) :
  let info := extractContactInfo content in
  (forall found, email info = Some found ->
     includes content found = true /\ In 64%N found) /\
  (forall found, phone info = Some found ->
     includes content found = true /\ 10 <= length (filter isDigit found)) /\
  (forall found, linkedin info = Some found ->
     includes content found = true /\
     toLowerCase (firstn 16 found) = lit "linkedin.com/in/") /\
  (forall found, github info = Some found ->
     includes content found = true /\
     toLowerCase (firstn 11 found) = lit "github.com/").
Proof.
  unfold extractContactInfo, firstMatch; cbn [email phone linkedin github].
  repeat split;
    match goal with
    | H : firstFrom _ _ _ = Some _ |- _ =>
        apply RegexFacts.firstFrom_sound in H; destruct H as [D Hsub]
    end; try exact Hsub.
  - now apply denotes_email.
  - now apply denotes_phone.
  - exact (denotes_prefix_i "linkedin.com/in/" _ _ eq_refl D).
  - exact (denotes_prefix_i "github.com/" _ _ eq_refl D).
Qed.

Lemma contact_details_occur_witness :
  email (extractContactInfo (lit "Ann <ann@example.org>, +1 555 010 9999"))
  = Some (lit "ann@example.org") /\
  includes (lit "Ann <ann@example.org>, +1 555 010 9999")
           (lit "ann@example.org") = true /\
  In 64%N (lit "ann@example.org").
Proof.
  split; [vm_compute; reflexivity|].
  destruct (contact_details_occur
              (lit "Ann <ann@example.org>, +1 555 010 9999")) as (H & _).
  apply H; vm_compute; reflexivity.
Defined.


(** *** The sections *)

(** The pieces of a split occur in the subject. *)
Lemma splitFrom_In (r : re) (x : jsstring) :
  forall s prev,
    (forall piece, In x (splitFrom r 0 piece prev s) ->
                   includes (rev piece ++ s) x = true) /\
    (forall skip, In x (splitFrom r skip [] prev s) -> includes s x = true).
Proof.
  induction s as [|c s IH]; intros prev.
  - split; [intros piece | intros skip]; intros H.
    + cbn [splitFrom] in H; destruct H as [<- | []].
      rewrite app_nil_r; apply includes_refl.
    + destruct skip; cbn [splitFrom] in H; destruct H as [<- | []];
        reflexivity.
  - assert (Hsuffix : forall piece y,
              includes (c :: s) y = true ->
              includes (rev piece ++ c :: s) y = true).
    { intros piece y Hy; apply (includes_trans _ (c :: s)); [|exact Hy].
      apply includes_spec; exists (rev piece), []; now rewrite app_nil_r. }
    assert (Hzero : forall piece,
              In x (splitFrom r 0 piece prev (c :: s)) ->
              includes (rev piece ++ c :: s) x = true).
    { intros piece H; cbn [splitFrom] in H.
      destruct (execAt r prev (c :: s)) as [[|len]|].
      - destruct piece as [|d piece].
        + apply (proj1 (IH (Some c))) in H; exact H.
        + destruct H as [<- | H].
          * apply includes_spec; exists [], (c :: s); reflexivity.
          * apply (proj1 (IH (Some c))) in H; now apply Hsuffix.
      - destruct H as [<- | H].
        + apply includes_spec; exists [], (c :: s); reflexivity.
        + apply (proj2 (IH (Some c))) in H.
          now apply Hsuffix, RegexFacts.includes_cons.
      - apply (proj1 (IH (Some c))) in H.
        cbn [rev] in H; now rewrite <- app_assoc in H. }
    split; [exact Hzero|].
    intros [|skip] H; [exact (Hzero [] H)|].
    cbn [splitFrom] in H; apply (proj2 (IH (Some c))) in H.
    now apply RegexFacts.includes_cons.
Qed.

Lemma split_In (r : re) (s x : jsstring) :
  In x (split r s) -> includes s x = true.
Proof.
  unfold split; destruct s as [|c s].
  - destruct (execAt r None []); [contradiction|].
    intros [<- | []]; reflexivity.
  - apply (proj2 (splitFrom_In r x (c :: s) None)).
Qed.

Lemma longPieces_In (minimum : nat) (pieces : list jsstring)
    (entry : jsstring) :
  In entry (longPieces minimum pieces) ->
  minimum < length entry /\
  exists piece, In piece pieces /\ entry = trim piece.
Proof.
  unfold longPieces; intros H; apply filter_In in H; destruct H as [H Hlen].
  apply Nat.ltb_lt in Hlen; split; [exact Hlen|].
  apply in_map_iff in H; destruct H as (piece & <- & H); now exists piece.
Qed.

(** A section that is found occurs in the text and opens with its
    header. *)
Lemma firstSection_header (header : re) (stops : list re)
    (content found : jsstring) :
  firstSection (section header stops) content = Some found ->
  includes content found = true /\
  exists h, denotes header h /\ includes found h = true.
Proof.
  unfold firstSection, firstMatchUntil.
  destruct (firstUntilFrom _ _ None content) as [[|c f]|] eqn:E;
    try discriminate.
  intros [= <-].
  apply RegexFacts.firstUntilFrom_sound in E; destruct E as [D Hsub].
  split; [exact Hsub|].
  cbn [body section] in D.
  apply RegexFacts.denotes_seqs in D; destruct D as (ms & F & E).
  inversion F as [|r1 h rs1 ms1 D1 F1]; subst.
  exists h; split; [exact D1|].
  rewrite E; apply includes_spec; now exists [], (concat ms1).
Qed.

Lemma includes_concat (ms : list jsstring) (m : jsstring) :
  In m ms -> includes (concat ms) m = true.
Proof.
  intros H; apply in_split in H; destruct H as (l1 & l2 & ->).
  rewrite concat_app; cbn [concat].
  apply includes_spec; now exists (concat l1), (concat l2).
Qed.

(** What a sequence with a case-insensitive literal matches holds the
    literal, up to case. *)
Lemma denotes_holds_word (w : string) (rs : list re) (h : jsstring) :
  forallb (fun d => (d <? 128)%N && negb (isUpperAZ d)) (lit w) = true ->
  In (text_i w) rs -> denotes (seqs rs) h ->
  includes (toLowerCase h) (lit w) = true.
Proof.
  intros Hw Hin D.
  apply RegexFacts.denotes_seqs in D; destruct D as (ms & F & ->).
  assert (Hm : exists m, In m ms /\ denotes (text_i w) m).
  { clear Hw; induction F as [|r m rs ms Dm F IH]; [contradiction|].
    destruct Hin as [-> | Hin]; [exists m; split; [now left | exact Dm]|].
    destruct (IH Hin) as (m' & Hm' & Dm'); exists m'; split;
      [now right | exact Dm']. }
  destruct Hm as (m & Hm & Dm).
  rewrite <- (denotes_text_i w m Hw Dm).
  now apply includes_map, includes_concat.
Qed.

(** A section whose header holds a word is not found in a text without
    the word. *)
Lemma firstSection_none (w : string) (rs stops : list re) (header : re)
    (content : jsstring) :
  forallb (fun d => (d <? 128)%N && negb (isUpperAZ d)) (lit w) = true ->
  In (text_i w) rs -> header = seqs rs ->
  includes (toLowerCase content) (lit w) = false ->
  firstSection (section header stops) content = None.
Proof.
  intros Hw Hin -> Hnone.
  destruct (firstSection _ content) as [found|] eqn:E; [|reflexivity].
  apply firstSection_header in E; destruct E as (Hsub & h & D & Hh).
  apply (denotes_holds_word w rs h Hw Hin) in D.
  assert (Hc : includes (toLowerCase content) (lit w) = true).
  { apply (includes_trans _ (toLowerCase h)); [|exact D].
    apply includes_map, (includes_trans _ found); assumption. }
  congruence.
Qed.

Lemma extractExperience_none (content : jsstring) :
  includes (toLowerCase content) (lit "experience") = false ->
  includes (toLowerCase content) (lit "employment") = false ->
  extractExperience content = [].
Proof.
  intros H1 H2; unfold extractExperience, experienceRegex.
  cbn [fold_left].
  rewrite (firstSection_none "experience"
             [opt (Seq (text_i "work") (plus ws)); text_i "experience"]
             _ _ content eq_refl (or_intror (or_introl eq_refl)) eq_refl H1).
  rewrite (firstSection_none "experience"
             [text_i "professional"; plus ws; text_i "experience"]
             _ _ content eq_refl
             (or_intror (or_intror (or_introl eq_refl))) eq_refl H1).
  rewrite (firstSection_none "employment"
             [text_i "employment"; plus ws; text_i "history"]
             _ _ content eq_refl (or_introl eq_refl) eq_refl H2).
  reflexivity.
Qed.

Lemma extractEducation_none (content : jsstring) :
  includes (toLowerCase content) (lit "education") = false ->
  includes (toLowerCase content) (lit "academic") = false ->
  extractEducation content = [].
Proof.
  intros H1 H2; unfold extractEducation, educationRegex.
  cbn [fold_left].
  rewrite (firstSection_none "education" [text_i "education"]
             _ _ content eq_refl (or_introl eq_refl) eq_refl H1).
  rewrite (firstSection_none "academic"
             [text_i "academic"; plus ws; text_i "background"]
             _ _ content eq_refl (or_introl eq_refl) eq_refl H2).
  reflexivity.
Qed.

Lemma extractProjects_none (content : jsstring) :
  includes (toLowerCase content) (lit "project") = false ->
  extractProjects content = [].
Proof.
  intros H; unfold extractProjects, projectsRegex.
  cbn [fold_left].
  rewrite (firstSection_none "project"
             [text_i "project"; opt (text_i "s")]
             _ _ content eq_refl (or_introl eq_refl) eq_refl H).
  rewrite (firstSection_none "project"
             [text_i "key"; plus ws; text_i "project"; opt (text_i "s")]
             _ _ content eq_refl
             (or_intror (or_intror (or_introl eq_refl))) eq_refl H).
  reflexivity.
Qed.


Lemma section_pieces (Q : jsstring -> Prop) (regexes : list SectionRegex)
    (pieces : jsstring -> list jsstring) (content : jsstring) :
  (forall regex found entry,
     firstSection regex content = Some found ->
     In entry (pieces found) -> Q entry) ->
  Forall Q
    (fold_left
       (fun entries regex =>
          match firstSection regex content with
          | Some found => entries ++ pieces found
          | None => entries
          end)
       regexes []).
Proof.
  intros H; apply fold_left_preserves; [|constructor].
  intros acc regex _ Hacc.
  destruct (firstSection regex content) as [found|] eqn:E; [|exact Hacc].
  apply Forall_app; split; [exact Hacc|].
  apply Forall_forall; intros entry; now apply (H regex found).
Qed.

Lemma firstSection_occurs (regex : SectionRegex) (content found : jsstring) :
  firstSection regex content = Some found -> includes content found = true.
Proof.
  destruct regex as [b s]; unfold firstSection, firstMatchUntil.
  destruct (firstUntilFrom _ _ None content) as [[|c f]|] eqn:E;
    try discriminate.
  intros [= <-]; now apply RegexFacts.firstUntilFrom_sound in E.
Qed.

(** X22.  Every experience entry has more than 20 code units and occurs in
    the text; a text that holds neither [experience] nor [employment], in
    whatever case, has no experience entry. *)
Theorem extractExperience_entries (content : jsstring) :
  Forall (fun entry => 20 < length entry /\ includes content entry = true)
         (extractExperience content) /\
  (includes (toLowerCase content) (lit "experience") = false ->
   includes (toLowerCase content) (lit "employment") = false ->
   extractExperience content = []).
Proof.
  split; [|apply extractExperience_none].
  apply (section_pieces _ experienceRegex
           (fun found => longPieces 20 (split jobEntryBreak found))).
  intros regex found entry Hfound Hentry.
  apply longPieces_In in Hentry; destruct Hentry as (Hlen & piece & Hp & ->).
  split; [exact Hlen|].
  apply (includes_trans _ piece); [|apply trim_includes].
  apply (includes_trans _ found); [exact (firstSection_occurs regex content found Hfound)|].
  now apply split_In in Hp.
Qed.

Lemma extractExperience_entries_witness :
  extractExperience (lit "Python services at Acme since 2019") = [].
Proof.
  apply (extractExperience_entries (lit "Python services at Acme since 2019"));
    vm_compute; reflexivity.
Defined.

(** X23.  Every education entry has more than 10 code units and occurs in
    the text; a text that holds neither [education] nor [academic], in
    whatever case, has no education entry. *)
Theorem extractEducation_entries (content : jsstring) :
  Forall (fun entry => 10 < length entry /\ includes content entry = true)
         (extractEducation content) /\
  (includes (toLowerCase content) (lit "education") = false ->
   includes (toLowerCase content) (lit "academic") = false ->
   extractEducation content = []).
Proof.
  split; [|apply extractEducation_none].
  apply (section_pieces _ educationRegex
           (fun found =>
              map trim (filter (fun line => 10 <? length (trim line))
                               (splitLines found)))).
  intros regex found entry Hfound Hentry.
  apply in_map_iff in Hentry; destruct Hentry as (line & <- & Hline).
  apply filter_In in Hline; destruct Hline as [Hline Hlen].
  apply Nat.ltb_lt in Hlen; split; [exact Hlen|].
  apply (includes_trans _ line); [|apply trim_includes].
  apply (includes_trans _ found); [exact (firstSection_occurs regex content found Hfound)|].
  now apply splitOn_In in Hline.
Qed.

Lemma extractEducation_entries_witness :
  extractEducation (lit "Python services at Acme since 2019") = [].
Proof.
  apply (extractEducation_entries (lit "Python services at Acme since 2019"));
    vm_compute; reflexivity.
Defined.

(** X24.  Every project entry has more than 20 code units and occurs in
    the text; a text that does not hold [project], in whatever case, has no
    project entry. *)
Theorem extractProjects_entries (content : jsstring) :
  Forall (fun entry => 20 < length entry /\ includes content entry = true)
         (extractProjects content) /\
  (includes (toLowerCase content) (lit "project") = false ->
   extractProjects content = []).
Proof.
  split; [|apply extractProjects_none].
  apply (section_pieces _ projectsRegex
           (fun found => longPieces 20 (split projectBreak found))).
  intros regex found entry Hfound Hentry.
  apply longPieces_In in Hentry; destruct Hentry as (Hlen & piece & Hp & ->).
  split; [exact Hlen|].
  apply (includes_trans _ piece); [|apply trim_includes].
  apply (includes_trans _ found); [exact (firstSection_occurs regex content found Hfound)|].
  now apply split_In in Hp.
Qed.

Lemma extractProjects_entries_witness :
  extractProjects (lit "Python services at Acme since 2019") = [].
Proof.
  apply (extractProjects_entries (lit "Python services at Acme since 2019"));
    vm_compute; reflexivity.
Defined.

(** X25.  From the pasted text to the formatting score: a text that holds
    neither [experience] nor [employment] is reported as missing the
    experience section, and its formatting score is at most 70. *)
Theorem pasted_text_without_experience (text : jsstring) :
  includes (toLowerCase text) (lit "experience") = false ->
  includes (toLowerCase text) (lit "employment") = false ->
  let parsed := parseTextResume text in
  let analysis :=
    AtsEngine.calculateFormattingScore
      {| AtsEngine.content := content parsed;
         AtsEngine.skills := skills parsed;
         AtsEngine.experience := experience parsed;
         AtsEngine.education := education parsed;
         AtsEngine.projects := projects parsed |} in
  In (lit "Missing experience section") (AtsEngine.issues analysis) /\
  (AtsEngine.fmtScore analysis <= 70)%Z.
Proof.
  intros H1 H2; cbv zeta.
  unfold parseTextResume; cbn [content skills experience education projects].
  rewrite (extractExperience_none text H1 H2).
  unfold AtsEngine.calculateFormattingScore, AtsEngine.penalize.
  cbn [AtsEngine.content AtsEngine.skills AtsEngine.experience
       AtsEngine.education AtsEngine.issues AtsEngine.fmtScore
       length Nat.ltb Nat.leb negb].
  repeat match goal with
         | |- context [lit ?s] => generalize (lit s); intro
         end.
  repeat match goal with
         | |- context [if ?b then _ else _] => destruct b
         end;
    cbn [fst snd app In]; (split; [tauto | lia]).
Qed.

Lemma pasted_text_without_experience_witness :
  In (lit "Missing experience section")
     (AtsEngine.issues
        (AtsEngine.calculateFormattingScore
           {| AtsEngine.content := lit "Python services";
              AtsEngine.skills := extractSkills (lit "Python services");
              AtsEngine.experience :=
                extractExperience (lit "Python services");
              AtsEngine.education := extractEducation (lit "Python services");
              AtsEngine.projects :=
                extractProjects (lit "Python services") |})).
Proof.
  apply (pasted_text_without_experience (lit "Python services"));
    vm_compute; reflexivity.
Defined.

End ParserExtras.
